(** * Distillation engine of phosphor: state versions, signals and runs

    A shallow embedding of [backend/app/services/distillation.py],
    [backend/app/tasks/distill.py], the row classes of [backend/app/models],
    the schemas of [backend/app/schemas/lab_state.py] and
    [backend/app/schemas/signal.py] and the routes of
    [backend/app/api/routes/states.py] and
    [backend/app/api/routes/signals.py], followed by the properties of the
    distillation specification and by further properties of the code.

    The database is a record of tables (lists of rows), a SQLAlchemy session
    is the image of the database its transaction sees, exceptions are values
    of an inductive type, and everything that lives outside the repository
    (the completion service, [json], [tiktoken], the UUID and clock defaults
    of the database server, what a JSONB column makes of a value) is a field
    of the records [Env] and [Server]. *)

From Stdlib Require Import ZArith NArith List Bool Lia String Ascii.
From Stdlib Require Import DecimalString Permutation Sorted.
Import ListNotations.
Open Scope Z_scope.

(* ===================================================================== *)
(** ** Python strings                                                     *)
(* ===================================================================== *)

Module PyStr.

(** A Python [str] is a sequence of Unicode code points. *)
Definition str := list N.

(** A literal of the source, written as a Rocq string of ASCII characters. *)
Definition lit (s : string) : str :=
  map N_of_ascii (list_ascii_of_string s).

Definition eqb (a b : str) : bool :=
  if list_eq_dec N.eq_dec a b then true else false.

Definition len (s : str) : Z := Z.of_nat (List.length s).

(** [str.isspace] on one code point: the whitespace table of CPython. *)
Definition isspace (c : N) : bool :=
  ((9 <=? c) && (c <=? 13) || (28 <=? c) && (c <=? 32)
   || (c =? 133) || (c =? 160) || (c =? 5760)
   || (8192 <=? c) && (c <=? 8202)
   || (c =? 8232) || (c =? 8233) || (c =? 8239) || (c =? 8287)
   || (c =? 12288))%N.

Fixpoint lstrip (s : str) : str :=
  match s with
  | [] => []
  | c :: r => if isspace c then lstrip r else s
  end.

Definition rstrip (s : str) : str := rev (lstrip (rev s)).

(** [s.strip()] *)
Definition strip (s : str) : str := rstrip (lstrip s).

(** [s.startswith(p)] *)
Fixpoint startswith (s p : str) : bool :=
  match p, s with
  | [], _ => true
  | _ :: _, [] => false
  | a :: p', b :: s' => (a =? b)%N && startswith s' p'
  end.

Definition newline : N := 10%N.

(** [s.split("\n")]: never empty, one more piece than there are newlines. *)
Fixpoint split_lines (s : str) : list str :=
  match s with
  | [] => [[]]
  | c :: r =>
      if (c =? newline)%N then [] :: split_lines r
      else match split_lines r with
           | [] => [[c]]
           | l :: ls => (c :: l) :: ls
           end
  end.

(** [sep.join(ls)] *)
Fixpoint join (sep : str) (ls : list str) : str :=
  match ls with
  | [] => []
  | [l] => l
  | l :: ls' => l ++ sep ++ join sep ls'
  end.

(** [str(n)] for a natural number. *)
Definition of_nat (n : nat) : str :=
  lit (DecimalString.NilEmpty.string_of_uint (Nat.to_uint n)).

(** The slice [xs[1:-1]]: without the first and without the last element;
    empty when [xs] has fewer than three elements. *)
Definition slice_1_m1 {A : Type} (xs : list A) : list A :=
  removelast (tl xs).

End PyStr.

Import PyStr.

(** The three backquotes that open a Markdown code block. *)
Definition fence : str := lit "```".

(** Lines 155-161 of [run_distillation]: the text handed to [json.loads]
    for the [content] of the completion. *)
Definition response_text (content : str) : str :=
  let response_text := strip content in
  if startswith response_text fence then
    let lines := split_lines response_text in
    join [newline] (slice_1_m1 lines)
  else response_text.

(* ===================================================================== *)
(** ** JSON values                                                        *)
(* ===================================================================== *)

Module Json.

#[local] Set Warnings "-register-all".

(** What [json.loads] returns and what a JSONB column holds: [None], a
    [bool], an [int], a [float] (by the bit pattern of its binary64 value),
    a [str], a [list] or a [dict] with string keys (in insertion order). *)
Inductive value : Type :=
| JNull
| JBool (b : bool)
| JInt (z : Z)
| JFloat (bits : N)
| JStr (s : str)
| JList (items : list value)
| JObj (fields : list (str * value)).

(** [d.get(key)] on the fields of a dict. *)
Fixpoint get (key : str) (fields : list (str * value)) : option value :=
  match fields with
  | [] => None
  | (k, v) :: rest => if PyStr.eqb k key then Some v else get key rest
  end.

End Json.

Import Json.

(* ===================================================================== *)
(** ** The state schema ([schemas/lab_state.py])                          *)
(* ===================================================================== *)

(** Validation of a Python object against a pydantic model with
    [ConfigDict(strict=True)]: no coercion between types, [None] for a
    [ValidationError]. A key that is absent takes the default of its field
    (or fails when the field is required, [Field(...)]), a key the model
    does not declare is ignored. *)
Module Strict.

Definition bind {A B : Type} (x : option A) (f : A -> option B) : option B :=
  match x with
  | Some a => f a
  | None => None
  end.

Notation "x <- c ;; k" := (bind c (fun x => k))
  (at level 61, c at next level, right associativity).

(** [str] with [min_length] and [max_length]. *)
Definition v_str (min_length max_length : Z) (v : value) : option str :=
  match v with
  | JStr s =>
      if (min_length <=? len s) && (len s <=? max_length) then Some s else None
  | _ => None
  end.

(** [str] without constraints (an element of a [list[str]]). *)
Definition v_any_str (v : value) : option str :=
  match v with
  | JStr s => Some s
  | _ => None
  end.

(** [str | None] with [max_length]. *)
Definition v_opt_str (max_length : Z) (v : value) : option (option str) :=
  match v with
  | JNull => Some None
  | JStr s => if len s <=? max_length then Some (Some s) else None
  | _ => None
  end.

Fixpoint all_some {A : Type} (xs : list (option A)) : option (list A) :=
  match xs with
  | [] => Some []
  | x :: rest => a <- x ;; r <- all_some rest ;; Some (a :: r)
  end.

(** [list[T]] with [max_length]. *)
Definition v_list {A : Type} (max_length : Z) (item : value -> option A)
    (v : value) : option (list A) :=
  match v with
  | JList items =>
      if Z.of_nat (List.length items) <=? max_length
      then all_some (map item items) else None
  | _ => None
  end.

(** [int] with [ge]. A [bool] is not an [int] in strict mode. *)
Definition v_int_ge (ge : Z) (v : value) : option Z :=
  match v with
  | JInt z => if ge <=? z then Some z else None
  | _ => None
  end.

(** A [Literal[...]] of strings, read into an enumeration. *)
Fixpoint v_literal {A : Type} (options : list (string * A)) (v : value)
    : option A :=
  match options with
  | [] => None
  | (name, a) :: rest =>
      match v with
      | JStr s => if PyStr.eqb s (lit name) then Some a else v_literal rest v
      | _ => None
      end
  end.

(** A required field, [Field(...)]. *)
Definition required {A : Type} (fields : list (str * value)) (key : string)
    (item : value -> option A) : option A :=
  v <- Json.get (lit key) fields ;; item v.

(** A field with a default. *)
Definition optional {A : Type} (fields : list (str * value)) (key : string)
    (default : A) (item : value -> option A) : option A :=
  match Json.get (lit key) fields with
  | None => Some default
  | Some v => item v
  end.

(** A model is validated from a [dict]. *)
Definition v_model {A : Type} (of_fields : list (str * value) -> option A)
    (v : value) : option A :=
  match v with
  | JObj fields => of_fields fields
  | _ => None
  end.

Definition d_str (s : str) : value := JStr s.

Definition d_opt_str (s : option str) : value :=
  match s with
  | Some x => JStr x
  | None => JNull
  end.

Definition d_list {A : Type} (item : A -> value) (xs : list A) : value :=
  JList (map item xs).

End Strict.

Import Strict.

Inductive Proficiency := expert | competent | learning.
Inductive Confidence := high | medium | low.
Inductive Outcome := success | partial | failed_outcome.

Definition proficiency_names : list (string * Proficiency) :=
  [("expert", expert); ("competent", competent); ("learning", learning)]%string.
Definition confidence_names : list (string * Confidence) :=
  [("high", high); ("medium", medium); ("low", low)]%string.
Definition outcome_names : list (string * Outcome) :=
  [("success", success); ("partial", partial); ("failed", failed_outcome)]%string.

Definition proficiency_str (p : Proficiency) : str :=
  match p with
  | expert => lit "expert" | competent => lit "competent"
  | learning => lit "learning"
  end.
Definition confidence_str (c : Confidence) : str :=
  match c with
  | high => lit "high" | medium => lit "medium" | low => lit "low"
  end.
Definition outcome_str (o : Outcome) : str :=
  match o with
  | success => lit "success" | partial => lit "partial"
  | failed_outcome => lit "failed"
  end.

Module Equipment.
Record t := { name : str; capabilities : list str; limitations : option str }.
Definition of_fields (f : list (str * value)) : option t :=
  name <- required f "name" (v_str 1 200) ;;
  capabilities <- optional f "capabilities" [] (v_list 20 v_any_str) ;;
  limitations <- optional f "limitations" None (v_opt_str 500) ;;
  Some {| name := name; capabilities := capabilities;
          limitations := limitations |}.
Definition model_dump (x : t) : value :=
  JObj [(lit "name", d_str (name x));
        (lit "capabilities", d_list d_str (capabilities x));
        (lit "limitations", d_opt_str (limitations x))].
End Equipment.

Module Technique.
Record t := { name : str; proficiency : Proficiency; notes : option str }.
Definition of_fields (f : list (str * value)) : option t :=
  name <- required f "name" (v_str 1 200) ;;
  proficiency <- required f "proficiency" (v_literal proficiency_names) ;;
  notes <- optional f "notes" None (v_opt_str 500) ;;
  Some {| name := name; proficiency := proficiency; notes := notes |}.
Definition model_dump (x : t) : value :=
  JObj [(lit "name", d_str (name x));
        (lit "proficiency", d_str (proficiency_str (proficiency x)));
        (lit "notes", d_opt_str (notes x))].
End Technique.

Module Expertise.
Record t := { domain : str; confidence : Confidence }.
Definition of_fields (f : list (str * value)) : option t :=
  domain <- required f "domain" (v_str 1 200) ;;
  confidence <- required f "confidence" (v_literal confidence_names) ;;
  Some {| domain := domain; confidence := confidence |}.
Definition model_dump (x : t) : value :=
  JObj [(lit "domain", d_str (domain x));
        (lit "confidence", d_str (confidence_str (confidence x)))].
End Expertise.

Module Organism.
Record t := { name : str; strains : list str; notes : option str }.
Definition of_fields (f : list (str * value)) : option t :=
  name <- required f "name" (v_str 1 200) ;;
  strains <- optional f "strains" [] (v_list 20 v_any_str) ;;
  notes <- optional f "notes" None (v_opt_str 500) ;;
  Some {| name := name; strains := strains; notes := notes |}.
Definition model_dump (x : t) : value :=
  JObj [(lit "name", d_str (name x));
        (lit "strains", d_list d_str (strains x));
        (lit "notes", d_opt_str (notes x))].
End Organism.

Module Reagent.
Record t := { name : str; quantity : option str; notes : option str }.
Definition of_fields (f : list (str * value)) : option t :=
  name <- required f "name" (v_str 1 200) ;;
  quantity <- optional f "quantity" None (v_opt_str 100) ;;
  notes <- optional f "notes" None (v_opt_str 500) ;;
  Some {| name := name; quantity := quantity; notes := notes |}.
Definition model_dump (x : t) : value :=
  JObj [(lit "name", d_str (name x));
        (lit "quantity", d_opt_str (quantity x));
        (lit "notes", d_opt_str (notes x))].
End Reagent.

Module ExperimentSummary.
Record t := { technique : str; outcome : Outcome; insight : str }.
Definition of_fields (f : list (str * value)) : option t :=
  technique <- required f "technique" (v_str 1 200) ;;
  outcome <- required f "outcome" (v_literal outcome_names) ;;
  insight <- required f "insight" (v_str 1 500) ;;
  Some {| technique := technique; outcome := outcome; insight := insight |}.
Definition model_dump (x : t) : value :=
  JObj [(lit "technique", d_str (technique x));
        (lit "outcome", d_str (outcome_str (outcome x)));
        (lit "insight", d_str (insight x))].
End ExperimentSummary.

Module ResourceConstraints.
Record t := { budget_notes : option str; time_constraints : option str;
              personnel_notes : option str }.
Definition default : t :=
  {| budget_notes := None; time_constraints := None;
     personnel_notes := None |}.
Definition of_fields (f : list (str * value)) : option t :=
  budget_notes <- optional f "budget_notes" None (v_opt_str 500) ;;
  time_constraints <- optional f "time_constraints" None (v_opt_str 500) ;;
  personnel_notes <- optional f "personnel_notes" None (v_opt_str 500) ;;
  Some {| budget_notes := budget_notes; time_constraints := time_constraints;
          personnel_notes := personnel_notes |}.
Definition model_dump (x : t) : value :=
  JObj [(lit "budget_notes", d_opt_str (budget_notes x));
        (lit "time_constraints", d_opt_str (time_constraints x));
        (lit "personnel_notes", d_opt_str (personnel_notes x))].
End ResourceConstraints.

Module LabStateData.
Record t := {
  equipment : list Equipment.t;
  techniques : list Technique.t;
  expertise : list Expertise.t;
  organisms : list Organism.t;
  reagents : list Reagent.t;
  experimental_history : list ExperimentSummary.t;
  resource_constraints : ResourceConstraints.t;
  signal_count : Z
}.

Definition of_fields (f : list (str * value)) : option t :=
  equipment <- optional f "equipment" []
                 (v_list 50 (v_model Equipment.of_fields)) ;;
  techniques <- optional f "techniques" []
                  (v_list 50 (v_model Technique.of_fields)) ;;
  expertise <- optional f "expertise" []
                 (v_list 30 (v_model Expertise.of_fields)) ;;
  organisms <- optional f "organisms" []
                 (v_list 20 (v_model Organism.of_fields)) ;;
  reagents <- optional f "reagents" []
                (v_list 50 (v_model Reagent.of_fields)) ;;
  experimental_history <- optional f "experimental_history" []
                (v_list 30 (v_model ExperimentSummary.of_fields)) ;;
  resource_constraints <- optional f "resource_constraints"
                ResourceConstraints.default
                (v_model ResourceConstraints.of_fields) ;;
  signal_count <- optional f "signal_count" 0 (v_int_ge 0) ;;
  Some {| equipment := equipment; techniques := techniques;
          expertise := expertise; organisms := organisms;
          reagents := reagents;
          experimental_history := experimental_history;
          resource_constraints := resource_constraints;
          signal_count := signal_count |}.

(** [LabStateData.model_validate(obj)] *)
Definition model_validate (obj : value) : option t := v_model of_fields obj.

(** [x.model_dump()] *)
Definition model_dump (x : t) : value :=
  JObj [(lit "equipment", d_list Equipment.model_dump (equipment x));
        (lit "techniques", d_list Technique.model_dump (techniques x));
        (lit "expertise", d_list Expertise.model_dump (expertise x));
        (lit "organisms", d_list Organism.model_dump (organisms x));
        (lit "reagents", d_list Reagent.model_dump (reagents x));
        (lit "experimental_history",
          d_list ExperimentSummary.model_dump (experimental_history x));
        (lit "resource_constraints",
          ResourceConstraints.model_dump (resource_constraints x));
        (lit "signal_count", JInt (signal_count x))].

(** [validated_state.signal_count = n] *)
Definition set_signal_count (x : t) (n : Z) : t :=
  {| equipment := equipment x; techniques := techniques x;
     expertise := expertise x; organisms := organisms x;
     reagents := reagents x;
     experimental_history := experimental_history x;
     resource_constraints := resource_constraints x;
     signal_count := n |}.

(** [LabStateData(signal_count=0)] *)
Definition empty : t :=
  {| equipment := []; techniques := []; expertise := []; organisms := [];
     reagents := []; experimental_history := [];
     resource_constraints := ResourceConstraints.default;
     signal_count := 0 |}.

End LabStateData.

(* ===================================================================== *)
(** ** Rows and tables ([models/])                                        *)
(* ===================================================================== *)

(** A UUID, as its 128-bit number. *)
Definition UUID := N.

(** [id in ids] *)
Definition in_ (ids : list UUID) (id : UUID) : bool :=
  existsb (N.eqb id) ids.

Module RawSignal.
Record t := {
  id : UUID;
  lab_id : UUID;
  signal_type : str;
  content : value;
  processed : bool;
  created_at : Z;
  created_by : str
}.
Definition set_processed (s : t) (b : bool) : t :=
  {| id := id s; lab_id := lab_id s; signal_type := signal_type s;
     content := content s; processed := b; created_at := created_at s;
     created_by := created_by s |}.
End RawSignal.

Module LabState.
(** The JSONB column [state] only ever receives a
    [LabStateData.model_dump()] (run_distillation is the one writer of the
    table), so a row carries the [LabStateData] its dict was dumped from;
    [state.get("signal_count", 0)] is then the field [signal_count]. *)
Record t := {
  id : UUID;
  lab_id : UUID;
  version : Z;
  state : LabStateData.t;
  token_count : option Z;
  created_at : Z;
  created_by : option str
}.
End LabState.

(** The column [status] of a run: 'running', 'completed', 'failed'. *)
Inductive Status := running | completed | failed.

Module DistillationRun.
Record t := {
  id : UUID;
  lab_id : UUID;
  input_state_version : option Z;
  output_state_version : Z;
  signals_processed : list UUID;
  prompt_version : str;
  llm_model : str;
  started_at : Z;
  completed_at : option Z;
  status : Status
}.
(** [run.status = s; run.completed_at = t] *)
Definition finish (r : t) (s : Status) (at_ : Z) : t :=
  {| id := id r; lab_id := lab_id r;
     input_state_version := input_state_version r;
     output_state_version := output_state_version r;
     signals_processed := signals_processed r;
     prompt_version := prompt_version r; llm_model := llm_model r;
     started_at := started_at r; completed_at := Some at_; status := s |}.
End DistillationRun.

(** The database: the primary keys of [labs] (its other columns play no
    part here) and the three tables of the engine. A query sees every row
    of a table: the session of the task sets no [app.current_org_id], and
    the policies of the migration are enabled, not forced, so they do not
    bind the role that owns the tables. *)
Record DB := {
  labs : list UUID;
  lab_states : list LabState.t;
  raw_signals : list RawSignal.t;
  distillation_runs : list DistillationRun.t
}.

Definition empty_db (labs : list UUID) : DB :=
  {| labs := labs; lab_states := []; raw_signals := [];
     distillation_runs := [] |}.

(** [select(LabState).where(LabState.lab_id == lab_id)] *)
Definition states_of (db : DB) (lab_id : UUID) : list LabState.t :=
  filter (fun s => N.eqb (LabState.lab_id s) lab_id) (lab_states db).

(** [.order_by(LabState.version.desc()).limit(1)] with
    [scalar_one_or_none()]: the row of greatest version. *)
Fixpoint greatest_version (rows : list LabState.t) : option LabState.t :=
  match rows with
  | [] => None
  | r :: rest =>
      match greatest_version rest with
      | None => Some r
      | Some m =>
          if LabState.version m <? LabState.version r then Some r else Some m
      end
  end.

Definition current_state_of (db : DB) (lab_id : UUID) : option LabState.t :=
  greatest_version (states_of db lab_id).

(** [select(RawSignal).where(RawSignal.id.in_(signal_ids))] *)
Definition select_signals (db : DB) (signal_ids : list UUID)
    : list RawSignal.t :=
  filter (fun s => in_ signal_ids (RawSignal.id s)) (raw_signals db).

(** [update(RawSignal).where(RawSignal.id.in_(signal_ids))
      .values(processed=True)] *)
Definition mark_processed (db : DB) (signal_ids : list UUID) : DB :=
  {| labs := labs db; lab_states := lab_states db;
     raw_signals :=
       map (fun s => if in_ signal_ids (RawSignal.id s)
                     then RawSignal.set_processed s true else s)
           (raw_signals db);
     distillation_runs := distillation_runs db |}.

(** INSERT of a run: the primary key and the foreign key to [labs]. *)
Definition insert_run (db : DB) (r : DistillationRun.t) : option DB :=
  if existsb (fun x => N.eqb (DistillationRun.id x) (DistillationRun.id r))
       (distillation_runs db)
     || negb (in_ (labs db) (DistillationRun.lab_id r))
  then None
  else Some {| labs := labs db; lab_states := lab_states db;
               raw_signals := raw_signals db;
               distillation_runs := distillation_runs db ++ [r] |}.

(** UPDATE of the run the session holds, by primary key. *)
Definition update_run (db : DB) (r : DistillationRun.t) : DB :=
  {| labs := labs db; lab_states := lab_states db;
     raw_signals := raw_signals db;
     distillation_runs :=
       map (fun x => if N.eqb (DistillationRun.id x) (DistillationRun.id r)
                     then r else x)
           (distillation_runs db) |}.

(** The constraint [uq_lab_states_lab_version]. *)
Definition version_taken (db : DB) (lab_id : UUID) (version : Z) : bool :=
  existsb (fun x => N.eqb (LabState.lab_id x) lab_id
                    && (LabState.version x =? version))
          (lab_states db).

(** INSERT of a state version: the primary key, the foreign key to [labs]
    and the uniqueness of [(lab_id, version)]. *)
Definition insert_state (db : DB) (s : LabState.t) : option DB :=
  if existsb (fun x => N.eqb (LabState.id x) (LabState.id s)) (lab_states db)
     || negb (in_ (labs db) (LabState.lab_id s))
     || version_taken db (LabState.lab_id s) (LabState.version s)
  then None
  else Some {| labs := labs db; lab_states := lab_states db ++ [s];
               raw_signals := raw_signals db;
               distillation_runs := distillation_runs db |}.

(* ===================================================================== *)
(** ** The engine ([services/distillation.py])                            *)
(* ===================================================================== *)

(** The two settings the engine reads. *)
Record Settings := {
  llm_model : str;
  max_state_tokens : Z
}.

(** The request of [acompletion]; [temperature=0.1] is a constant of the
    call and is left out. *)
Record CompletionRequest := {
  model : str;
  system_content : str;
  user_content : str;
  max_tokens : Z
}.

(** What the engine gets from outside the repository during one attempt. *)
Record Env := {
  (** the module constant [SYSTEM_PROMPT] *)
  SYSTEM_PROMPT : str;
  (** [await acompletion(...)], then [response.choices[0].message.content]:
      [None] when the call or the access raises, [Some None] when the
      content is [None] *)
  acompletion : CompletionRequest -> option (option str);
  (** [json.loads], [None] for a [JSONDecodeError] *)
  json_loads : str -> option value;
  (** [json.dumps(_, indent=2)] *)
  json_dumps : value -> str;
  (** [validated_state.model_dump_json()] *)
  model_dump_json : LabStateData.t -> str;
  (** [len(tiktoken.get_encoding(model).encode(text))], [None] when
      tiktoken raises *)
  tiktoken_len : str -> str -> option Z;
  (** [gen_random_uuid()] for the run row and for the state row *)
  run_uuid : UUID;
  state_uuid : UUID;
  (** [now()] of the database and [datetime.now(UTC)] *)
  db_now : Z;
  utc_now : Z
}.

Definition PROMPT_VERSION : str := lit "v1.0.0".

Definition count_tokens (env : Env) (text : str) : Z :=
  match tiktoken_len env (lit "cl100k_base") text with
  | Some n => n
  | None => len text / 4
  end.

Definition create_empty_state : LabStateData.t := LabStateData.empty.

Inductive Cause :=
| CompletionError   (* acompletion raised *)
| NoContent         (* the content was None *)
| JSONDecodeError   (* json.loads *)
| ValidationError   (* LabStateData.model_validate *)
| FlushError.       (* the flush of the new state version *)

Inductive Exception :=
| NoSignalsFound                    (* ValueError("No signals found to process") *)
| DistillationFailed (cause : Cause) (* ValueError(f"Distillation failed: {e}") *)
| IntegrityError.                   (* the flush of the run row, before the try *)

(** [enumerate(signals)] from index [i]. *)
Fixpoint signal_texts (env : Env) (i : nat) (signals : list RawSignal.t)
    : list str :=
  match signals with
  | [] => []
  | s :: rest =>
      (lit "Signal " ++ PyStr.of_nat (i + 1) ++ lit " (type: "
       ++ RawSignal.signal_type s ++ lit "):" ++ [newline]
       ++ json_dumps env (RawSignal.content s))
      :: signal_texts env (S i) rest
  end.

Definition signals_text (env : Env) (signals : list RawSignal.t) : str :=
  join [newline; newline] (signal_texts env 0 signals).

(** Lines 134-140. The state is dumped from the model of its row; the dict
    the code reads from the JSONB column holds the same keys and values, the
    keys in the order of the server. *)
Definition user_prompt (env : Env) (current_state_data : LabStateData.t)
    (signals : list RawSignal.t) : str :=
  lit "Current state:" ++ [newline]
  ++ json_dumps env (LabStateData.model_dump current_state_data)
  ++ [newline; newline] ++ lit "New signals to incorporate:" ++ [newline]
  ++ signals_text env signals
  ++ [newline; newline] ++ lit "Output the updated lab state JSON:".

(** What an attempt holds when it reaches the [try]: the state and the
    signals it read, the version it computed and its run object. *)
Record Reservation := {
  current_state_data : LabStateData.t;
  input_version : option Z;
  new_version : Z;
  signals : list RawSignal.t;
  distillation_run : DistillationRun.t
}.

(** Lines 88-130: the two reads and the run object. *)
Definition reserve (env : Env) (settings : Settings) (db : DB)
    (lab_id : UUID) (signal_ids : list UUID) : Exception + Reservation :=
  let current_state := current_state_of db lab_id in
  let '(current_state_data, input_version, new_version) :=
    match current_state with
    | Some cs =>
        (LabState.state cs, Some (LabState.version cs),
         LabState.version cs + 1)
    | None => (create_empty_state, None, 1)
    end in
  let signals := select_signals db signal_ids in
  match signals with
  | [] => inl NoSignalsFound
  | _ :: _ =>
      inr {| current_state_data := current_state_data;
             input_version := input_version;
             new_version := new_version;
             signals := signals;
             distillation_run :=
               {| DistillationRun.id := run_uuid env;
                  DistillationRun.lab_id := lab_id;
                  DistillationRun.input_state_version := input_version;
                  DistillationRun.output_state_version := new_version;
                  DistillationRun.signals_processed :=
                    map RawSignal.id signals;
                  DistillationRun.prompt_version := PROMPT_VERSION;
                  DistillationRun.llm_model := llm_model settings;
                  DistillationRun.started_at := db_now env;
                  DistillationRun.completed_at := None;
                  DistillationRun.status := running |} |}
  end.

(** Lines 144-152: the request of the completion call. *)
Definition completion_request (env : Env) (settings : Settings)
    (r : Reservation) : CompletionRequest :=
  {| model := llm_model settings;
     system_content := SYSTEM_PROMPT env;
     user_content := user_prompt env (current_state_data r) (signals r);
     max_tokens := 4000 |}.

(** Lines 168-189: the row of the new version, from the validated state. *)
Definition new_state_row (env : Env) (settings : Settings) (lab_id : UUID)
    (r : Reservation) (validated : LabStateData.t) : LabState.t :=
  let validated_state :=
    LabStateData.set_signal_count validated
      (LabStateData.signal_count (current_state_data r)
       + Z.of_nat (List.length (signals r))) in
  let state_json := model_dump_json env validated_state in
  let token_count := count_tokens env state_json in
  let _ :=
    if max_state_tokens settings <? token_count
    then tt (* pass *) else tt in
  {| LabState.id := state_uuid env;
     LabState.lab_id := lab_id;
     LabState.version := new_version r;
     LabState.state := validated_state;
     LabState.token_count := Some token_count;
     LabState.created_at := db_now env;
     LabState.created_by := Some (lit "system") |}.

(** Lines 134-213, the [try] and its handler. [view] is what the
    transaction sees (the run row is flushed), [start] is the database the
    transaction began with: a flush that fails rolls the transaction back,
    after which the session has nothing left to write. *)
Definition complete (env : Env) (settings : Settings) (start view : DB)
    (lab_id : UUID) (signal_ids : list UUID) (r : Reservation)
    : (Exception + LabState.t) * DB :=
  let handler (cause : Cause) :=
    (inl (DistillationFailed cause),
     update_run view
       (DistillationRun.finish (distillation_run r) failed (utc_now env))) in
  match acompletion env (completion_request env settings r) with
  | None => handler CompletionError
  | Some None => handler NoContent
  | Some (Some content) =>
      match json_loads env (response_text content) with
      | None => handler JSONDecodeError
      | Some new_state_data =>
          match LabStateData.model_validate new_state_data with
          | None => handler ValidationError
          | Some validated =>
              let new_state :=
                new_state_row env settings lab_id r validated in
              match insert_state (mark_processed view signal_ids) new_state with
              | Some view' =>
                  (inr new_state,
                   update_run view'
                     (DistillationRun.finish (distillation_run r) completed
                        (utc_now env)))
              | None => (inl (DistillationFailed FlushError), start)
              end
          end
      end
  end.

(** [run_distillation(session, lab_id, signal_ids, settings)] on a session
    whose transaction has written nothing yet (its one caller opens the
    session and only reads before the call): the result or the exception,
    and what the transaction sees afterwards. *)
Definition run_distillation (env : Env) (settings : Settings) (db : DB)
    (lab_id : UUID) (signal_ids : list UUID)
    : (Exception + LabState.t) * DB :=
  match reserve env settings db lab_id signal_ids with
  | inl e => (inl e, db)
  | inr r =>
      match insert_run db (distillation_run r) with
      | None => (inl IntegrityError, db)
      | Some view => complete env settings db view lab_id signal_ids r
      end
  end.

(** Rows in the order of [created_at]; rows of equal [created_at] keep the
    order of the table (SQL leaves their order open). *)
Fixpoint insert_by_created_at (s : RawSignal.t) (sorted : list RawSignal.t)
    : list RawSignal.t :=
  match sorted with
  | [] => [s]
  | x :: rest =>
      if RawSignal.created_at s <=? RawSignal.created_at x
      then s :: sorted else x :: insert_by_created_at s rest
  end.

Definition order_by_created_at (rows : list RawSignal.t)
    : list RawSignal.t :=
  fold_right insert_by_created_at [] rows.

(** [get_unprocessed_signals(session, lab_id, limit)], for a [limit] the
    database takes, from 0 to the greatest INTEGER, as the default is that
    the task calls it with; with another limit the query raises. *)
Definition get_unprocessed_signals (db : DB) (lab_id : UUID) (limit : Z)
    : list RawSignal.t :=
  firstn (Z.to_nat limit)
    (order_by_created_at
       (filter (fun s => N.eqb (RawSignal.lab_id s) lab_id
                         && negb (RawSignal.processed s))
               (raw_signals db))).

(** The default of the parameter [limit]. *)
Definition default_limit : Z := 10.

(* ===================================================================== *)
(** ** The task ([tasks/distill.py])                                      *)
(* ===================================================================== *)

(** What the task returns, or the exception that leaves it. *)
Inductive TaskResult :=
| NoSignals                      (* {"status": "no_signals", ...} *)
| Completed (lab_id : UUID) (new_version : Z) (token_count : option Z)
            (signals_processed : Z)
| Raised (e : Exception).

(** The ids the task hands to [run_distillation], [None] when it returns
    early. [if signal_ids:] is false for [None] and for the empty list. *)
Definition task_ids (db : DB) (lab_uuid : UUID)
    (signal_ids : option (list UUID)) : option (list UUID) :=
  match signal_ids with
  | Some (i :: ids) => Some (i :: ids)
  | _ =>
      match get_unprocessed_signals db lab_uuid default_limit with
      | [] => None
      | signals => Some (map RawSignal.id signals)
      end
  end.

(** [_run_distillation_async(lab_id, signal_ids)] on the database [db]:
    its result and the database afterwards. The session commits after
    [run_distillation] returned; an exception leaves the [async with]
    block without a commit, and the transaction is rolled back. *)
Definition _run_distillation_async (env : Env) (settings : Settings)
    (db : DB) (lab_uuid : UUID) (signal_ids : option (list UUID))
    : TaskResult * DB :=
  match task_ids db lab_uuid signal_ids with
  | None => (NoSignals, db)
  | Some ids =>
      match run_distillation env settings db lab_uuid ids with
      | (inr new_state, view) =>
          (Completed lab_uuid (LabState.version new_state)
             (LabState.token_count new_state)
             (Z.of_nat (List.length ids)),
           view)
      | (inl e, _) => (Raised e, db)
      end
  end.

(* ===================================================================== *)
(** ** Attempts that overlap                                              *)
(* ===================================================================== *)

(** Each attempt runs in a transaction of its own, and the completion call
    is where it waits: between the reads of an attempt and its final flush
    other attempts may commit. An attempt in flight holds what it read; its
    own run row is still invisible to the others. *)
Record Attempt := {
  attempt_lab : UUID;
  attempt_ids : list UUID;
  attempt_reservation : Reservation
}.

Record System := {
  committed : DB;
  in_flight : list Attempt
}.

(** The end of an attempt on the database as it is by then: the [try] of
    run_distillation and the commit of the task, or the rollback. *)
Definition finish_attempt (env : Env) (settings : Settings) (db : DB)
    (a : Attempt) : TaskResult * DB :=
  match insert_run db (distillation_run (attempt_reservation a)) with
  | None => (Raised IntegrityError, db)
  | Some view =>
      match complete env settings db view (attempt_lab a) (attempt_ids a)
              (attempt_reservation a) with
      | (inr new_state, view') =>
          (Completed (attempt_lab a) (LabState.version new_state)
             (LabState.token_count new_state)
             (Z.of_nat (List.length (attempt_ids a))),
           view')
      | (inl e, _) => (Raised e, db)
      end
  end.

(** [create_signal] of the signals route: a new row, not yet processed. *)
Definition add_signal (db : DB) (s : RawSignal.t) : DB :=
  {| labs := labs db; lab_states := lab_states db;
     raw_signals := raw_signals db ++ [RawSignal.set_processed s false];
     distillation_runs := distillation_runs db |}.

(** [create_lab] of the labs route. *)
Definition add_lab (db : DB) (lab_id : UUID) : DB :=
  {| labs := labs db ++ [lab_id]; lab_states := lab_states db;
     raw_signals := raw_signals db;
     distillation_runs := distillation_runs db |}.

Inductive step : System -> System -> Prop :=
| step_add_lab sys lab_id :
    step sys {| committed := add_lab (committed sys) lab_id;
                in_flight := in_flight sys |}
| step_add_signal sys s :
    step sys {| committed := add_signal (committed sys) s;
                in_flight := in_flight sys |}
| step_begin sys env settings lab_uuid signal_ids ids r view :
    task_ids (committed sys) lab_uuid signal_ids = Some ids ->
    reserve env settings (committed sys) lab_uuid ids = inr r ->
    insert_run (committed sys) (distillation_run r) = Some view ->
    step sys {| committed := committed sys;
                in_flight :=
                  {| attempt_lab := lab_uuid; attempt_ids := ids;
                     attempt_reservation := r |} :: in_flight sys |}
| step_end sys env settings a before after :
    in_flight sys = before ++ a :: after ->
    step sys {| committed :=
                  snd (finish_attempt env settings (committed sys) a);
                in_flight := before ++ after |}.

(** The systems that arise from an empty database. *)
Inductive reachable : System -> Prop :=
| reachable_init :
    reachable {| committed := empty_db []; in_flight := [] |}
| reachable_step sys sys' :
    reachable sys -> step sys sys' -> reachable sys'.

(** The versions a lab has, in table order. *)
Definition versions_of (db : DB) (lab_id : UUID) : list Z :=
  map LabState.version (states_of db lab_id).

(** The versions of a lab are 1, 2, ..., n, each once. *)
Definition contiguous_versions (db : DB) (lab_id : UUID) : Prop :=
  NoDup (versions_of db lab_id)
  /\ forall v, In v (versions_of db lab_id)
               <-> 1 <= v <= Z.of_nat (List.length (versions_of db lab_id)).

(* ===================================================================== *)
(** ** Notions of the statements                                          *)
(* ===================================================================== *)

Definition no_newline (s : str) : Prop := ~ In newline s.

(** The version an attempt in flight computed is at most one past the
    versions its lab has by now. *)
Definition attempt_in_window (db : DB) (a : Attempt) : Prop :=
  1 <= new_version (attempt_reservation a)
    <= Z.of_nat (List.length (versions_of db (attempt_lab a))) + 1.

Definition system_invariant (sys : System) : Prop :=
  (forall lab_id, contiguous_versions (committed sys) lab_id)
  /\ Forall (attempt_in_window (committed sys)) (in_flight sys).

(** What a completed attempt commits on [db]: one state row, the flags of
    the selected signals, one run row. *)
Definition committed_db (env : Env) (db : DB) (ids : list UUID)
    (r : Reservation) (ns : LabState.t) : DB :=
  {| labs := labs db;
     lab_states := lab_states db ++ [ns];
     raw_signals := raw_signals (mark_processed db ids);
     distillation_runs :=
       distillation_runs db
       ++ [DistillationRun.finish (distillation_run r) completed (utc_now env)] |}.


(** Lines 155-166: the state a completion parses and validates to. *)
Definition parse_response (env : Env) (content : str)
    : option LabStateData.t :=
  match json_loads env (response_text content) with
  | Some obj => LabStateData.model_validate obj
  | None => None
  end.

(** The settings with another [max_state_tokens]. *)
Definition with_budget (settings : Settings) (budget : Z) : Settings :=
  {| llm_model := llm_model settings; max_state_tokens := budget |}.

(* ===================================================================== *)
(** ** Concrete databases and environments                                *)
(* ===================================================================== *)

Module Scenario.

(** A compact printer, standing for [json.dumps] and [model_dump_json]. *)
Fixpoint show (v : value) : str :=
  match v with
  | JNull => lit "null"
  | JBool true => lit "true"
  | JBool false => lit "false"
  | JInt z => if z <? 0 then lit "-" ++ PyStr.of_nat (Z.abs_nat z)
              else PyStr.of_nat (Z.abs_nat z)
  | JFloat _ => lit "0.0"
  | JStr s => [34%N] ++ s ++ [34%N]
  | JList items => lit "[" ++ join (lit ", ") (map show items) ++ lit "]"
  | JObj fields =>
      lit "{"
      ++ join (lit ", ")
           (map (fun kv : str * value => let (k, x) := kv in
                           [34%N] ++ k ++ [34%N] ++ lit ": " ++ show x)
                fields)
      ++ lit "}"
  end.

(** The object with the one key [signal_count]. *)
Definition count_is (n : Z) : value := JObj [(lit "signal_count", JInt n)].

(** A parser that knows three texts. *)
Definition loads (s : str) : option value :=
  if PyStr.eqb s (lit "{}") then Some (JObj [])
  else if PyStr.eqb s (show (count_is 99)) then Some (count_is 99)
  else if PyStr.eqb s (show (count_is (-1))) then Some (count_is (-1))
  else None.

(** An environment whose completion service answers [reply]; tiktoken is
    unavailable, so [count_tokens] falls back to the length. *)
Definition env_with (reply : option (option str)) (run_id state_id : UUID)
    : Env :=
  {| SYSTEM_PROMPT := lit "You are a lab capability compressor.";
     acompletion := fun _ => reply;
     json_loads := loads;
     json_dumps := show;
     model_dump_json := fun x => show (LabStateData.model_dump x);
     tiktoken_len := fun _ _ => None;
     run_uuid := run_id;
     state_uuid := state_id;
     db_now := 50;
     utc_now := 60 |}.

Definition env (reply : option (option str)) : Env :=
  env_with reply 900%N 800%N.

Definition replies (text : str) : option (option str) := Some (Some text).

Definition settings : Settings :=
  {| llm_model := lit "claude-sonnet-4-20250514"; max_state_tokens := 2000 |}.

Definition signal (id lab_id : UUID) (created_at : Z) (processed : bool)
    : RawSignal.t :=
  {| RawSignal.id := id; RawSignal.lab_id := lab_id;
     RawSignal.signal_type := lit "experiment";
     RawSignal.content := JObj [(lit "technique", JStr (lit "PCR"))];
     RawSignal.processed := processed;
     RawSignal.created_at := created_at;
     RawSignal.created_by := lit "user_1" |}.

(** Lab 1 with three signals, none processed, and no state yet. *)
Definition db_three : DB :=
  {| labs := [1%N]; lab_states := [];
     raw_signals := [signal 11%N 1%N 1 false; signal 12%N 1%N 2 false;
                     signal 13%N 1%N 3 false];
     distillation_runs := [] |}.

(** Labs 1 and 2; the one signal belongs to lab 2. *)
Definition db_foreign : DB :=
  {| labs := [1%N; 2%N]; lab_states := [];
     raw_signals := [signal 21%N 2%N 1 false];
     distillation_runs := [] |}.

(** Lab 1 with eleven signals, none processed. *)
Definition db_eleven : DB :=
  {| labs := [1%N]; lab_states := [];
     raw_signals :=
       [signal 101%N 1%N 1 false; signal 102%N 1%N 2 false;
        signal 103%N 1%N 3 false; signal 104%N 1%N 4 false;
        signal 105%N 1%N 5 false; signal 106%N 1%N 6 false;
        signal 107%N 1%N 7 false; signal 108%N 1%N 8 false;
        signal 109%N 1%N 9 false; signal 110%N 1%N 10 false;
        signal 111%N 1%N 11 false];
     distillation_runs := [] |}.

(** Lab 1 whose only signal is processed. *)
Definition db_done : DB :=
  {| labs := [1%N]; lab_states := [];
     raw_signals := [signal 11%N 1%N 1 true];
     distillation_runs := [] |}.

(** Lab 1 and one signal, as the routes create them. *)
Definition sys_ready : System :=
  {| committed := add_signal (add_lab (empty_db []) 1%N)
                    (signal 11%N 1%N 1 false);
     in_flight := [] |}.

(** Two attempts of lab 1 that both read the database of [sys_ready]. *)
Definition racing (run_id : UUID) : Attempt :=
  {| attempt_lab := 1%N; attempt_ids := [11%N];
     attempt_reservation :=
       {| current_state_data := create_empty_state;
          input_version := None; new_version := 1;
          signals := [RawSignal.set_processed (signal 11%N 1%N 1 false) false];
          distillation_run :=
            {| DistillationRun.id := run_id;
               DistillationRun.lab_id := 1%N;
               DistillationRun.input_state_version := None;
               DistillationRun.output_state_version := 1;
               DistillationRun.signals_processed := [11%N];
               DistillationRun.prompt_version := PROMPT_VERSION;
               DistillationRun.llm_model := llm_model settings;
               DistillationRun.started_at := 50;
               DistillationRun.completed_at := None;
               DistillationRun.status := running |} |} |}.

Definition env_a : Env := env_with (replies (lit "{}")) 900%N 800%N.
Definition env_b : Env := env_with (replies (lit "{}")) 901%N 801%N.

(** Both attempts ended, the one of [env_a] first. *)
Definition sys_race_end : System :=
  {| committed :=
       snd (finish_attempt env_b settings
              (snd (finish_attempt env_a settings (committed sys_ready)
                      (racing 900%N)))
              (racing 901%N));
     in_flight := [] |}.

End Scenario.


(* ===================================================================== *)
(** ** The field constraints of the state schema                          *)
(* ===================================================================== *)

(** The constraints [schemas/lab_state.py] declares with [Field], read on a
    value of the model. *)
Module Constraints.

Definition str_ok (min_length max_length : Z) (s : str) : bool :=
  (min_length <=? len s) && (len s <=? max_length).

Definition opt_str_ok (max_length : Z) (s : option str) : bool :=
  match s with
  | Some x => len x <=? max_length
  | None => true
  end.

Definition list_ok {A : Type} (max_length : Z) (item_ok : A -> bool)
    (xs : list A) : bool :=
  (Z.of_nat (List.length xs) <=? max_length) && forallb item_ok xs.

Definition any_ok {A : Type} (_ : A) : bool := true.

Definition equipment (x : Equipment.t) : bool :=
  str_ok 1 200 (Equipment.name x)
  && list_ok 20 any_ok (Equipment.capabilities x)
  && opt_str_ok 500 (Equipment.limitations x).

Definition technique (x : Technique.t) : bool :=
  str_ok 1 200 (Technique.name x) && opt_str_ok 500 (Technique.notes x).

Definition expertise (x : Expertise.t) : bool :=
  str_ok 1 200 (Expertise.domain x).

Definition organism (x : Organism.t) : bool :=
  str_ok 1 200 (Organism.name x)
  && list_ok 20 any_ok (Organism.strains x)
  && opt_str_ok 500 (Organism.notes x).

Definition reagent (x : Reagent.t) : bool :=
  str_ok 1 200 (Reagent.name x)
  && opt_str_ok 100 (Reagent.quantity x)
  && opt_str_ok 500 (Reagent.notes x).

Definition experiment_summary (x : ExperimentSummary.t) : bool :=
  str_ok 1 200 (ExperimentSummary.technique x)
  && str_ok 1 500 (ExperimentSummary.insight x).

Definition resource_constraints (x : ResourceConstraints.t) : bool :=
  opt_str_ok 500 (ResourceConstraints.budget_notes x)
  && opt_str_ok 500 (ResourceConstraints.time_constraints x)
  && opt_str_ok 500 (ResourceConstraints.personnel_notes x).

Definition lab_state_data (x : LabStateData.t) : bool :=
  list_ok 50 equipment (LabStateData.equipment x)
  && list_ok 50 technique (LabStateData.techniques x)
  && list_ok 30 expertise (LabStateData.expertise x)
  && list_ok 20 organism (LabStateData.organisms x)
  && list_ok 50 reagent (LabStateData.reagents x)
  && list_ok 30 experiment_summary (LabStateData.experimental_history x)
  && resource_constraints (LabStateData.resource_constraints x)
  && (0 <=? LabStateData.signal_count x).

End Constraints.

(* ===================================================================== *)
(** ** What the ledgers keep                                              *)
(* ===================================================================== *)

(** Every stored state meets the constraints of the schema. *)
Definition states_valid (db : DB) : Prop :=
  forall row, In row (lab_states db) ->
    Constraints.lab_state_data (LabState.state row) = true.

(** Within a lab, a later version counts more signals. *)
Definition counts_increase (db : DB) : Prop :=
  forall a b, In a (lab_states db) -> In b (lab_states db) ->
    LabState.lab_id a = LabState.lab_id b ->
    LabState.version a < LabState.version b ->
    LabStateData.signal_count (LabState.state a)
    < LabStateData.signal_count (LabState.state b).

(** The output versions of the runs of a lab, in table order. *)
Definition run_versions (db : DB) (lab_id : UUID) : list Z :=
  map DistillationRun.output_state_version
    (filter (fun r => N.eqb (DistillationRun.lab_id r) lab_id)
       (distillation_runs db)).

(** A run row as a completed attempt leaves it. *)
Definition run_closed (r : DistillationRun.t) : Prop :=
  DistillationRun.status r = completed
  /\ DistillationRun.completed_at r <> None
  /\ DistillationRun.signals_processed r <> []
  /\ (DistillationRun.input_state_version r = None
      /\ DistillationRun.output_state_version r = 1
      \/ exists v, DistillationRun.input_state_version r = Some v
                   /\ DistillationRun.output_state_version r = v + 1).

(** What an attempt in flight holds about the database it will end on. *)
Definition attempt_sound (db : DB) (a : Attempt) : Prop :=
  let r := attempt_reservation a in
  DistillationRun.lab_id (distillation_run r) = attempt_lab a
  /\ DistillationRun.output_state_version (distillation_run r)
     = new_version r
  /\ DistillationRun.signals_processed (distillation_run r)
     = map RawSignal.id (signals r)
  /\ (DistillationRun.input_state_version (distillation_run r) = None
      /\ new_version r = 1
      \/ exists v, DistillationRun.input_state_version (distillation_run r)
                   = Some v
                   /\ new_version r = v + 1)
  /\ signals r <> []
  /\ Constraints.lab_state_data (current_state_data r) = true
  /\ forall row, In row (lab_states db) ->
       LabState.lab_id row = attempt_lab a ->
       LabState.version row < new_version r ->
       LabStateData.signal_count (LabState.state row)
       <= LabStateData.signal_count (current_state_data r).

Definition ledger_invariant (sys : System) : Prop :=
  system_invariant sys
  /\ states_valid (committed sys)
  /\ counts_increase (committed sys)
  /\ (forall lab_id,
        run_versions (committed sys) lab_id
        = versions_of (committed sys) lab_id)
  /\ (forall r, In r (distillation_runs (committed sys)) -> run_closed r)
  /\ Forall (attempt_sound (committed sys)) (in_flight sys).

(** The unprocessed signals of a lab, in table order. *)
Definition unprocessed_of (db : DB) (lab_id : UUID) : list RawSignal.t :=
  filter (fun s => N.eqb (RawSignal.lab_id s) lab_id
                   && negb (RawSignal.processed s))
         (raw_signals db).

(** Not newer than: the order of [created_at]. *)
Definition not_newer (a b : RawSignal.t) : Prop :=
  RawSignal.created_at a <= RawSignal.created_at b.

(* ===================================================================== *)
(** ** The routes of states and signals ([api/routes])                    *)
(* ===================================================================== *)

(** The routes are modelled from the point where their coroutine runs with
    a session, the lab of the path and the user. The dependencies that
    supply these ([api/deps.py], [get_db_with_tenant], which executes
    [SET LOCAL app.current_org_id = :org_id] with a bound parameter before it
    yields the session) are not part of the model.

    What a route does from there: the body it returns, which its response
    model accepts (sent as 200, as 201 by [create_signal]), the
    [HTTPException] it raises, or another exception. *)
Inductive Answer (A : Type) : Type :=
| OK (body : A)          (* returns; 200 *)
| Created (body : A)     (* returns; 201 *)
| NotFound               (* HTTPException 404 *)
| Unprocessable          (* HTTPException 422 *)
| ServerError.           (* an exception the route does not catch: 500 *)

Arguments OK {A} body.
Arguments Created {A} body.
Arguments NotFound {A}.
Arguments Unprocessable {A}.
Arguments ServerError {A}.

(** The range of the type INTEGER. An integer compared with an [Integer]
    column, and the values of LIMIT and OFFSET, are bound as INTEGER
    parameters; a value out of this range is refused when it is bound, and
    the query raises. *)
Definition INT4_MIN : Z := -2147483648.
Definition INT4_MAX : Z := 2147483647.

Definition is_int4 (n : Z) : bool := (INT4_MIN <=? n) && (n <=? INT4_MAX).

(** A Python [str] the server takes as a text: what UTF-8 encodes (no
    surrogate), without U+0000. With another string as a parameter or as a
    value the statement raises. *)
Definition is_text (s : str) : bool :=
  forallb (fun c => (0 <? c) && ((c <? 55296) || (57343 <? c))
                    && (c <=? 1114111))%N s.

(** [result.scalar_one_or_none()]: [None] stands for MultipleResultsFound. *)
Definition scalar_one_or_none {A : Type} (rows : list A)
    : option (option A) :=
  match rows with
  | [] => Some None
  | [x] => Some (Some x)
  | _ :: _ :: _ => None
  end.

(** [LabStateResponse.model_validate(row)] with [from_attributes]: the
    dict of the column [state] is validated as a [LabStateData]. *)
Definition lab_state_response (row : LabState.t) : option LabState.t :=
  match LabStateData.model_validate
          (LabStateData.model_dump (LabState.state row)) with
  | Some state =>
      Some {| LabState.id := LabState.id row;
              LabState.lab_id := LabState.lab_id row;
              LabState.version := LabState.version row;
              LabState.state := state;
              LabState.token_count := LabState.token_count row;
              LabState.created_at := LabState.created_at row;
              LabState.created_by := LabState.created_by row |}
  | None => None
  end.

(** The response model applied to what a route returns. *)
Definition respond_state (row : LabState.t) : Answer LabState.t :=
  match lab_state_response row with
  | Some body => OK body
  | None => ServerError
  end.

(** [get_current_state] *)
Definition get_current_state (db : DB) (lab_id : UUID) : Answer LabState.t :=
  match current_state_of db lab_id with
  | None => NotFound
  | Some state => respond_state state
  end.

(** [get_state_version]; [version] is any Python [int]. *)
Definition get_state_version (db : DB) (lab_id : UUID) (version : Z)
    : Answer LabState.t :=
  if is_int4 version then
    match scalar_one_or_none
            (filter (fun s => N.eqb (LabState.lab_id s) lab_id
                              && (LabState.version s =? version))
                    (lab_states db)) with
    | None => ServerError
    | Some None => NotFound
    | Some (Some state) => respond_state state
    end
  else ServerError.

(** Rows in the order of [version], descending. *)
Fixpoint insert_by_version_desc (s : LabState.t) (sorted : list LabState.t)
    : list LabState.t :=
  match sorted with
  | [] => [s]
  | x :: rest =>
      if LabState.version x <=? LabState.version s
      then s :: sorted else x :: insert_by_version_desc s rest
  end.

Definition order_by_version_desc (rows : list LabState.t)
    : list LabState.t :=
  fold_right insert_by_version_desc [] rows.

(** [get_state_history]: the page and the total. The database refuses a
    negative LIMIT or OFFSET, the driver one that is not an INTEGER. The
    route runs two queries; under READ COMMITTED each sees what was
    committed before it started: [db] is the database of the count, [db']
    the database of the page. *)
Definition get_state_history (db db' : DB) (lab_id : UUID)
    (limit offset : Z) : Answer (list LabState.t * Z) :=
  let total := Z.of_nat (List.length (states_of db lab_id)) in
  if (limit <? 0) || (offset <? 0)
     || negb (is_int4 limit) || negb (is_int4 offset)
  then ServerError
  else
    let states :=
      firstn (Z.to_nat limit)
        (skipn (Z.to_nat offset)
           (order_by_version_desc (states_of db' lab_id))) in
    match all_some (map lab_state_response states) with
    | Some bodies => OK (bodies, total)
    | None => ServerError
    end.

(** Not older than: the order of [version], descending. *)
Definition not_older_version (a b : LabState.t) : Prop :=
  LabState.version b <= LabState.version a.

(** The versions n, n-1, ..., 1. *)
Fixpoint countdown (n : nat) : list Z :=
  match n with
  | O => []
  | S m => Z.of_nat n :: countdown m
  end.

(* ===================================================================== *)
(** ** The signal schemas ([schemas/signal.py])                           *)
(* ===================================================================== *)

Module SignalSchema.

Inductive SignalType := experiment | document | correction.
Inductive DocumentType := protocol | paper | notes | other.
Inductive CorrectionType := add | remove | update.
Inductive CorrectionField :=
| equipment | techniques | expertise | organisms | reagents
| resource_constraints.

Definition signal_type_names : list (string * SignalType) :=
  [("experiment", experiment); ("document", document);
   ("correction", correction)]%string.
Definition document_type_names : list (string * DocumentType) :=
  [("protocol", protocol); ("paper", paper); ("notes", notes);
   ("other", other)]%string.
Definition correction_type_names : list (string * CorrectionType) :=
  [("add", add); ("remove", remove); ("update", update)]%string.
Definition correction_field_names : list (string * CorrectionField) :=
  [("equipment", equipment); ("techniques", techniques);
   ("expertise", expertise); ("organisms", organisms);
   ("reagents", reagents);
   ("resource_constraints", resource_constraints)]%string.

Definition signal_type_str (t : SignalType) : str :=
  match t with
  | experiment => lit "experiment"
  | document => lit "document"
  | correction => lit "correction"
  end.

(** [datetime | None] in strict mode, from the values of a parsed JSON
    body: none of them is a [datetime] object, so only [None] passes. *)
Definition v_opt_datetime (v : value) : option (option Z) :=
  match v with
  | JNull => Some None
  | _ => None
  end.

(** [list[T]] with [min_length] and [max_length]. *)
Definition v_list_between {A : Type} (min_length max_length : Z)
    (item : value -> option A) (v : value) : option (list A) :=
  match v with
  | JList items =>
      if (min_length <=? Z.of_nat (List.length items))
         && (Z.of_nat (List.length items) <=? max_length)
      then all_some (map item items) else None
  | _ => None
  end.

(** [dict[str, Any]] *)
Definition v_dict (v : value) : option (list (str * value)) :=
  match v with
  | JObj fields => Some fields
  | _ => None
  end.

(** [dict[str, Any] | None] *)
Definition v_opt_dict (v : value) : option (option (list (str * value))) :=
  match v with
  | JNull => Some None
  | JObj fields => Some (Some fields)
  | _ => None
  end.

Module ExperimentContent.
Record t := {
  date : option Z;
  technique : str;
  outcome : Outcome;
  notes : str;
  equipment_used : list str;
  organisms_used : list str;
  reagents_used : list str
}.
Definition of_fields (f : list (str * value)) : option t :=
  date <- optional f "date" None v_opt_datetime ;;
  technique <- required f "technique" (v_str 1 200) ;;
  outcome <- required f "outcome" (v_literal outcome_names) ;;
  notes <- required f "notes" (v_str 1 5000) ;;
  equipment_used <- optional f "equipment_used" [] (v_list 20 v_any_str) ;;
  organisms_used <- optional f "organisms_used" [] (v_list 10 v_any_str) ;;
  reagents_used <- optional f "reagents_used" [] (v_list 30 v_any_str) ;;
  Some {| date := date; technique := technique; outcome := outcome;
          notes := notes; equipment_used := equipment_used;
          organisms_used := organisms_used;
          reagents_used := reagents_used |}.
End ExperimentContent.

Module DocumentContent.
Record t := {
  filename : str;
  document_type : DocumentType;
  text_chunks : list str;
  extracted_equipment : list str;
  extracted_techniques : list str
}.
Definition of_fields (f : list (str * value)) : option t :=
  filename <- required f "filename" (v_str 1 500) ;;
  document_type <- required f "document_type"
                     (v_literal document_type_names) ;;
  text_chunks <- required f "text_chunks" (v_list_between 1 100 v_any_str) ;;
  extracted_equipment <- optional f "extracted_equipment" []
                           (v_list 20 v_any_str) ;;
  extracted_techniques <- optional f "extracted_techniques" []
                            (v_list 20 v_any_str) ;;
  Some {| filename := filename; document_type := document_type;
          text_chunks := text_chunks;
          extracted_equipment := extracted_equipment;
          extracted_techniques := extracted_techniques |}.
End DocumentContent.

Module CorrectionContent.
Record t := {
  correction_type : CorrectionType;
  field : CorrectionField;
  item_name : str;
  new_value : option (list (str * value));
  reason : option str
}.
Definition of_fields (f : list (str * value)) : option t :=
  correction_type <- required f "correction_type"
                       (v_literal correction_type_names) ;;
  field <- required f "field" (v_literal correction_field_names) ;;
  item_name <- required f "item_name" (v_str 1 200) ;;
  new_value <- optional f "new_value" None v_opt_dict ;;
  reason <- optional f "reason" None (v_opt_str 1000) ;;
  Some {| correction_type := correction_type; field := field;
          item_name := item_name; new_value := new_value;
          reason := reason |}.
End CorrectionContent.

Inductive TypedContent :=
| Experiment (c : ExperimentContent.t)
| Document (c : DocumentContent.t)
| Correction (c : CorrectionContent.t).

Module SignalCreate.
Record t := {
  signal_type : SignalType;
  content : list (str * value)
}.
Definition of_fields (f : list (str * value)) : option t :=
  signal_type <- required f "signal_type" (v_literal signal_type_names) ;;
  content <- required f "content" v_dict ;;
  Some {| signal_type := signal_type; content := content |}.

(** The request body, validated. *)
Definition model_validate (body : value) : option t := v_model of_fields body.

(** [self.get_typed_content()], [None] for the [ValueError] of a content
    that does not validate. The [Literal] of [signal_type] leaves no other
    type to reach the last [raise]. *)
Definition get_typed_content (self : t) : option TypedContent :=
  match signal_type self with
  | experiment =>
      option_map Experiment (ExperimentContent.of_fields (content self))
  | document =>
      option_map Document (DocumentContent.of_fields (content self))
  | correction =>
      option_map Correction (CorrectionContent.of_fields (content self))
  end.
End SignalCreate.

End SignalSchema.

(** INSERT of a signal: the primary key, the foreign key to [labs], and
    the two VARCHAR columns, [String(50)] and [String(255)]. *)
Definition insert_signal (db : DB) (s : RawSignal.t) : option DB :=
  if existsb (fun x => N.eqb (RawSignal.id x) (RawSignal.id s))
       (raw_signals db)
     || negb (in_ (labs db) (RawSignal.lab_id s))
     || (50 <? PyStr.len (RawSignal.signal_type s))
     || (255 <? PyStr.len (RawSignal.created_by s))
     || negb (is_text (RawSignal.signal_type s))
     || negb (is_text (RawSignal.created_by s))
  then None
  else Some {| labs := labs db; lab_states := lab_states db;
               raw_signals := raw_signals db ++ [s];
               distillation_runs := distillation_runs db |}.

(** The database server, where what it does is not the repository's to
    say: what a JSONB column gives back for a value written to it (an
    object with its keys in the order of the server, a number in the
    notation of the server), [None] when the server refuses the value. *)
Record Server := {
  jsonb : value -> option value
}.

(** An object that was stored is read back as an object. *)
Definition stores_objects (server : Server) : Prop :=
  forall fields v,
    jsonb server (JObj fields) = Some v -> exists fields', v = JObj fields'.

(** [create_signal] for the lab of the path and the user of the token;
    [uuid] and [now] are the defaults of the server for [id] and
    [created_at]. The route returns the object it built, with the content
    as it was posted; the table holds the row with the content as the
    column stores it. The answer, and the database once the session of the
    request committed or rolled back. *)
Definition create_signal (server : Server) (uuid : UUID) (now : Z) (db : DB)
    (lab_id : UUID) (user_id : str) (body : value)
    : Answer RawSignal.t * DB :=
  match SignalSchema.SignalCreate.model_validate body with
  | None => (Unprocessable, db)
  | Some signal_in =>
      match SignalSchema.SignalCreate.get_typed_content signal_in with
      | None => (Unprocessable, db)
      | Some _ =>
          let signal (content : value) :=
            {| RawSignal.id := uuid;
               RawSignal.lab_id := lab_id;
               RawSignal.signal_type :=
                 SignalSchema.signal_type_str
                   (SignalSchema.SignalCreate.signal_type signal_in);
               RawSignal.content := content;
               RawSignal.processed := false;
               RawSignal.created_at := now;
               RawSignal.created_by := user_id |} in
          let posted := JObj (SignalSchema.SignalCreate.content signal_in) in
          match jsonb server posted with
          | None => (ServerError, db)
          | Some stored =>
              match insert_signal db (signal stored) with
              | Some db' => (Created (signal posted), db')
              | None => (ServerError, db)
              end
          end
      end
  end.

(** [SignalResponse.model_validate(row)] with [from_attributes]: the
    column [content] has to hold a dict. *)
Definition signal_response (s : RawSignal.t) : option RawSignal.t :=
  match RawSignal.content s with
  | JObj _ => Some s
  | _ => None
  end.

Definition respond_signal (s : RawSignal.t) : Answer RawSignal.t :=
  match signal_response s with
  | Some body => OK body
  | None => ServerError
  end.

(** [get_signal] *)
Definition get_signal (db : DB) (lab_id signal_id : UUID)
    : Answer RawSignal.t :=
  match scalar_one_or_none
          (filter (fun s => N.eqb (RawSignal.id s) signal_id
                            && N.eqb (RawSignal.lab_id s) lab_id)
                  (raw_signals db)) with
  | None => ServerError
  | Some None => NotFound
  | Some (Some signal) => respond_signal signal
  end.

(** The conditions of [list_signals]: the lab, and the filters given. *)
Definition listed (lab_id : UUID) (processed : option bool)
    (signal_type : option str) (s : RawSignal.t) : bool :=
  N.eqb (RawSignal.lab_id s) lab_id
  && match processed with
     | Some p => Bool.eqb (RawSignal.processed s) p
     | None => true
     end
  && match signal_type with
     | Some t => PyStr.eqb (RawSignal.signal_type s) t
     | None => true
     end.

(** Rows in the order of [created_at], descending. *)
Fixpoint insert_by_created_at_desc (s : RawSignal.t)
    (sorted : list RawSignal.t) : list RawSignal.t :=
  match sorted with
  | [] => [s]
  | x :: rest =>
      if RawSignal.created_at x <=? RawSignal.created_at s
      then s :: sorted else x :: insert_by_created_at_desc s rest
  end.

Definition order_by_created_at_desc (rows : list RawSignal.t)
    : list RawSignal.t :=
  fold_right insert_by_created_at_desc [] rows.

(** [list_signals]: the page and the total of the rows that match; [db]
    is the database of the count, [db'] the database of the page. *)
Definition list_signals (db db' : DB) (lab_id : UUID)
    (processed : option bool) (signal_type : option str) (limit offset : Z)
    : Answer (list RawSignal.t * Z) :=
  let total :=
    Z.of_nat (List.length (filter (listed lab_id processed signal_type)
                             (raw_signals db))) in
  let rows :=
    filter (listed lab_id processed signal_type) (raw_signals db') in
  if (limit <? 0) || (offset <? 0)
     || negb (is_int4 limit) || negb (is_int4 offset)
     || negb match signal_type with
             | Some t => is_text t
             | None => true
             end
  then ServerError
  else
    let signals :=
      firstn (Z.to_nat limit)
        (skipn (Z.to_nat offset) (order_by_created_at_desc rows)) in
    match all_some (map signal_response signals) with
    | Some bodies => OK (bodies, total)
    | None => ServerError
    end.

(** Not older than: the order of [created_at], descending. *)
Definition not_older (a b : RawSignal.t) : Prop :=
  RawSignal.created_at b <= RawSignal.created_at a.

(* ===================================================================== *)
(** ** The prompt, the fence and the retries                              *)
(* ===================================================================== *)



(** [@celery_app.task(bind=True, max_retries=3)] *)
Definition max_retries : nat := 3.

(** [countdown=2 ** self.request.retries * 10] *)
Definition retry_countdown (retries : nat) : Z := 2 ^ Z.of_nat retries * 10.

(** What one execution of the body of [distill_lab_state] does:
    [asyncio.run(_run_distillation_async(lab_id, signal_ids))] returns a
    result, or raises an exception, of the task or of anything under it. *)
Inductive Execution (R E : Type) : Type :=
| Returns (result : R)
| Raises (exc : E).

Arguments Returns {R E} result.
Arguments Raises {R E} exc.

(** [distill_lab_state] from the execution with [self.request.retries =
    retries] on, with [remaining] retries left: [self.retry] queues the
    task again after the countdown, or raises the exception once
    [max_retries] is used up. [body k] is what the execution with [k]
    retries behind it does, in whatever process runs it and on whatever the
    database holds by then. The outcome and the countdowns that were
    waited. *)
Fixpoint retry_chain {R E : Type} (remaining retries : nat)
    (body : nat -> Execution R E) : Execution R E * list Z :=
  match body retries with
  | Returns result => (Returns result, [])
  | Raises e =>
      match remaining with
      | O => (Raises e, [])
      | S m =>
          let (outcome, waits) := retry_chain m (S retries) body in
          (outcome, retry_countdown retries :: waits)
      end
  end.

Definition distill_lab_state {R E : Type} (body : nat -> Execution R E)
    : Execution R E * list Z :=
  retry_chain max_retries 0 body.

(* ===================================================================== *)
(** ** More concrete values                                               *)
(* ===================================================================== *)

Module Examples.

(** A state with one piece of equipment and one technique, as a parsed
    completion and as the model it validates to. *)
Definition state_object : value :=
  JObj [(lit "equipment",
          JList [JObj [(lit "name", JStr (lit "Thermocycler"));
                       (lit "capabilities",
                         JList [JStr (lit "amplification")])]]);
        (lit "techniques",
          JList [JObj [(lit "name", JStr (lit "PCR"));
                       (lit "proficiency", JStr (lit "expert"))]]);
        (lit "signal_count", JInt 5)].

Definition state_model : LabStateData.t :=
  {| LabStateData.equipment :=
       [{| Equipment.name := lit "Thermocycler";
           Equipment.capabilities := [lit "amplification"];
           Equipment.limitations := None |}];
     LabStateData.techniques :=
       [{| Technique.name := lit "PCR";
           Technique.proficiency := expert;
           Technique.notes := None |}];
     LabStateData.expertise := [];
     LabStateData.organisms := [];
     LabStateData.reagents := [];
     LabStateData.experimental_history := [];
     LabStateData.resource_constraints := ResourceConstraints.default;
     LabStateData.signal_count := 5 |}.

(** Lab 1 after two runs of the task, with a signal created before each. *)
Definition db_one_run : DB :=
  snd (_run_distillation_async Scenario.env_a Scenario.settings
         (committed Scenario.sys_ready) 1%N None).

Definition db_two_runs : DB :=
  snd (_run_distillation_async Scenario.env_b Scenario.settings
         (add_signal db_one_run (Scenario.signal 12%N 1%N 2 false))
         1%N None).

Definition sys_two_runs : System :=
  {| committed := db_two_runs; in_flight := [] |}.

(** The body of a request that creates an experiment signal. *)
Definition experiment_body : value :=
  JObj [(lit "signal_type", JStr (lit "experiment"));
        (lit "content",
          JObj [(lit "technique", JStr (lit "PCR"));
                (lit "outcome", JStr (lit "success"));
                (lit "notes", JStr (lit "Amplified target gene"))])].

(** A server that keeps every value and orders the keys of an object by
    their length in bytes, then by their bytes. *)
Definition utf8_len (s : str) : N :=
  fold_right
    (fun c n => ((if c <? 128 then 1 else if c <? 2048 then 2
                  else if c <? 65536 then 3 else 4) + n)%N)
    0%N s.

Fixpoint bytes_le (a b : str) : bool :=
  match a, b with
  | [], _ => true
  | _ :: _, [] => false
  | x :: a', y :: b' => (x <? y)%N || ((x =? y)%N && bytes_le a' b')
  end.

Definition key_le (a b : str) : bool :=
  (utf8_len a <? utf8_len b)%N
  || ((utf8_len a =? utf8_len b)%N && bytes_le a b).

Fixpoint insert_key (kv : str * value) (sorted : list (str * value))
    : list (str * value) :=
  match sorted with
  | [] => [kv]
  | x :: rest =>
      if key_le (fst kv) (fst x) then kv :: sorted
      else x :: insert_key kv rest
  end.

Fixpoint sort_keys (v : value) : value :=
  match v with
  | JList items => JList (map sort_keys items)
  | JObj fields =>
      JObj (fold_right insert_key []
              (map (fun kv : str * value =>
                      let (k, x) := kv in (k, sort_keys x))
                   fields))
  | _ => v
  end.

Definition sorting_server : Server :=
  {| jsonb := fun v => Some (sort_keys v) |}.

(** Executions that raise twice, then return. *)
Definition flaky (retries : nat) : Execution TaskResult string :=
  if (retries <? 2)%nat then Raises "InterfaceError"%string
  else Returns (Completed 1%N 1 (Some 57) 3).

End Examples.

Import Scenario.

(* ===================================================================== *)
(** ** Lines of a text *)
(* ===================================================================== *)

Lemma split_lines_app a b :
  split_lines (a ++ newline :: b) = split_lines a ++ split_lines b.
Proof.
  induction a as [|c a IH]; simpl.
  - reflexivity.
  - destruct (N.eqb_spec c newline).
    + rewrite IH. reflexivity.
    + rewrite IH. destruct (split_lines a) eqn:E; simpl.
      * exfalso. destruct a as [|d a']; simpl in E; [discriminate|].
        destruct (d =? newline)%N; [discriminate|].
        destruct (split_lines a'); discriminate.
      * reflexivity.
Qed.

Lemma split_lines_single s : no_newline s -> split_lines s = [s].
Proof.
  induction s as [|c s IH]; intros H; simpl.
  - reflexivity.
  - destruct (N.eqb_spec c newline).
    + exfalso. apply H. left. congruence.
    + rewrite IH. reflexivity. intros Hin. apply H. right. exact Hin.
Qed.

Lemma split_lines_nonempty s : split_lines s <> [].
Proof.
  destruct s as [|c s]; simpl; [discriminate|].
  destruct (c =? newline)%N; [discriminate|].
  destruct (split_lines s); discriminate.
Qed.

Lemma join_split s : join [newline] (split_lines s) = s.
Proof.
  induction s as [|c s IH]; simpl.
  - reflexivity.
  - destruct (N.eqb_spec c newline).
    + subst. pose proof (split_lines_nonempty s).
      destruct (split_lines s) eqn:E; [congruence|].
      simpl. simpl in IH. rewrite IH. reflexivity.
    + pose proof (split_lines_nonempty s).
      destruct (split_lines s) as [|l ls] eqn:E; [congruence|].
      destruct ls; simpl in *.
      * congruence.
      * rewrite <- IH. reflexivity.
Qed.

(* ===================================================================== *)
(** ** Queries and writes *)
(* ===================================================================== *)

Lemma greatest_version_None rows : greatest_version rows = None -> rows = [].
Proof.
  destruct rows as [|r rest]; simpl; [reflexivity|].
  destruct (greatest_version rest) as [m|]; [|discriminate].
  destruct (LabState.version m <? LabState.version r); discriminate.
Qed.

Lemma greatest_version_Some rows m :
  greatest_version rows = Some m ->
  In m rows /\ forall r, In r rows -> LabState.version r <= LabState.version m.
Proof.
  revert m. induction rows as [|r rest IH]; simpl; intros m H; [discriminate|].
  destruct (greatest_version rest) as [m'|] eqn:E.
  - destruct (IH m' eq_refl) as [Hin Hmax].
    destruct (Z.ltb_spec (LabState.version m') (LabState.version r));
      inversion H; subst.
    + split; [now left|]. intros x [->|Hx]; [lia|]. specialize (Hmax x Hx). lia.
    + split; [now right|]. intros x [->|Hx]; [lia|]. now apply Hmax.
  - inversion H; subst. apply greatest_version_None in E. subst.
    split; [now left|]. intros x [->|[]]. lia.
Qed.

Lemma current_version_contiguous db lab cs :
  contiguous_versions db lab ->
  current_state_of db lab = Some cs ->
  LabState.version cs = Z.of_nat (List.length (versions_of db lab)).
Proof.
  intros [_ Hc] H. unfold current_state_of in H.
  apply greatest_version_Some in H. destruct H as [Hin Hmax].
  assert (Hv : In (LabState.version cs) (versions_of db lab))
    by (unfold versions_of; now apply in_map).
  pose proof (proj1 (Hc _) Hv) as Hr.
  set (n := Z.of_nat (List.length (versions_of db lab))) in *.
  assert (Hn : In n (versions_of db lab)) by (apply Hc; lia).
  unfold versions_of in Hn. apply in_map_iff in Hn.
  destruct Hn as [x [Hx Hxin]].
  specialize (Hmax x Hxin). lia.
Qed.

Lemma current_none_contiguous db lab :
  current_state_of db lab = None -> versions_of db lab = [].
Proof.
  unfold current_state_of, versions_of. intros H.
  apply greatest_version_None in H. now rewrite H.
Qed.

Lemma version_taken_In db lab v :
  version_taken db lab v = true <-> In v (versions_of db lab).
Proof.
  unfold version_taken, versions_of, states_of. rewrite existsb_exists. split.
  - intros [x [Hx Hb]]. apply andb_prop in Hb. destruct Hb as [H1 H2].
    apply Z.eqb_eq in H2. subst v. apply in_map. apply filter_In. now split.
  - intros H. apply in_map_iff in H. destruct H as [x [Hv Hx]].
    apply filter_In in Hx. destruct Hx as [Hx Hl]. exists x. split; [exact Hx|].
    rewrite Hl. simpl. now apply Z.eqb_eq.
Qed.

Lemma versions_of_app db db' lab ns :
  lab_states db' = lab_states db ++ [ns] ->
  versions_of db' lab =
  versions_of db lab
  ++ (if N.eqb (LabState.lab_id ns) lab then [LabState.version ns] else []).
Proof.
  intros H. unfold versions_of, states_of. rewrite H, filter_app, map_app. simpl.
  destruct (N.eqb (LabState.lab_id ns) lab); reflexivity.
Qed.

Lemma versions_of_same db db' lab :
  lab_states db' = lab_states db -> versions_of db' lab = versions_of db lab.
Proof. intros H. unfold versions_of, states_of. now rewrite H. Qed.

Lemma contiguous_append db db' ns :
  lab_states db' = lab_states db ++ [ns] ->
  version_taken db (LabState.lab_id ns) (LabState.version ns) = false ->
  1 <= LabState.version ns
    <= Z.of_nat (List.length (versions_of db (LabState.lab_id ns))) + 1 ->
  (forall lab, contiguous_versions db lab) ->
  (forall lab, contiguous_versions db' lab)
  /\ LabState.version ns
     = Z.of_nat (List.length (versions_of db (LabState.lab_id ns))) + 1.
Proof.
  intros Happ Htaken Hwin Hc.
  assert (Hnot : ~ In (LabState.version ns)
                      (versions_of db (LabState.lab_id ns))).
  { intros Hin. apply version_taken_In in Hin. congruence. }
  assert (Hv : LabState.version ns
     = Z.of_nat (List.length (versions_of db (LabState.lab_id ns))) + 1).
  { destruct (Z.eq_dec (LabState.version ns)
       (Z.of_nat (List.length (versions_of db (LabState.lab_id ns))) + 1));
      [assumption|].
    exfalso. apply Hnot. apply (Hc (LabState.lab_id ns)). lia. }
  split; [|exact Hv].
  intros lab. unfold contiguous_versions.
  rewrite (versions_of_app db db' lab ns Happ).
  destruct (N.eqb_spec (LabState.lab_id ns) lab) as [<-|Hne].
  - destruct (Hc (LabState.lab_id ns)) as [Hnd Hr].
    rewrite length_app. simpl. split.
    + apply NoDup_app; [exact Hnd| repeat constructor; intros [] | ].
      intros x Hx [<-|[]]. now apply Hnot.
    + intros v. rewrite in_app_iff. simpl. rewrite Hr. lia.
  - rewrite app_nil_r. apply Hc.
Qed.

Lemma insert_state_Some db s db' :
  insert_state db s = Some db' ->
  db' = {| labs := labs db; lab_states := lab_states db ++ [s];
           raw_signals := raw_signals db;
           distillation_runs := distillation_runs db |}
  /\ version_taken db (LabState.lab_id s) (LabState.version s) = false.
Proof.
  unfold insert_state. intros H.
  destruct (existsb _ (lab_states db)); simpl in H; [discriminate|].
  destruct (in_ (labs db) (LabState.lab_id s)); simpl in H; [|discriminate].
  destruct (version_taken db (LabState.lab_id s) (LabState.version s));
    [discriminate|].
  inversion H. split; reflexivity.
Qed.

Lemma insert_run_Some db r db' :
  insert_run db r = Some db' ->
  db' = {| labs := labs db; lab_states := lab_states db;
           raw_signals := raw_signals db;
           distillation_runs := distillation_runs db ++ [r] |}.
Proof.
  unfold insert_run. intros H.
  destruct (_ || _); [discriminate|]. now inversion H.
Qed.

Lemma update_run_fresh db r view r' :
  insert_run db r = Some view ->
  DistillationRun.id r' = DistillationRun.id r ->
  distillation_runs (update_run view r') = distillation_runs db ++ [r'].
Proof.
  unfold insert_run. intros H Hid.
  destruct (existsb _ (distillation_runs db)) eqn:Ex; simpl in H;
    [discriminate|].
  destruct (negb _); [discriminate|]. inversion H; subst; clear H. simpl.
  rewrite map_app. simpl. rewrite Hid, N.eqb_refl. f_equal.
  induction (distillation_runs db) as [|x xs IH]; simpl in *; [reflexivity|].
  apply orb_false_iff in Ex. destruct Ex as [E1 E2].
  rewrite E1. f_equal. now apply IH.
Qed.

Lemma finish_id r s t :
  DistillationRun.id (DistillationRun.finish r s t) = DistillationRun.id r.
Proof. reflexivity. Qed.

(* ===================================================================== *)
(** ** One attempt *)
(* ===================================================================== *)

Section Engine.

Variables (env : Env) (st : Settings).

Lemma complete_cases start view lab ids r res view' :
  complete env st start view lab ids r = (res, view') ->
  (exists content j validated view1,
      acompletion env (completion_request env st r) = Some (Some content)
      /\ json_loads env (response_text content) = Some j
      /\ LabStateData.model_validate j = Some validated
      /\ insert_state (mark_processed view ids)
           (new_state_row env st lab r validated) = Some view1
      /\ res = inr (new_state_row env st lab r validated)
      /\ view' = update_run view1
                   (DistillationRun.finish (distillation_run r) completed
                      (utc_now env)))
  \/ (res = inl (DistillationFailed FlushError) /\ view' = start)
  \/ (exists c, c <> FlushError /\ res = inl (DistillationFailed c)
      /\ view' = update_run view
                   (DistillationRun.finish (distillation_run r) failed
                      (utc_now env))).
Proof.
  unfold complete. intros H.
  destruct (acompletion env _) as [[content|]|] eqn:Ea.
  - destruct (json_loads env _) as [j|] eqn:Ej.
    + destruct (LabStateData.model_validate j) as [validated|] eqn:Ev.
      * destruct (insert_state _ _) as [view1|] eqn:Ei; inversion H; subst.
        -- left. exists content, j, validated, view1. repeat split; assumption.
        -- right. left. split; reflexivity.
      * inversion H; subst. right. right. exists ValidationError.
        repeat split; congruence.
    + inversion H; subst. right. right. exists JSONDecodeError.
      repeat split; congruence.
  - inversion H; subst. right. right. exists NoContent.
    repeat split; congruence.
  - inversion H; subst. right. right. exists CompletionError.
    repeat split; congruence.
Qed.

Lemma finish_attempt_states db a :
  let db' := snd (finish_attempt env st db a) in
  lab_states db' = lab_states db
  \/ exists ns, lab_states db' = lab_states db ++ [ns]
       /\ LabState.lab_id ns = attempt_lab a
       /\ LabState.version ns = new_version (attempt_reservation a)
       /\ version_taken db (attempt_lab a)
            (new_version (attempt_reservation a)) = false.
Proof.
  unfold finish_attempt.
  destruct (insert_run db _) as [view|] eqn:Er; simpl; [|now left].
  destruct (complete _ _ _ _ _ _ _) as [res view'] eqn:Ec.
  apply complete_cases in Ec.
  destruct Ec as [(content & j & validated & view1 & _ & _ & _ & Hi & -> & ->)
                 |[[-> ->]|(c & _ & -> & ->)]]; simpl; try now left.
  right. apply insert_state_Some in Hi. destruct Hi as [-> Ht].
  apply insert_run_Some in Er. subst view. simpl in *.
  exists (new_state_row env st (attempt_lab a) (attempt_reservation a)
            validated).
  repeat split. exact Ht.
Qed.

Lemma reserve_inr db lab ids r :
  reserve env st db lab ids = inr r ->
  select_signals db ids <> []
  /\ signals r = select_signals db ids
  /\ current_state_data r =
       match current_state_of db lab with
       | Some cs => LabState.state cs
       | None => create_empty_state
       end
  /\ input_version r = option_map LabState.version (current_state_of db lab)
  /\ new_version r =
       match current_state_of db lab with
       | Some cs => LabState.version cs + 1
       | None => 1
       end
  /\ distillation_run r =
       {| DistillationRun.id := run_uuid env;
          DistillationRun.lab_id := lab;
          DistillationRun.input_state_version := input_version r;
          DistillationRun.output_state_version := new_version r;
          DistillationRun.signals_processed :=
            map RawSignal.id (select_signals db ids);
          DistillationRun.prompt_version := PROMPT_VERSION;
          DistillationRun.llm_model := llm_model st;
          DistillationRun.started_at := db_now env;
          DistillationRun.completed_at := None;
          DistillationRun.status := running |}.
Proof.
  unfold reserve. intros H.
  destruct (current_state_of db lab) as [cs|];
    destruct (select_signals db ids) eqn:Es; try discriminate;
    inversion H; subst; simpl; repeat split; discriminate.
Qed.

Lemma reserve_inl db lab ids e :
  reserve env st db lab ids = inl e ->
  select_signals db ids = [] /\ e = NoSignalsFound.
Proof.
  unfold reserve. intros H.
  destruct (current_state_of db lab) as [cs|];
    destruct (select_signals db ids) eqn:Es; try discriminate;
    inversion H; split; reflexivity.
Qed.

Lemma reserve_no_signals db lab ids :
  select_signals db ids = [] ->
  reserve env st db lab ids = inl NoSignalsFound.
Proof.
  unfold reserve. intros ->. destruct (current_state_of db lab); reflexivity.
Qed.

Lemma complete_success db view lab ids r ns view' :
  insert_run db (distillation_run r) = Some view ->
  complete env st db view lab ids r = (inr ns, view') ->
  exists content j validated,
    acompletion env (completion_request env st r) = Some (Some content)
    /\ json_loads env (response_text content) = Some j
    /\ LabStateData.model_validate j = Some validated
    /\ ns = new_state_row env st lab r validated
    /\ version_taken db lab (new_version r) = false
    /\ view' = committed_db env db ids r ns.
Proof.
  intros Hr Hc. pose proof Hc as Hc0. apply complete_cases in Hc.
  destruct Hc as [(content & j & validated & view1 & Ha & Hj & Hv & Hi
                   & Hres & ->)
                 |[[Hres _]|(c & _ & Hres & _)]]; try discriminate.
  inversion Hres; subst ns; clear Hres.
  exists content, j, validated. repeat split; try assumption.
  - apply insert_state_Some in Hi. destruct Hi as [_ Ht].
    apply insert_run_Some in Hr. subst view. exact Ht.
  - pose proof (update_run_fresh db _ view
                  (DistillationRun.finish (distillation_run r) completed
                     (utc_now env))
                  Hr (finish_id _ _ _)) as Hruns.
    apply insert_state_Some in Hi. destruct Hi as [-> _].
    apply insert_run_Some in Hr. subst view.
    unfold committed_db, update_run in *.
    simpl in *. f_equal. exact Hruns.
Qed.

Lemma task_completed db lab oids lab' v tc n db' :
  _run_distillation_async env st db lab oids = (Completed lab' v tc n, db') ->
  exists ids r content j validated,
    task_ids db lab oids = Some ids
    /\ reserve env st db lab ids = inr r
    /\ acompletion env (completion_request env st r) = Some (Some content)
    /\ json_loads env (response_text content) = Some j
    /\ LabStateData.model_validate j = Some validated
    /\ version_taken db lab (new_version r) = false
    /\ lab' = lab /\ v = new_version r
    /\ tc = LabState.token_count (new_state_row env st lab r validated)
    /\ n = Z.of_nat (List.length ids)
    /\ db' = committed_db env db ids r (new_state_row env st lab r validated).
Proof.
  unfold _run_distillation_async, run_distillation. intros H.
  destruct (task_ids db lab oids) as [ids|] eqn:Eids; [|discriminate].
  destruct (reserve env st db lab ids) as [e|r] eqn:Er; [discriminate|].
  destruct (insert_run db (distillation_run r)) as [view|] eqn:Ei;
    [|discriminate].
  destruct (complete env st db view lab ids r) as [[e|ns] view'] eqn:Ec;
    [discriminate|].
  inversion H; subst; clear H.
  destruct (complete_success _ _ _ _ _ _ _ Ei Ec)
    as (content & j & validated & Ha & Hj & Hv & -> & Ht & ->).
  exists ids, r, content, j, validated. repeat split; assumption.
Qed.

Lemma task_not_completed db lab oids :
  match _run_distillation_async env st db lab oids with
  | (Completed _ _ _ _, _) => True
  | (_, db') => db' = db
  end.
Proof.
  unfold _run_distillation_async.
  destruct (task_ids db lab oids) as [ids|]; [|reflexivity].
  destruct (run_distillation env st db lab ids) as [[e|ns] view];
    [reflexivity|exact I].
Qed.

End Engine.

(* ===================================================================== *)
(** ** The invariant of overlapping attempts *)
(* ===================================================================== *)

Lemma window_mono db db' a :
  (forall lab, (List.length (versions_of db lab)
                <= List.length (versions_of db' lab))%nat) ->
  attempt_in_window db a -> attempt_in_window db' a.
Proof.
  unfold attempt_in_window. intros H Hw. specialize (H (attempt_lab a)). lia.
Qed.

Lemma invariant_init :
  system_invariant {| committed := empty_db []; in_flight := [] |}.
Proof.
  split; simpl.
  - intros lab. split; simpl; [constructor|]. intros v. simpl. lia.
  - constructor.
Qed.

Lemma invariant_same_states sys db' fl :
  system_invariant sys ->
  lab_states db' = lab_states (committed sys) ->
  (forall a, In a fl -> In a (in_flight sys)) ->
  system_invariant {| committed := db'; in_flight := fl |}.
Proof.
  intros [Hc Hf] Hs Hsub. split; simpl.
  - intros lab. unfold contiguous_versions.
    rewrite (versions_of_same _ _ lab Hs). apply Hc.
  - apply Forall_forall. intros a Ha. unfold attempt_in_window.
    rewrite (versions_of_same _ _ _ Hs).
    rewrite Forall_forall in Hf. apply Hf. now apply Hsub.
Qed.

Lemma invariant_step sys sys' :
  system_invariant sys -> step sys sys' -> system_invariant sys'.
Proof.
  intros Hinv Hstep.
  destruct Hstep as [sys lab_id | sys s
                   | sys env settings lab_uuid signal_ids ids r view H H0 H1
                   | sys env settings a before after H].
  - apply (invariant_same_states sys); auto.
  - apply (invariant_same_states sys); auto.
  - destruct Hinv as [Hc Hf]. split; simpl; [exact Hc|].
    constructor; [|exact Hf].
    unfold attempt_in_window; simpl.
    unfold reserve in H0.
    destruct (current_state_of (committed sys) lab_uuid) as [cs|] eqn:Ecur;
      destruct (select_signals (committed sys) ids); try discriminate;
      inversion H0; subst; simpl.
    + rewrite (current_version_contiguous _ _ _ (Hc lab_uuid) Ecur). lia.
    + rewrite (current_none_contiguous _ _ Ecur). simpl. lia.
  - pose proof (finish_attempt_states env settings (committed sys) a) as Hs.
    simpl in Hs. destruct Hinv as [Hc Hf].
    assert (Ha : attempt_in_window (committed sys) a).
    { rewrite Forall_forall in Hf. apply Hf. rewrite H. apply in_elt. }
    assert (Hsub : forall x, In x (before ++ after) -> In x (in_flight sys)).
    { intros x Hx. rewrite H. apply in_app_iff in Hx. apply in_app_iff.
      destruct Hx; [now left|right; now right]. }
    destruct Hs as [Hs|(ns & Hs & Hl & Hv & Ht)].
    + apply (invariant_same_states sys); [split|..]; assumption.
    + unfold attempt_in_window in Ha. rewrite <- Hl, <- Hv in Ha, Ht.
      destruct (contiguous_append _ _ ns Hs Ht Ha Hc) as [Hc' _].
      split; simpl; [exact Hc'|].
      apply Forall_forall. intros x Hx.
      apply (window_mono (committed sys)).
      * intros lab. rewrite (versions_of_app _ _ lab ns Hs), length_app. lia.
      * rewrite Forall_forall in Hf. apply Hf. now apply Hsub.
Qed.

Lemma reachable_invariant sys : reachable sys -> system_invariant sys.
Proof.
  induction 1; [apply invariant_init | eapply invariant_step; eassumption].
Qed.

(* ===================================================================== *)
(** ** The code fence of a completion *)
(* ===================================================================== *)

Lemma fenced_text content :
  startswith (strip content) fence = true ->
  response_text content
  = join [newline] (slice_1_m1 (split_lines (strip content))).
Proof. unfold response_text. now intros ->. Qed.

(** C10. When the stripped completion starts with three backquotes, its
    first line and its last line are removed, whatever the last line is: of
    [first], newline, [middle], newline, [last] only [middle] is parsed (so
    without a closing fence the last line of the content is lost), and of
    two lines or of a single line nothing is left. A completion that does
    not start with three backquotes is parsed as it is after stripping. *)
Theorem fence_drops_first_and_last_line (content : str) :
  let text := strip content in
  (startswith text fence = true ->
     (forall first middle last,
         no_newline first -> no_newline last ->
         text = first ++ newline :: middle ++ newline :: last ->
         response_text content = middle)
     /\ (forall first last,
         no_newline first -> no_newline last ->
         text = first ++ newline :: last ->
         response_text content = [])
     /\ (no_newline text -> response_text content = []))
  /\ (startswith text fence = false -> response_text content = text).
Proof.
  intros text. split.
  - intros Hf. rewrite (fenced_text content Hf). fold text. repeat split.
    + intros first middle last H1 H2 ->.
      rewrite split_lines_app, (split_lines_single first H1).
      rewrite split_lines_app, (split_lines_single last H2).
      unfold slice_1_m1. simpl. rewrite removelast_last. apply join_split.
    + intros first last H1 H2 ->.
      rewrite split_lines_app, (split_lines_single first H1),
        (split_lines_single last H2). reflexivity.
    + intros H. rewrite (split_lines_single text H). reflexivity.
  - intros Hf. unfold response_text. fold text. now rewrite Hf.
Qed.

Lemma lit_no_newline s :
  forallb (fun c => negb (c =? newline)%N) (lit s) = true -> no_newline (lit s).
Proof.
  intros H Hin. rewrite forallb_forall in H. specialize (H _ Hin).
  now rewrite N.eqb_refl in H.
Qed.

(** C10 at three completions: a fence that is never closed, a single line,
    and plain JSON between blanks. *)
Lemma fence_drops_first_and_last_line_witness :
  response_text
    (lit "  ```json" ++ newline :: lit "[1, 2]" ++ newline :: lit "[3]  ")
  = lit "[1, 2]"
  /\ response_text (lit "```[1, 2]```") = []
  /\ response_text (lit " [1, 2] ") = lit "[1, 2]".
Proof.
  split; [|split].
  - apply (proj1 (proj1 (fence_drops_first_and_last_line
             (lit "  ```json" ++ newline :: lit "[1, 2]" ++ newline :: lit "[3]  "))
             eq_refl)
             (lit "```json") (lit "[1, 2]") (lit "[3]")).
    + now apply lit_no_newline.
    + now apply lit_no_newline.
    + reflexivity.
  - apply (proj2 (proj2 (proj1 (fence_drops_first_and_last_line
             (lit "```[1, 2]```")) eq_refl))).
    now apply (lit_no_newline "```[1, 2]```").
  - apply (proj2 (fence_drops_first_and_last_line (lit " [1, 2] "))).
    reflexivity.
Defined.

(* ===================================================================== *)
(** ** Versions *)
(* ===================================================================== *)

Lemma reachable_eta sys :
  reachable sys ->
  reachable {| committed := committed sys; in_flight := in_flight sys |}.
Proof. now destruct sys. Qed.

Lemma task_reachable env st sys lab oids :
  reachable sys ->
  reachable
    {| committed := snd (_run_distillation_async env st (committed sys) lab oids);
       in_flight := in_flight sys |}.
Proof.
  intros Hr. unfold _run_distillation_async, run_distillation.
  destruct (task_ids (committed sys) lab oids) as [ids|] eqn:Eids;
    [|now apply reachable_eta].
  destruct (reserve env st (committed sys) lab ids) as [e|r] eqn:Er;
    [now apply reachable_eta|].
  destruct (insert_run (committed sys) (distillation_run r)) as [view|] eqn:Ei;
    [|now apply reachable_eta].
  set (a := {| attempt_lab := lab; attempt_ids := ids;
               attempt_reservation := r |}).
  assert (H1 : reachable {| committed := committed sys;
                            in_flight := a :: in_flight sys |}).
  { eapply reachable_step; [exact Hr|].
    eapply step_begin; eassumption. }
  pose proof (step_end {| committed := committed sys;
                          in_flight := a :: in_flight sys |}
                env st a [] (in_flight sys) eq_refl) as H2.
  pose proof (reachable_step _ _ H1 H2) as H3. simpl in H3.
  unfold finish_attempt in H3. simpl in H3. rewrite Ei in H3.
  destruct (complete env st (committed sys) view lab ids r) as [[e|ns] view'];
    exact H3.
Qed.

(** C1. In every system that arises from the empty database by creating
    labs and signals and by beginning and ending attempts in any
    interleaving, the versions of each lab are 1, 2, ..., n without gap or
    repetition; an attempt that begins computes the next integer as its
    version and reserves it in its run row; inserting a [(lab_id, version)]
    that is taken fails; and running the task to its end leads to such a
    system again. *)
Theorem state_versions_contiguous (sys : System) :
  reachable sys ->
  (forall lab_id, contiguous_versions (committed sys) lab_id)
  /\ (forall env settings lab_id signal_ids r,
        reserve env settings (committed sys) lab_id signal_ids = inr r ->
        new_version r
        = Z.of_nat (List.length (versions_of (committed sys) lab_id)) + 1
        /\ DistillationRun.output_state_version (distillation_run r)
           = new_version r)
  /\ (forall s,
        version_taken (committed sys) (LabState.lab_id s) (LabState.version s)
        = true ->
        insert_state (committed sys) s = None)
  /\ (forall env settings lab_id signal_ids,
        reachable
          {| committed :=
               snd (_run_distillation_async env settings (committed sys)
                      lab_id signal_ids);
             in_flight := in_flight sys |}).
Proof.
  intros Hr. pose proof (reachable_invariant sys Hr) as [Hc _].
  split; [exact Hc|]. split; [|split].
  - intros env st lab ids r H. apply reserve_inr in H.
    destruct H as (_ & _ & _ & _ & Hv & Hrun). rewrite Hrun. simpl.
    split; [|reflexivity]. rewrite Hv.
    destruct (current_state_of (committed sys) lab) as [cs|] eqn:E.
    + now rewrite (current_version_contiguous _ _ _ (Hc lab) E).
    + now rewrite (current_none_contiguous _ _ E).
  - intros s H. unfold insert_state. rewrite H.
    now rewrite !orb_true_r.
  - intros env st lab oids. now apply task_reachable.
Qed.


(** C1 at two attempts of lab 1 that both computed version 1: the first
    to end commits it, the second fails on the constraint and leaves no
    row. *)
Lemma state_versions_contiguous_witness :
  contiguous_versions (committed sys_race_end) 1%N
  /\ versions_of (committed sys_race_end) 1%N = [1]
  /\ map DistillationRun.id (distillation_runs (committed sys_race_end))
     = [900%N].
Proof.
  assert (H : reachable sys_race_end).
  { eapply reachable_step.
    2: exact (step_end {| committed :=
                            snd (finish_attempt env_a settings
                                   (committed sys_ready) (racing 900%N));
                          in_flight := [racing 901%N] |}
                env_b settings (racing 901%N) [] [] eq_refl).
    eapply reachable_step.
    2: exact (step_end {| committed := committed sys_ready;
                          in_flight := [racing 901%N; racing 900%N] |}
                env_a settings (racing 900%N) [racing 901%N] [] eq_refl).
    eapply reachable_step.
    2: exact (step_begin {| committed := committed sys_ready;
                            in_flight := [racing 900%N] |}
                env_b settings 1%N (Some [11%N]) [11%N]
                (attempt_reservation (racing 901%N)) _
                eq_refl eq_refl eq_refl).
    eapply reachable_step.
    2: exact (step_begin sys_ready env_a settings 1%N None [11%N]
                (attempt_reservation (racing 900%N)) _
                eq_refl eq_refl eq_refl).
    eapply reachable_step.
    2: exact (step_add_signal
                {| committed := add_lab (empty_db []) 1%N; in_flight := [] |}
                (signal 11%N 1%N 1 false)).
    eapply reachable_step.
    2: exact (step_add_lab {| committed := empty_db []; in_flight := [] |} 1%N).
    exact reachable_init. }
  split; [|split].
  - exact (proj1 (state_versions_contiguous sys_race_end H) 1%N).
  - reflexivity.
  - reflexivity.
Defined.

(* ===================================================================== *)
(** ** Commit and rollback *)
(* ===================================================================== *)

Lemma in__In ids i : in_ ids i = true <-> In i ids.
Proof.
  unfold in_. rewrite existsb_exists. split.
  - intros [x [Hx E]]. apply N.eqb_eq in E. now subst.
  - intros H. exists i. split; [exact H|apply N.eqb_refl].
Qed.

Lemma Forall2_map_self {A} (P : A -> A -> Prop) (f : A -> A) l :
  (forall x, P x (f x)) -> Forall2 P l (map f l).
Proof. intros H. induction l; simpl; constructor; auto. Qed.

(** C3. The task changes the database in one of two ways. When it
    completes, the database holds at once the new state row, every signal
    as it was but for [processed], which is [true] for each selected signal,
    and one new run row whose status is [completed] and whose completion
    time is set; when it raises, or returns early, the database is the one
    it started from. *)
Theorem commit_is_atomic env settings db lab_id signal_ids res db' :
  _run_distillation_async env settings db lab_id signal_ids = (res, db') ->
  match res with
  | Completed _ v _ _ =>
      exists ids ns run,
        task_ids db lab_id signal_ids = Some ids
        /\ labs db' = labs db
        /\ lab_states db' = lab_states db ++ [ns]
        /\ LabState.lab_id ns = lab_id
        /\ LabState.version ns = v
        /\ Forall2
             (fun s s' =>
                RawSignal.id s' = RawSignal.id s
                /\ RawSignal.lab_id s' = RawSignal.lab_id s
                /\ RawSignal.signal_type s' = RawSignal.signal_type s
                /\ RawSignal.content s' = RawSignal.content s
                /\ RawSignal.created_at s' = RawSignal.created_at s
                /\ RawSignal.created_by s' = RawSignal.created_by s
                /\ RawSignal.processed s'
                   = (if in_ ids (RawSignal.id s) then true
                      else RawSignal.processed s))
             (raw_signals db) (raw_signals db')
        /\ (forall s', In s' (raw_signals db') -> In (RawSignal.id s') ids ->
              RawSignal.processed s' = true)
        /\ distillation_runs db' = distillation_runs db ++ [run]
        /\ DistillationRun.id run = run_uuid env
        /\ DistillationRun.lab_id run = lab_id
        /\ DistillationRun.status run = completed
        /\ DistillationRun.completed_at run = Some (utc_now env)
        /\ DistillationRun.input_state_version run
           = option_map LabState.version (current_state_of db lab_id)
        /\ DistillationRun.output_state_version run = v
        /\ DistillationRun.signals_processed run
           = map RawSignal.id (select_signals db ids)
  | NoSignals => db' = db
  | Raised _ => db' = db
  end.
Proof.
  intros H.
  pose proof (task_not_completed env settings db lab_id signal_ids) as Hn.
  rewrite H in Hn.
  destruct res as [|lab' v tc n|e]; try exact Hn. clear Hn.
  apply task_completed in H.
  destruct H as (ids & r & content & j & validated & Hids & Hr & _ & _ & _ & _
                 & -> & -> & _ & _ & ->).
  apply reserve_inr in Hr. destruct Hr as (_ & _ & _ & Hin & _ & Hrun).
  exists ids, (new_state_row env settings lab_id r validated),
    (DistillationRun.finish (distillation_run r) completed (utc_now env)).
  assert (Hsig : Forall2
             (fun s s' =>
                RawSignal.id s' = RawSignal.id s
                /\ RawSignal.lab_id s' = RawSignal.lab_id s
                /\ RawSignal.signal_type s' = RawSignal.signal_type s
                /\ RawSignal.content s' = RawSignal.content s
                /\ RawSignal.created_at s' = RawSignal.created_at s
                /\ RawSignal.created_by s' = RawSignal.created_by s
                /\ RawSignal.processed s'
                   = (if in_ ids (RawSignal.id s) then true
                      else RawSignal.processed s))
             (raw_signals db)
             (raw_signals
                (committed_db env db ids r
                   (new_state_row env settings lab_id r validated)))).
  { simpl. apply Forall2_map_self. intros s.
    destruct (in_ ids (RawSignal.id s)); repeat split. }
  split; [exact Hids|]. split; [reflexivity|]. split; [reflexivity|].
  split; [reflexivity|]. split; [reflexivity|]. split; [exact Hsig|].
  split.
  { intros s' Hs' Hid. apply in__In in Hid. simpl in Hs'.
    apply in_map_iff in Hs'. destruct Hs' as (s & <- & _).
    destruct (in_ ids (RawSignal.id s)) eqn:E; [reflexivity|].
    congruence. }
  split; [reflexivity|].
  rewrite Hrun. simpl. rewrite Hin. repeat split.
Qed.

(** C3 at a lab with three signals: once with a completion that validates,
    once with a completion service that raises. *)
Lemma commit_is_atomic_witness :
  (exists ns run,
     let db' := snd (_run_distillation_async (Scenario.env (replies (lit "{}")))
                       settings db_three 1%N None) in
     lab_states db' = [ns]
     /\ LabState.version ns = 1
     /\ map RawSignal.processed (raw_signals db') = [true; true; true]
     /\ distillation_runs db' = [run]
     /\ DistillationRun.status run = completed
     /\ DistillationRun.completed_at run = Some 60
     /\ DistillationRun.signals_processed run = [11%N; 12%N; 13%N])
  /\ snd (_run_distillation_async (Scenario.env None) settings db_three 1%N
            None)
     = db_three.
Proof.
  split.
  - destruct (commit_is_atomic (Scenario.env (replies (lit "{}"))) settings
                db_three 1%N None _ _ eq_refl)
      as (ids & ns & run & Hids & _ & Hst & _ & Hv & _ & _ & Hruns & _ & _ & Hs
          & Hc & _ & _ & Hp).
    exists ns, run. cbv zeta.
    split; [exact Hst|]. split; [exact Hv|]. split; [reflexivity|].
    split; [exact Hruns|]. split; [exact Hs|]. split; [exact Hc|].
    rewrite Hp. vm_compute in Hids. injection Hids as <-. reflexivity.
  - exact (commit_is_atomic (Scenario.env None) settings db_three 1%N None
             _ _ eq_refl).
Defined.

(** An empty lab with three signals and one successful completion. *)
Example three_signals_first_version :
  exists db',
    _run_distillation_async (env (replies (lit "{}"))) settings db_three 1%N
      None
    = (Completed 1%N 1 (Some 57) 3, db')
    /\ map LabState.version (lab_states db') = [1]
    /\ map (fun s => LabStateData.signal_count (LabState.state s))
         (lab_states db') = [3]
    /\ map RawSignal.processed (raw_signals db') = [true; true; true]
    /\ map (fun r => (DistillationRun.status r,
                      DistillationRun.input_state_version r,
                      DistillationRun.output_state_version r))
         (distillation_runs db') = [(completed, None, 1)].
Proof. eexists. repeat split. Qed.

(* ===================================================================== *)
(** ** The run row of a failed attempt *)
(* ===================================================================== *)

(** C4. The completion service raises for lab 1 of [db_three]:
    run_distillation marks the run row [failed] in its transaction and
    raises, and the task, which commits nothing on an exception, leaves the
    database without any run row. *)
Theorem failed_run_row_is_rolled_back :
  let env := Scenario.env None in
  (exists view,
      run_distillation env settings db_three 1%N [11%N; 12%N; 13%N]
      = (inl (DistillationFailed CompletionError), view)
      /\ map (fun r => (DistillationRun.status r, DistillationRun.completed_at r))
           (distillation_runs view) = [(failed, Some 60)])
  /\ _run_distillation_async env settings db_three 1%N
       (Some [11%N; 12%N; 13%N])
     = (Raised (DistillationFailed CompletionError), db_three)
  /\ distillation_runs db_three = [].
Proof. split; [eexists; split; reflexivity | split; reflexivity]. Qed.

(** The same for every attempt that raises. *)
Lemma raised_commits_nothing env settings db lab_id signal_ids e db' :
  _run_distillation_async env settings db lab_id signal_ids = (Raised e, db') ->
  db' = db.
Proof.
  intros H. pose proof (task_not_completed env settings db lab_id signal_ids) as Hn.
  now rewrite H in Hn.
Qed.

(* ===================================================================== *)
(** ** Signals of another lab *)
(* ===================================================================== *)

(** C2. Lab 1 runs with the id of a signal of lab 2: the signal is
    selected, its content is in the prompt, it is counted in the state of
    lab 1, listed in the run of lab 1, and marked processed. *)
Theorem foreign_signal_is_folded :
  let env := Scenario.env (replies (lit "{}")) in
  exists db',
    map RawSignal.lab_id (raw_signals db_foreign) = [2%N]
    /\ _run_distillation_async env settings db_foreign 1%N (Some [21%N])
       = (Completed 1%N 1 (Some 57) 1, db')
    /\ map (fun s => (RawSignal.id s, RawSignal.lab_id s, RawSignal.processed s))
         (raw_signals db') = [(21%N, 2%N, true)]
    /\ map (fun r => (DistillationRun.lab_id r,
                      DistillationRun.signals_processed r))
         (distillation_runs db') = [(1%N, [21%N])]
    /\ map (fun s => (LabState.lab_id s,
                      LabStateData.signal_count (LabState.state s)))
         (lab_states db') = [(1%N, 1)]
    /\ signals_text env (select_signals db_foreign [21%N])
       = lit "Signal 1 (type: experiment):" ++ [newline]
         ++ show (RawSignal.content (signal 21%N 2%N 1 false)).
Proof. eexists. repeat split. Qed.

(* ===================================================================== *)
(** ** The batch of the task *)
(* ===================================================================== *)

(** C5. Lab 1 has eleven unprocessed signals and the task runs without
    ids: ten are processed, the newest stays unprocessed. *)
Theorem unprocessed_batch_is_capped :
  let env := Scenario.env (replies (lit "{}")) in
  exists db',
    List.length (filter (fun s => N.eqb (RawSignal.lab_id s) 1%N
                                  && negb (RawSignal.processed s))
                   (raw_signals db_eleven)) = 11%nat
    /\ _run_distillation_async env settings db_eleven 1%N None
       = (Completed 1%N 1 (Some 58) 10, db')
    /\ map RawSignal.processed (raw_signals db')
       = [true; true; true; true; true; true; true; true; true; true; false].
Proof. eexists. repeat split. Qed.

(** The batch is never longer than [limit]. *)
Lemma get_unprocessed_signals_length db lab_id limit :
  (List.length (get_unprocessed_signals db lab_id limit) <= Z.to_nat limit)%nat.
Proof. unfold get_unprocessed_signals. apply firstn_le_length. Qed.

(* ===================================================================== *)
(** ** The signal counter *)
(* ===================================================================== *)



(** The count committed there is 3. *)
Example reported_count_is_overwritten :
  map (fun s => LabStateData.signal_count (LabState.state s))
    (lab_states
       (snd (_run_distillation_async
               (Scenario.env (replies (show (count_is 99)))) settings
               db_three 1%N None)))
  = [3].
Proof. reflexivity. Qed.

(* ===================================================================== *)
(** ** Nothing to process *)
(* ===================================================================== *)

Lemma filter_none {A} (p : A -> bool) (l : list A) :
  (forall x, In x l -> p x = false) -> filter p l = [].
Proof.
  induction l as [|x l IH]; intros H; simpl; [reflexivity|].
  rewrite (H x (or_introl eq_refl)). apply IH. intros y Hy. apply H. now right.
Qed.

Lemma no_unprocessed db lab_id limit :
  (forall s, In s (raw_signals db) ->
             RawSignal.lab_id s = lab_id -> RawSignal.processed s = true) ->
  get_unprocessed_signals db lab_id limit = [].
Proof.
  intros H. unfold get_unprocessed_signals. rewrite filter_none.
  - simpl. apply firstn_nil.
  - intros s Hs. destruct (N.eqb_spec (RawSignal.lab_id s) lab_id) as [E|E];
      [|reflexivity].
    now rewrite (H s Hs E).
Qed.

(** C7, as the code has it. run_distillation raises "No signals found to
    process", with the database untouched, when no row has its id among
    [signal_ids] (the empty list included). The task, called without ids
    or with the empty list for a lab all of whose signals are processed,
    returns the result [no_signals] and leaves the database untouched: no
    state version, no run row. *)
Theorem no_signals_no_new_version env settings db lab_id :
  (forall signal_ids,
      (forall s, In s (raw_signals db) ->
                 in_ signal_ids (RawSignal.id s) = false) ->
      run_distillation env settings db lab_id signal_ids
      = (inl NoSignalsFound, db))
  /\ ((forall s, In s (raw_signals db) ->
                 RawSignal.lab_id s = lab_id -> RawSignal.processed s = true) ->
      _run_distillation_async env settings db lab_id None = (NoSignals, db)
      /\ _run_distillation_async env settings db lab_id (Some [])
         = (NoSignals, db)).
Proof.
  split.
  - intros ids H. unfold run_distillation.
    rewrite reserve_no_signals; [reflexivity|].
    unfold select_signals. now apply filter_none.
  - intros H. unfold _run_distillation_async, task_ids.
    rewrite (no_unprocessed db lab_id default_limit H). split; reflexivity.
Qed.

Lemma all_processed_db_done s :
  In s (raw_signals db_done) ->
  RawSignal.lab_id s = 1%N -> RawSignal.processed s = true.
Proof. intros [<-|[]] _. reflexivity. Qed.

(** C7 on a lab whose only signal is processed. *)
Lemma no_signals_no_new_version_witness :
  run_distillation (Scenario.env (replies (lit "{}"))) settings db_done 1%N []
  = (inl NoSignalsFound, db_done)
  /\ run_distillation (Scenario.env (replies (lit "{}"))) settings db_done 1%N
       [77%N]
     = (inl NoSignalsFound, db_done)
  /\ _run_distillation_async (Scenario.env (replies (lit "{}"))) settings
       db_done 1%N None
     = (NoSignals, db_done).
Proof.
  pose proof (no_signals_no_new_version
                (Scenario.env (replies (lit "{}"))) settings db_done 1%N)
    as [H1 H2].
  split; [|split].
  - apply H1. intros s _. reflexivity.
  - apply H1. intros s [<-|[]]. reflexivity.
  - apply (proj1 (H2 all_processed_db_done)).
Defined.

(** C7 as first stated does not hold: for a lab without an unprocessed
    signal the task returns [no_signals], it does not raise. *)
Lemma retrigger_without_signals_returns :
  ~ (forall env settings db lab_id,
        (forall s, In s (raw_signals db) ->
                   RawSignal.lab_id s = lab_id ->
                   RawSignal.processed s = true) ->
        fst (_run_distillation_async env settings db lab_id None)
        = Raised NoSignalsFound).
Proof.
  intros H.
  specialize (H (Scenario.env (replies (lit "{}"))) settings db_done 1%N
                all_processed_db_done).
  discriminate H.
Qed.

(* ===================================================================== *)
(** ** A completion that does not validate *)
(* ===================================================================== *)

(** C8. When the completion does not parse, or parses to an object the
    schema rejects, run_distillation raises from its handler: its
    transaction holds no new state row, the signals as before and the run
    row with status [failed] and a completion time. The task then raises
    without a commit: the database is the one before the attempt, so no
    state version was committed, and no row of this run, failed or other,
    is in it. *)
Theorem invalid_response_leaves_no_failed_run env settings db lab_id
    signal_ids ids r view content :
  task_ids db lab_id signal_ids = Some ids ->
  reserve env settings db lab_id ids = inr r ->
  insert_run db (distillation_run r) = Some view ->
  acompletion env (completion_request env settings r) = Some (Some content) ->
  parse_response env content = None ->
  exists cause view' run,
    (cause = JSONDecodeError \/ cause = ValidationError)
    /\ run_distillation env settings db lab_id ids
       = (inl (DistillationFailed cause), view')
    /\ lab_states view' = lab_states db
    /\ raw_signals view' = raw_signals db
    /\ distillation_runs view' = distillation_runs db ++ [run]
    /\ DistillationRun.id run = run_uuid env
    /\ DistillationRun.lab_id run = lab_id
    /\ DistillationRun.status run = failed
    /\ DistillationRun.completed_at run = Some (utc_now env)
    /\ _run_distillation_async env settings db lab_id signal_ids
       = (Raised (DistillationFailed cause), db)
    /\ forall x, In x (distillation_runs db) ->
         DistillationRun.id x <> DistillationRun.id run.
Proof.
  intros Hids Hr Hi Ha Hp.
  set (run := DistillationRun.finish (distillation_run r) failed
                (utc_now env)).
  pose proof (update_run_fresh db _ view run Hi (finish_id _ _ _)) as Hruns.
  assert (Hview : lab_states view = lab_states db
                  /\ raw_signals view = raw_signals db).
  { apply insert_run_Some in Hi. subst view. split; reflexivity. }
  destruct Hview as [Hl Hs].
  assert (Hrun : exists cause,
             (cause = JSONDecodeError \/ cause = ValidationError)
             /\ run_distillation env settings db lab_id ids
                = (inl (DistillationFailed cause), update_run view run)).
  { unfold run_distillation, complete. rewrite Hr, Hi, Ha.
    unfold parse_response in Hp.
    destruct (json_loads env (response_text content)) as [j|].
    - rewrite Hp. exists ValidationError. split; [now right|reflexivity].
    - exists JSONDecodeError. split; [now left|reflexivity]. }
  destruct Hrun as (cause & Hc & Hrun).
  assert (Hfresh : forall x, In x (distillation_runs db) ->
            DistillationRun.id x <> DistillationRun.id run).
  { unfold insert_run in Hi.
    destruct (existsb _ (distillation_runs db)) eqn:Ex; simpl in Hi;
      [discriminate|].
    intros x Hx E.
    assert (existsb
              (fun y => N.eqb (DistillationRun.id y)
                          (DistillationRun.id (distillation_run r)))
              (distillation_runs db) = true).
    { apply existsb_exists. exists x. split; [exact Hx|].
      apply N.eqb_eq. exact E. }
    congruence. }
  apply reserve_inr in Hr as Hf. destruct Hf as (_ & _ & _ & _ & _ & Hrow).
  exists cause, (update_run view run), run.
  split; [exact Hc|]. split; [exact Hrun|]. split; [exact Hl|].
  split; [exact Hs|]. split; [exact Hruns|].
  split; [unfold run; rewrite Hrow; reflexivity|].
  split; [unfold run; rewrite Hrow; reflexivity|].
  split; [reflexivity|]. split; [reflexivity|].
  split; [|exact Hfresh].
  unfold _run_distillation_async. now rewrite Hids, Hrun.
Qed.

(** C8 at a completion with a negative [signal_count] and at a completion
    that is not JSON. *)
Lemma invalid_response_leaves_no_failed_run_witness :
  (exists view' run,
     run_distillation (Scenario.env (replies (show (count_is (-1)))))
       settings db_three 1%N [11%N; 12%N; 13%N]
     = (inl (DistillationFailed ValidationError), view')
     /\ lab_states view' = []
     /\ distillation_runs view' = [run]
     /\ DistillationRun.status run = failed
     /\ DistillationRun.completed_at run = Some 60
     /\ _run_distillation_async (Scenario.env (replies (show (count_is (-1)))))
          settings db_three 1%N (Some [11%N; 12%N; 13%N])
        = (Raised (DistillationFailed ValidationError), db_three)
     /\ distillation_runs db_three = [])
  /\ (exists view' run,
        run_distillation (Scenario.env (replies (lit "not json")))
          settings db_three 1%N [11%N; 12%N; 13%N]
        = (inl (DistillationFailed JSONDecodeError), view')
        /\ lab_states view' = []
        /\ distillation_runs view' = [run]
        /\ DistillationRun.status run = failed
        /\ DistillationRun.completed_at run = Some 60
        /\ _run_distillation_async (Scenario.env (replies (lit "not json")))
             settings db_three 1%N None
           = (Raised (DistillationFailed JSONDecodeError), db_three)
        /\ distillation_runs db_three = []).
Proof.
  split.
  - destruct (invalid_response_leaves_no_failed_run
                (Scenario.env (replies (show (count_is (-1))))) settings
                db_three 1%N (Some [11%N; 12%N; 13%N]) [11%N; 12%N; 13%N]
                _ _ (show (count_is (-1)))
                eq_refl eq_refl eq_refl eq_refl eq_refl)
      as (cause & view' & run & _ & Hrun & Hl & _ & Hruns & _ & _ & Hs & Hc
          & Ht & _).
    assert (cause = ValidationError) as ->.
    { vm_compute in Ht. now inversion Ht. }
    exists view', run. repeat split; assumption.
  - destruct (invalid_response_leaves_no_failed_run
                (Scenario.env (replies (lit "not json"))) settings
                db_three 1%N None [11%N; 12%N; 13%N]
                _ _ (lit "not json")
                eq_refl eq_refl eq_refl eq_refl eq_refl)
      as (cause & view' & run & _ & Hrun & Hl & _ & Hruns & _ & _ & Hs & Hc
          & Ht & _).
    assert (cause = JSONDecodeError) as ->.
    { vm_compute in Ht. now inversion Ht. }
    exists view', run. repeat split; assumption.
Defined.

(** Objects the schema rejects, and the empty object it accepts. *)
Example schema_rejects :
  LabStateData.model_validate (count_is (-1)) = None
  /\ LabStateData.model_validate
       (JObj [(lit "signal_count", JStr (lit "3"))]) = None
  /\ LabStateData.model_validate
       (JObj [(lit "techniques",
               JList [JObj [(lit "name", JStr (lit "PCR"));
                            (lit "proficiency", JStr (lit "guru"))]])]) = None
  /\ LabStateData.model_validate
       (JObj [(lit "equipment", JList [JObj [(lit "name", JStr [])]])]) = None
  /\ LabStateData.model_validate (JList []) = None
  /\ LabStateData.model_validate (JObj []) = Some LabStateData.empty.
Proof. repeat split. Qed.

(* ===================================================================== *)
(** ** The token budget *)
(* ===================================================================== *)

(** [max_state_tokens] has no part in the result. *)
Lemma budget_is_not_read env settings budget db lab_id signal_ids :
  _run_distillation_async env (with_budget settings budget) db lab_id signal_ids
  = _run_distillation_async env settings db lab_id signal_ids.
Proof. reflexivity. Qed.

(** C9. A task that completes with token count [tc] completes in the
    same way, and commits the same state row, under any budget below
    [tc]. *)
Theorem over_budget_still_commits env settings db lab_id signal_ids
    v tc n db' budget :
  _run_distillation_async env settings db lab_id signal_ids
  = (Completed lab_id v (Some tc) n, db') ->
  budget < tc ->
  _run_distillation_async env (with_budget settings budget) db lab_id signal_ids
  = (Completed lab_id v (Some tc) n, db')
  /\ exists ns, In ns (lab_states db')
       /\ LabState.lab_id ns = lab_id /\ LabState.version ns = v
       /\ LabState.token_count ns = Some tc
       /\ max_state_tokens (with_budget settings budget) < tc.
Proof.
  intros H Hb. rewrite budget_is_not_read. split; [exact H|].
  apply task_completed in H.
  destruct H as (ids & r & content & j & validated & _ & _ & _ & _ & _ & _
                 & _ & -> & Htc & _ & ->).
  exists (new_state_row env settings lab_id r validated). simpl.
  repeat split.
  - apply in_or_app. right. now left.
  - simpl in Htc. now inversion Htc.
  - exact Hb.
Qed.

(** C9 at a state of 57 tokens and a budget of 10. *)
Lemma over_budget_still_commits_witness :
  _run_distillation_async (Scenario.env (replies (lit "{}")))
    (with_budget settings 10) db_three 1%N None
  = (Completed 1%N 1 (Some 57) 3,
     snd (_run_distillation_async (Scenario.env (replies (lit "{}")))
            settings db_three 1%N None))
  /\ exists ns,
       In ns (lab_states
                (snd (_run_distillation_async
                        (Scenario.env (replies (lit "{}")))
                        settings db_three 1%N None)))
       /\ LabState.lab_id ns = 1%N /\ LabState.version ns = 1
       /\ LabState.token_count ns = Some 57
       /\ max_state_tokens (with_budget settings 10) < 57.
Proof.
  apply (over_budget_still_commits (Scenario.env (replies (lit "{}")))
           settings db_three 1%N None 1 57 3 _ 10).
  - reflexivity.
  - reflexivity.
Defined.

(* ===================================================================== *)
(** * Further properties of the code                                      *)
(* ===================================================================== *)

(* ===================================================================== *)
(** ** The schema of the state: validation and dump *)
(* ===================================================================== *)

Lemma v_str_Some lo hi v s :
  v_str lo hi v = Some s -> v = JStr s /\ Constraints.str_ok lo hi s = true.
Proof.
  destruct v; simpl; try discriminate.
  unfold Constraints.str_ok.
  destruct ((lo <=? len s0) && (len s0 <=? hi)) eqn:E; [|discriminate].
  intros H. inversion H; subst. now split.
Qed.

Lemma v_opt_str_Some hi v s :
  v_opt_str hi v = Some s -> Constraints.opt_str_ok hi s = true.
Proof.
  destruct v; simpl; try discriminate.
  - intros H. now inversion H.
  - destruct (len s0 <=? hi) eqn:E; [|discriminate].
    intros H. inversion H; subst. exact E.
Qed.

Lemma all_some_length {A} (xs : list (option A)) ys :
  all_some xs = Some ys -> List.length ys = List.length xs.
Proof.
  revert ys. induction xs as [|x xs IH]; simpl; intros ys H.
  - now inversion H.
  - destruct x as [a|]; simpl in H; [|discriminate].
    destruct (all_some xs) as [r|]; simpl in H; [|discriminate].
    inversion H; subst. simpl. f_equal. now apply IH.
Qed.

Lemma all_some_forall {A B} (f : B -> option A) (ok : A -> bool) items ys :
  (forall v a, f v = Some a -> ok a = true) ->
  all_some (map f items) = Some ys -> forallb ok ys = true.
Proof.
  intros Hf. revert ys. induction items as [|v items IH]; simpl; intros ys H.
  - now inversion H.
  - destruct (f v) as [a|] eqn:Ea; simpl in H; [|discriminate].
    destruct (all_some (map f items)) as [r|]; simpl in H; [|discriminate].
    inversion H; subst. simpl. rewrite (Hf _ _ Ea). now apply IH.
Qed.

Lemma v_list_Some {A} hi (item : value -> option A) (ok : A -> bool) v ys :
  (forall v a, item v = Some a -> ok a = true) ->
  v_list hi item v = Some ys -> Constraints.list_ok hi ok ys = true.
Proof.
  intros Hf. destruct v; simpl; try discriminate.
  destruct (Z.of_nat (List.length items) <=? hi) eqn:E; [|discriminate].
  intros H. unfold Constraints.list_ok.
  rewrite (all_some_length _ _ H), length_map, E. simpl.
  eapply all_some_forall; eassumption.
Qed.

Lemma optional_Some {A} f key (d : A) item (ok : A -> bool) a :
  optional f key d item = Some a ->
  ok d = true ->
  (forall v a, item v = Some a -> ok a = true) ->
  ok a = true.
Proof.
  unfold optional. destruct (Json.get (lit key) f) as [v|]; intros H Hd Hi.
  - now apply (Hi v).
  - inversion H; subst. exact Hd.
Qed.

Lemma required_Some {A} f key item (ok : A -> bool) a :
  required f key item = Some a ->
  (forall v a, item v = Some a -> ok a = true) ->
  ok a = true.
Proof.
  unfold required, bind. destruct (Json.get (lit key) f) as [v|]; intros H Hi.
  - now apply (Hi v).
  - discriminate.
Qed.

Lemma v_model_Some {A} (of_fields : list (str * value) -> option A) ok v a :
  (forall f a, of_fields f = Some a -> ok a = true) ->
  v_model of_fields v = Some a -> ok a = true.
Proof. intros H. destruct v; simpl; try discriminate. apply H. Qed.

Lemma str_ok_of lo hi v s :
  v_str lo hi v = Some s -> Constraints.str_ok lo hi s = true.
Proof. intros H. now apply v_str_Some in H. Qed.

Lemma str_list_ok hi v ys :
  v_list hi v_any_str v = Some ys ->
  Constraints.list_ok hi Constraints.any_ok ys = true.
Proof. apply v_list_Some. reflexivity. Qed.

(** One [bind] of a validator that succeeded. *)
Ltac bind_step H x E :=
  match type of H with
  | bind ?c _ = Some _ =>
      destruct c as [x|] eqn:E; simpl in H; [|discriminate H]
  end.

(** The constraint of one field, from the equation of its validator. *)
Ltac field_ok :=
  first
    [ eapply required_Some; [eassumption|]
    | eapply optional_Some; [eassumption|reflexivity|] ];
  first [ exact (str_ok_of _ _) | exact (v_opt_str_Some _)
        | exact (str_list_ok _) ].

Ltac fields_ok :=
  rewrite ?andb_true_iff; repeat split; field_ok.

Lemma equipment_validated f x :
  Equipment.of_fields f = Some x -> Constraints.equipment x = true.
Proof.
  unfold Equipment.of_fields. intros H.
  bind_step H a Ea. bind_step H b Eb. bind_step H c Ec.
  inversion H; subst. unfold Constraints.equipment. simpl. fields_ok.
Qed.

Lemma technique_validated f x :
  Technique.of_fields f = Some x -> Constraints.technique x = true.
Proof.
  unfold Technique.of_fields. intros H.
  bind_step H a Ea. bind_step H b Eb. bind_step H c Ec.
  inversion H; subst. unfold Constraints.technique. simpl. fields_ok.
Qed.

Lemma expertise_validated f x :
  Expertise.of_fields f = Some x -> Constraints.expertise x = true.
Proof.
  unfold Expertise.of_fields. intros H.
  bind_step H a Ea. bind_step H b Eb.
  inversion H; subst. unfold Constraints.expertise. simpl. field_ok.
Qed.

Lemma organism_validated f x :
  Organism.of_fields f = Some x -> Constraints.organism x = true.
Proof.
  unfold Organism.of_fields. intros H.
  bind_step H a Ea. bind_step H b Eb. bind_step H c Ec.
  inversion H; subst. unfold Constraints.organism. simpl. fields_ok.
Qed.

Lemma reagent_validated f x :
  Reagent.of_fields f = Some x -> Constraints.reagent x = true.
Proof.
  unfold Reagent.of_fields. intros H.
  bind_step H a Ea. bind_step H b Eb. bind_step H c Ec.
  inversion H; subst. unfold Constraints.reagent. simpl. fields_ok.
Qed.

Lemma experiment_summary_validated f x :
  ExperimentSummary.of_fields f = Some x ->
  Constraints.experiment_summary x = true.
Proof.
  unfold ExperimentSummary.of_fields. intros H.
  bind_step H a Ea. bind_step H b Eb. bind_step H c Ec.
  inversion H; subst. unfold Constraints.experiment_summary. simpl. fields_ok.
Qed.

Lemma resource_constraints_validated f x :
  ResourceConstraints.of_fields f = Some x ->
  Constraints.resource_constraints x = true.
Proof.
  unfold ResourceConstraints.of_fields. intros H.
  bind_step H a Ea. bind_step H b Eb. bind_step H c Ec.
  inversion H; subst. unfold Constraints.resource_constraints. simpl.
  fields_ok.
Qed.

Lemma model_list_ok {A} hi (of_fields : list (str * value) -> option A) ok
    fields key ys :
  (forall f a, of_fields f = Some a -> ok a = true) ->
  optional fields key [] (v_list hi (v_model of_fields)) = Some ys ->
  0 <= hi ->
  Constraints.list_ok hi ok ys = true.
Proof.
  intros Hm H Hhi. eapply optional_Some; [exact H| |].
  - unfold Constraints.list_ok. simpl. rewrite andb_true_r. now apply Z.leb_le.
  - intros v a. apply v_list_Some. intros v' a'. now apply v_model_Some.
Qed.

Lemma v_int_ge_Some lo v z : v_int_ge lo v = Some z -> (lo <=? z) = true.
Proof.
  destruct v; simpl; try discriminate.
  destruct (lo <=? z0) eqn:E; [|discriminate].
  intros H. inversion H; subst. exact E.
Qed.

Lemma validated_state_meets_constraints obj x :
  LabStateData.model_validate obj = Some x ->
  Constraints.lab_state_data x = true.
Proof.
  unfold LabStateData.model_validate. apply v_model_Some. clear obj x.
  intros f x. unfold LabStateData.of_fields. intros H.
  bind_step H a Ea. bind_step H b Eb. bind_step H c Ec. bind_step H d Ed.
  bind_step H e Ee. bind_step H g Eg. bind_step H h Eh. bind_step H n En.
  inversion H; subst. unfold Constraints.lab_state_data. simpl.
  rewrite !andb_true_iff. repeat split.
  - eapply model_list_ok; [exact equipment_validated|exact Ea|lia].
  - eapply model_list_ok; [exact technique_validated|exact Eb|lia].
  - eapply model_list_ok; [exact expertise_validated|exact Ec|lia].
  - eapply model_list_ok; [exact organism_validated|exact Ed|lia].
  - eapply model_list_ok; [exact reagent_validated|exact Ee|lia].
  - eapply model_list_ok; [exact experiment_summary_validated|exact Eg|lia].
  - eapply optional_Some; [exact Eh|reflexivity|].
    intros v rc. apply v_model_Some. exact resource_constraints_validated.
  - eapply optional_Some; [exact En|reflexivity|]. exact (v_int_ge_Some 0).
Qed.

Lemma eqb_refl (s : str) : PyStr.eqb s s = true.
Proof. unfold PyStr.eqb. destruct (list_eq_dec N.eq_dec s s); congruence. Qed.

Lemma eqb_eq (a b : str) : PyStr.eqb a b = true -> a = b.
Proof.
  unfold PyStr.eqb. now destruct (list_eq_dec N.eq_dec a b).
Qed.

Lemma get_here k v rest : Json.get k ((k, v) :: rest) = Some v.
Proof. simpl. now rewrite eqb_refl. Qed.

Lemma get_next k k' v rest :
  PyStr.eqb k' k = false -> Json.get k ((k', v) :: rest) = Json.get k rest.
Proof. simpl. now intros ->. Qed.

Ltac get_keys :=
  repeat first [ rewrite get_here
               | rewrite get_next by (vm_compute; reflexivity) ].

Lemma v_str_dump lo hi s :
  Constraints.str_ok lo hi s = true -> v_str lo hi (d_str s) = Some s.
Proof. unfold Constraints.str_ok. simpl. now intros ->. Qed.

Lemma v_opt_str_dump hi s :
  Constraints.opt_str_ok hi s = true -> v_opt_str hi (d_opt_str s) = Some s.
Proof. destruct s as [x|]; simpl; [now intros ->|reflexivity]. Qed.

Lemma all_some_dump {A} (item : value -> option A) (dump : A -> value)
    (ok : A -> bool) xs :
  (forall x, ok x = true -> item (dump x) = Some x) ->
  forallb ok xs = true ->
  all_some (map item (map dump xs)) = Some xs.
Proof.
  intros Hr. induction xs as [|x xs IH]; simpl; intros H; [reflexivity|].
  apply andb_true_iff in H. destruct H as [Hx Hxs].
  rewrite (Hr x Hx), (IH Hxs). reflexivity.
Qed.

Lemma v_list_dump {A} hi (item : value -> option A) (dump : A -> value)
    (ok : A -> bool) xs :
  (forall x, ok x = true -> item (dump x) = Some x) ->
  Constraints.list_ok hi ok xs = true ->
  v_list hi item (d_list dump xs) = Some xs.
Proof.
  intros Hr H. unfold Constraints.list_ok in H.
  apply andb_true_iff in H. destruct H as [Hl Hx].
  unfold d_list. simpl. rewrite length_map, Hl.
  eapply all_some_dump; eassumption.
Qed.

Lemma v_str_list_dump hi xs :
  Constraints.list_ok hi Constraints.any_ok xs = true ->
  v_list hi v_any_str (d_list d_str xs) = Some xs.
Proof. apply v_list_dump. reflexivity. Qed.

Lemma equipment_round x :
  Constraints.equipment x = true ->
  v_model Equipment.of_fields (Equipment.model_dump x) = Some x.
Proof.
  destruct x as [a b c]. unfold Constraints.equipment. simpl.
  rewrite !andb_true_iff. intros [[H1 H2] H3].
  unfold Equipment.model_dump, v_model, Equipment.of_fields, required,
    optional. simpl Equipment.name. simpl Equipment.capabilities.
  simpl Equipment.limitations. get_keys. cbn [bind].
  rewrite (v_str_dump _ _ _ H1). cbn [bind].
  rewrite (v_str_list_dump _ _ H2). cbn [bind].
  rewrite (v_opt_str_dump _ _ H3). reflexivity.
Qed.

Lemma proficiency_round p :
  v_literal proficiency_names (d_str (proficiency_str p)) = Some p.
Proof. destruct p; reflexivity. Qed.

Lemma confidence_round c :
  v_literal confidence_names (d_str (confidence_str c)) = Some c.
Proof. destruct c; reflexivity. Qed.

Lemma outcome_round o :
  v_literal outcome_names (d_str (outcome_str o)) = Some o.
Proof. destruct o; reflexivity. Qed.

(** Rewrites the validator of each dumped field with its result. *)
Ltac dumped_fields :=
  get_keys; cbn [bind];
  repeat (first [ rewrite v_str_dump by assumption
                | rewrite v_str_list_dump by assumption
                | rewrite v_opt_str_dump by assumption
                | rewrite proficiency_round
                | rewrite confidence_round
                | rewrite outcome_round ];
          cbn [bind]).

Lemma technique_round x :
  Constraints.technique x = true ->
  v_model Technique.of_fields (Technique.model_dump x) = Some x.
Proof.
  destruct x as [a b c]. unfold Constraints.technique. simpl.
  rewrite !andb_true_iff. intros [H1 H2].
  unfold Technique.model_dump, v_model, Technique.of_fields, required,
    optional. simpl Technique.name. simpl Technique.proficiency.
  simpl Technique.notes. dumped_fields. reflexivity.
Qed.

Lemma expertise_round x :
  Constraints.expertise x = true ->
  v_model Expertise.of_fields (Expertise.model_dump x) = Some x.
Proof.
  destruct x as [a b]. unfold Constraints.expertise. simpl. intros H1.
  unfold Expertise.model_dump, v_model, Expertise.of_fields, required,
    optional. simpl Expertise.domain. simpl Expertise.confidence.
  dumped_fields. reflexivity.
Qed.

Lemma organism_round x :
  Constraints.organism x = true ->
  v_model Organism.of_fields (Organism.model_dump x) = Some x.
Proof.
  destruct x as [a b c]. unfold Constraints.organism. simpl.
  rewrite !andb_true_iff. intros [[H1 H2] H3].
  unfold Organism.model_dump, v_model, Organism.of_fields, required,
    optional. simpl Organism.name. simpl Organism.strains.
  simpl Organism.notes. dumped_fields. reflexivity.
Qed.

Lemma reagent_round x :
  Constraints.reagent x = true ->
  v_model Reagent.of_fields (Reagent.model_dump x) = Some x.
Proof.
  destruct x as [a b c]. unfold Constraints.reagent. simpl.
  rewrite !andb_true_iff. intros [[H1 H2] H3].
  unfold Reagent.model_dump, v_model, Reagent.of_fields, required,
    optional. simpl Reagent.name. simpl Reagent.quantity.
  simpl Reagent.notes. dumped_fields. reflexivity.
Qed.

Lemma experiment_summary_round x :
  Constraints.experiment_summary x = true ->
  v_model ExperimentSummary.of_fields (ExperimentSummary.model_dump x)
  = Some x.
Proof.
  destruct x as [a b c]. unfold Constraints.experiment_summary. simpl.
  rewrite !andb_true_iff. intros [H1 H2].
  unfold ExperimentSummary.model_dump, v_model, ExperimentSummary.of_fields,
    required, optional. simpl ExperimentSummary.technique.
  simpl ExperimentSummary.outcome. simpl ExperimentSummary.insight.
  dumped_fields. reflexivity.
Qed.

Lemma resource_constraints_round x :
  Constraints.resource_constraints x = true ->
  v_model ResourceConstraints.of_fields (ResourceConstraints.model_dump x)
  = Some x.
Proof.
  destruct x as [a b c]. unfold Constraints.resource_constraints. simpl.
  rewrite !andb_true_iff. intros [[H1 H2] H3].
  unfold ResourceConstraints.model_dump, v_model,
    ResourceConstraints.of_fields, required, optional.
  simpl ResourceConstraints.budget_notes.
  simpl ResourceConstraints.time_constraints.
  simpl ResourceConstraints.personnel_notes. dumped_fields. reflexivity.
Qed.

Lemma state_dump_validates x :
  Constraints.lab_state_data x = true ->
  LabStateData.model_validate (LabStateData.model_dump x) = Some x.
Proof.
  destruct x as [a b c d e g h n]. unfold Constraints.lab_state_data. simpl.
  rewrite !andb_true_iff. intros [[[[[[[H1 H2] H3] H4] H5] H6] H7] H8].
  unfold LabStateData.model_validate, LabStateData.model_dump, v_model,
    LabStateData.of_fields, required, optional.
  cbn [LabStateData.equipment LabStateData.techniques LabStateData.expertise
       LabStateData.organisms LabStateData.reagents
       LabStateData.experimental_history LabStateData.resource_constraints
       LabStateData.signal_count].
  get_keys. cbn [bind].
  rewrite (v_list_dump _ _ _ _ _ equipment_round H1). cbn [bind].
  rewrite (v_list_dump _ _ _ _ _ technique_round H2). cbn [bind].
  rewrite (v_list_dump _ _ _ _ _ expertise_round H3). cbn [bind].
  rewrite (v_list_dump _ _ _ _ _ organism_round H4). cbn [bind].
  rewrite (v_list_dump _ _ _ _ _ reagent_round H5). cbn [bind].
  rewrite (v_list_dump _ _ _ _ _ experiment_summary_round H6). cbn [bind].
  rewrite (resource_constraints_round _ H7). cbn [bind].
  simpl v_int_ge. rewrite H8. reflexivity.
Qed.

(** X1. Whatever object [LabStateData.model_validate] accepts, the model
    it returns meets every [Field] constraint of the schema: the bounds on
    the six lists, the lengths of the strings of every item, and a
    [signal_count] that is not negative. *)
Theorem validation_enforces_constraints obj x :
  LabStateData.model_validate obj = Some x ->
  Constraints.lab_state_data x = true
  /\ 0 <= LabStateData.signal_count x
  /\ (List.length (LabStateData.equipment x) <= 50)%nat
  /\ (List.length (LabStateData.techniques x) <= 50)%nat
  /\ (List.length (LabStateData.expertise x) <= 30)%nat
  /\ (List.length (LabStateData.organisms x) <= 20)%nat
  /\ (List.length (LabStateData.reagents x) <= 50)%nat
  /\ (List.length (LabStateData.experimental_history x) <= 30)%nat.
Proof.
  intros H. apply validated_state_meets_constraints in H.
  split; [exact H|]. unfold Constraints.lab_state_data in H.
  rewrite !andb_true_iff in H.
  destruct H as [[[[[[[H1 H2] H3] H4] H5] H6] _] H8].
  unfold Constraints.list_ok in *. rewrite !andb_true_iff in *.
  destruct H1 as [H1 _], H2 as [H2 _], H3 as [H3 _], H4 as [H4 _],
    H5 as [H5 _], H6 as [H6 _].
  apply Z.leb_le in H1, H2, H3, H4, H5, H6, H8.
  repeat split; lia.
Qed.

(** X1 at a state with one piece of equipment and one technique. *)
Lemma validation_enforces_constraints_witness :
  LabStateData.model_validate Examples.state_object
  = Some Examples.state_model
  /\ Constraints.lab_state_data Examples.state_model = true
  /\ 0 <= LabStateData.signal_count Examples.state_model.
Proof.
  split; [reflexivity|].
  pose proof (validation_enforces_constraints Examples.state_object
                Examples.state_model eq_refl) as (H1 & H2 & _).
  now split.
Defined.

(** X2. [model_validate(model_dump(x))] gives back [x] exactly when [x]
    meets the constraints of the schema: the dump of a valid state round
    trips, the dump of any other state is rejected. *)
Theorem dump_validates_iff_constraints x :
  Constraints.lab_state_data x = true
  <-> LabStateData.model_validate (LabStateData.model_dump x) = Some x.
Proof.
  split; [apply state_dump_validates|apply validated_state_meets_constraints].
Qed.

(** A state whose counter is negative does not validate from its dump. *)
Example dump_of_a_negative_count_is_rejected :
  LabStateData.model_validate
    (LabStateData.model_dump
       (LabStateData.set_signal_count Examples.state_model (-1)))
  = None
  /\ LabStateData.model_validate (LabStateData.model_dump Examples.state_model)
     = Some Examples.state_model.
Proof. split; reflexivity. Qed.

(* ===================================================================== *)
(** ** What the tables keep over every trace *)
(* ===================================================================== *)

Lemma finish_attempt_cases env st db a :
  snd (finish_attempt env st db a) = db
  \/ exists j validated,
       LabStateData.model_validate j = Some validated
       /\ version_taken db (attempt_lab a)
            (new_version (attempt_reservation a)) = false
       /\ snd (finish_attempt env st db a)
          = committed_db env db (attempt_ids a) (attempt_reservation a)
              (new_state_row env st (attempt_lab a) (attempt_reservation a)
                 validated).
Proof.
  unfold finish_attempt.
  destruct (insert_run db _) as [view|] eqn:Er; [|now left].
  destruct (complete _ _ _ _ _ _ _) as [[e|ns] view'] eqn:Ec; [now left|].
  right.
  destruct (complete_success _ _ _ _ _ _ _ _ _ Er Ec)
    as (content & j & validated & _ & _ & Hv & -> & Ht & ->).
  exists j, validated. repeat split; assumption.
Qed.

Lemma map_injective_on {A B} (f : A -> B) (l : list A) a b :
  NoDup (map f l) -> In a l -> In b l -> f a = f b -> a = b.
Proof.
  induction l as [|x l IH]; simpl; intros Hnd Ha Hb Hf; [contradiction|].
  inversion Hnd as [|y ys Hnin Hnd']; subst.
  destruct Ha as [->|Ha]; destruct Hb as [->|Hb]; try reflexivity.
  - exfalso. apply Hnin. rewrite Hf. now apply in_map.
  - exfalso. apply Hnin. rewrite <- Hf. now apply in_map.
  - now apply IH.
Qed.

Lemma set_count_ok x n :
  Constraints.lab_state_data x = true -> 0 <= n ->
  Constraints.lab_state_data (LabStateData.set_signal_count x n) = true.
Proof.
  unfold Constraints.lab_state_data. destruct x; simpl.
  rewrite !andb_true_iff. intros [H _] Hn. split; [exact H|].
  now apply Z.leb_le.
Qed.

Lemma count_nonneg x :
  Constraints.lab_state_data x = true -> 0 <= LabStateData.signal_count x.
Proof.
  unfold Constraints.lab_state_data. rewrite !andb_true_iff.
  intros [_ H]. now apply Z.leb_le.
Qed.

Lemma in_states_of db lab row :
  In row (states_of db lab)
  <-> In row (lab_states db) /\ LabState.lab_id row = lab.
Proof.
  unfold states_of. rewrite filter_In. split; intros [H1 H2]; split; auto.
  - now apply N.eqb_eq.
  - now apply N.eqb_eq.
Qed.

Lemma run_versions_app db db' lab r :
  distillation_runs db' = distillation_runs db ++ [r] ->
  run_versions db' lab
  = run_versions db lab
    ++ (if N.eqb (DistillationRun.lab_id r) lab
        then [DistillationRun.output_state_version r] else []).
Proof.
  intros H. unfold run_versions. rewrite H, filter_app, map_app. simpl.
  destruct (N.eqb (DistillationRun.lab_id r) lab); reflexivity.
Qed.

Lemma ledger_init :
  ledger_invariant {| committed := empty_db []; in_flight := [] |}.
Proof.
  split; [apply invariant_init|]. simpl.
  split; [intros row []|].
  split; [intros a b []|].
  split; [reflexivity|].
  split; [intros r []|constructor].
Qed.

Lemma attempt_sound_same db db' a :
  lab_states db' = lab_states db ->
  attempt_sound db a -> attempt_sound db' a.
Proof. unfold attempt_sound. intros ->. auto. Qed.

Lemma ledger_same_tables sys db' fl :
  ledger_invariant sys ->
  system_invariant {| committed := db'; in_flight := fl |} ->
  lab_states db' = lab_states (committed sys) ->
  distillation_runs db' = distillation_runs (committed sys) ->
  (forall a, In a fl -> In a (in_flight sys)) ->
  ledger_invariant {| committed := db'; in_flight := fl |}.
Proof.
  intros (_ & Hv & Hc & Hr & Hcl & Hf) Hsys Hs Hd Hsub.
  split; [exact Hsys|]. simpl.
  split; [|split; [|split; [|split]]].
  - unfold states_valid. rewrite Hs. exact Hv.
  - unfold counts_increase. rewrite Hs. exact Hc.
  - intros lab. unfold run_versions. rewrite Hd.
    rewrite (versions_of_same _ _ lab Hs). apply Hr.
  - rewrite Hd. exact Hcl.
  - apply Forall_forall. intros a Ha.
    apply (attempt_sound_same (committed sys)); [exact Hs|].
    rewrite Forall_forall in Hf. apply Hf. now apply Hsub.
Qed.

Lemma reserve_sound env st db lab ids r :
  (forall l, contiguous_versions db l) ->
  states_valid db -> counts_increase db ->
  reserve env st db lab ids = inr r ->
  attempt_sound db
    {| attempt_lab := lab; attempt_ids := ids; attempt_reservation := r |}.
Proof.
  intros Hcont Hv Hc Hr. apply reserve_inr in Hr.
  destruct Hr as (Hne & Hs & Hd & Hi & Hn & Hrun).
  unfold attempt_sound. simpl. rewrite Hrun. simpl.
  split; [reflexivity|]. split; [reflexivity|].
  split; [now rewrite Hs|].
  destruct (current_state_of db lab) as [cs|] eqn:Ecur.
  - pose proof Ecur as Hcs. unfold current_state_of in Hcs.
    apply greatest_version_Some in Hcs. destruct Hcs as [Hin Hmax].
    pose proof (proj1 (in_states_of db lab cs) Hin) as [Hin' Hlab].
    split; [right; exists (LabState.version cs); rewrite Hi, Hn; now split|].
    split; [now rewrite Hs|].
    split; [rewrite Hd; now apply Hv|].
    intros row Hrow Hl Hlt. rewrite Hd, Hn in *.
    assert (Hrin : In row (states_of db lab)) by (now apply in_states_of).
    destruct (Z.eq_dec (LabState.version row) (LabState.version cs)) as [E|E].
    + assert (row = cs).
      { apply (map_injective_on LabState.version (states_of db lab));
          try assumption. apply (Hcont lab). }
      subst. lia.
    + assert (LabStateData.signal_count (LabState.state row)
              < LabStateData.signal_count (LabState.state cs)).
      { apply Hc; try assumption; [congruence|lia]. }
      lia.
  - split; [left; rewrite Hi, Hn; now split|].
    split; [now rewrite Hs|].
    split; [rewrite Hd; reflexivity|].
    intros row Hrow Hl _. exfalso.
    assert (Hrin : In row (states_of db lab)) by (now apply in_states_of).
    unfold current_state_of in Ecur. apply greatest_version_None in Ecur.
    now rewrite Ecur in Hrin.
Qed.

Lemma ledger_commit sys env st a validated j db' fl :
  ledger_invariant sys ->
  system_invariant {| committed := db'; in_flight := fl |} ->
  In a (in_flight sys) ->
  (forall x, In x fl -> In x (in_flight sys)) ->
  LabStateData.model_validate j = Some validated ->
  version_taken (committed sys) (attempt_lab a)
    (new_version (attempt_reservation a)) = false ->
  db' = committed_db env (committed sys) (attempt_ids a)
          (attempt_reservation a)
          (new_state_row env st (attempt_lab a) (attempt_reservation a)
             validated) ->
  ledger_invariant {| committed := db'; in_flight := fl |}.
Proof.
  intros ([Hcont Hwin] & Hv & Hc & Hr & Hcl & Hf) Hsys Ha Hsub Hval Ht ->.
  set (r := attempt_reservation a) in *.
  set (ns := new_state_row env st (attempt_lab a) r validated).
  set (db := committed sys) in *.
  rewrite Forall_forall in Hwin, Hf.
  pose proof (Hwin a Ha) as Hwa. pose proof (Hf a Ha) as Hsa.
  destruct Hsa as (Hlab & Hout & Hsp & Hio & Hne & Hcsd & Hle).
  fold r in Hlab, Hout, Hsp, Hio, Hne, Hcsd, Hle.
  assert (Hns_lab : LabState.lab_id ns = attempt_lab a) by reflexivity.
  assert (Hns_ver : LabState.version ns = new_version r) by reflexivity.
  assert (Hstates : lab_states (committed_db env db (attempt_ids a) r ns)
                    = lab_states db ++ [ns]) by reflexivity.
  assert (Hruns : distillation_runs (committed_db env db (attempt_ids a) r ns)
                  = distillation_runs db
                    ++ [DistillationRun.finish (distillation_run r) completed
                          (utc_now env)]) by reflexivity.
  assert (Htop : LabState.version ns
                 = Z.of_nat (List.length (versions_of db (attempt_lab a))) + 1).
  { unfold attempt_in_window in Hwa. fold r in Hwa.
    rewrite <- Hns_lab, <- Hns_ver in Hwa, Ht.
    now destruct (contiguous_append _ _ ns Hstates Ht Hwa Hcont). }
  assert (Hlen : 0 < Z.of_nat (List.length (signals r))).
  { destruct (signals r); [congruence|simpl; lia]. }
  assert (Hcount : LabStateData.signal_count (LabState.state ns)
                   = LabStateData.signal_count (current_state_data r)
                     + Z.of_nat (List.length (signals r))) by reflexivity.
  assert (Hold : forall row, In row (lab_states db) ->
                   LabState.lab_id row = attempt_lab a ->
                   LabState.version row < LabState.version ns).
  { intros row Hrow Hl.
    assert (Hin : In (LabState.version row) (versions_of db (attempt_lab a))).
    { unfold versions_of. apply in_map. now apply in_states_of. }
    apply (Hcont (attempt_lab a)) in Hin. lia. }
  split; [exact Hsys|]. simpl.
  split; [|split; [|split; [|split]]].
  - intros row Hrow. rewrite Hstates in Hrow. apply in_app_iff in Hrow.
    destruct Hrow as [Hrow|[<-|[]]]; [now apply Hv|].
    apply set_count_ok.
    + now apply (validated_state_meets_constraints j).
    + pose proof (count_nonneg _ Hcsd). lia.
  - intros x y Hx Hy Hl Hlt. rewrite Hstates in Hx, Hy.
    apply in_app_iff in Hx. apply in_app_iff in Hy.
    destruct Hx as [Hx|[<-|[]]]; destruct Hy as [Hy|[<-|[]]].
    + now apply Hc.
    + rewrite Hcount.
      assert (LabStateData.signal_count (LabState.state x)
              <= LabStateData.signal_count (current_state_data r)).
      { apply Hle; [exact Hx|congruence|]. rewrite <- Hns_ver. exact Hlt. }
      lia.
    + exfalso. pose proof (Hold y Hy (eq_sym Hl)). lia.
    + lia.
  - intros lab.
    rewrite (run_versions_app _ _ lab _ Hruns),
      (versions_of_app _ _ lab ns Hstates), Hr.
    simpl DistillationRun.lab_id. simpl DistillationRun.output_state_version.
    rewrite Hlab, Hout, Hns_lab, Hns_ver. reflexivity.
  - intros x Hx. simpl in Hx. apply in_app_iff in Hx.
    destruct Hx as [Hx|[<-|[]]]; [now apply Hcl|].
    unfold run_closed. simpl.
    split; [reflexivity|]. split; [discriminate|].
    split.
    + rewrite Hsp. destruct (signals r); [congruence|discriminate].
    + rewrite Hout. exact Hio.
  - apply Forall_forall. intros x Hx. specialize (Hsub x Hx).
    pose proof (Hf x Hsub) as (H1 & H2 & H3 & H4 & H5 & H6 & H7).
    unfold attempt_sound. repeat split; try assumption.
    intros row Hrow Hl Hlt. rewrite Hstates in Hrow.
    apply in_app_iff in Hrow. destruct Hrow as [Hrow|[<-|[]]].
    + now apply H7.
    + exfalso. pose proof (Hwin x Hsub) as Hwx. unfold attempt_in_window in Hwx.
      rewrite <- Hl, Hns_lab in Hwx. lia.
Qed.

Lemma ledger_step sys sys' :
  ledger_invariant sys -> step sys sys' -> ledger_invariant sys'.
Proof.
  intros Hinv Hstep.
  pose proof (invariant_step sys sys' (proj1 Hinv) Hstep) as Hsys.
  destruct Hstep as [sys lab_id | sys s
                    | sys env settings lab_uuid signal_ids ids r view H H0 H1
                    | sys env settings a before after H].
  - apply (ledger_same_tables sys); auto.
  - apply (ledger_same_tables sys); auto.
  - destruct Hinv as ([Hcont Hwin] & Hv & Hc & Hr & Hcl & Hf).
    split; [exact Hsys|]. cbn [committed in_flight].
    split; [exact Hv|]. split; [exact Hc|]. split; [exact Hr|].
    split; [exact Hcl|].
    constructor; [|exact Hf]. now apply (reserve_sound env settings).
  - assert (Ha : In a (in_flight sys)) by (rewrite H; apply in_elt).
    assert (Hsub : forall x, In x (before ++ after) -> In x (in_flight sys)).
    { intros x Hx. rewrite H. apply in_app_iff in Hx. apply in_app_iff.
      destruct Hx; [now left|right; now right]. }
    destruct (finish_attempt_cases env settings (committed sys) a)
      as [E|(j & validated & Hval & Ht & E)].
    + rewrite E in *. apply (ledger_same_tables sys); auto.
    + eapply (ledger_commit sys env settings a validated j); eauto.
Qed.

Lemma reachable_ledger sys : reachable sys -> ledger_invariant sys.
Proof.
  induction 1; [apply ledger_init | eapply ledger_step; eassumption].
Qed.

Lemma respond_valid row :
  Constraints.lab_state_data (LabState.state row) = true ->
  respond_state row = OK row.
Proof.
  intros H. unfold respond_state, lab_state_response.
  rewrite (state_dump_validates _ H). now destruct row.
Qed.

(** Two runs of the task, a signal created before each, are a trace of the system. *)
Lemma two_runs_reachable : reachable Examples.sys_two_runs.
Proof.
  apply (task_reachable Scenario.env_b Scenario.settings
           {| committed := add_signal Examples.db_one_run
                             (Scenario.signal 12%N 1%N 2 false);
              in_flight := [] |} 1%N None).
  eapply reachable_step.
  2: exact (step_add_signal
              {| committed := Examples.db_one_run; in_flight := [] |}
              (Scenario.signal 12%N 1%N 2 false)).
  apply (task_reachable Scenario.env_a Scenario.settings Scenario.sys_ready
           1%N None).
  eapply reachable_step.
  2: exact (step_add_signal
              {| committed := add_lab (empty_db []) 1%N; in_flight := [] |}
              (Scenario.signal 11%N 1%N 1 false)).
  eapply reachable_step.
  2: exact (step_add_lab {| committed := empty_db []; in_flight := [] |} 1%N).
  exact reachable_init.
Qed.

(** X3. Every state row a reachable database holds meets the schema's
    constraints, its [signal_count] is not negative, and the response model
    of the state routes accepts it unchanged. *)
Theorem committed_states_validate sys row :
  reachable sys ->
  In row (lab_states (committed sys)) ->
  Constraints.lab_state_data (LabState.state row) = true
  /\ 0 <= LabStateData.signal_count (LabState.state row)
  /\ respond_state row = OK row.
Proof.
  intros Hr Hrow. destruct (reachable_ledger sys Hr) as (_ & Hv & _).
  pose proof (Hv row Hrow) as H.
  split; [exact H|]. split; [now apply count_nonneg|now apply respond_valid].
Qed.

(** X3 at the two states of lab 1 after two runs of the task. *)
Lemma committed_states_validate_witness :
  List.length (lab_states Examples.db_two_runs) = 2%nat
  /\ Forall (fun row =>
               Constraints.lab_state_data (LabState.state row) = true
               /\ 0 <= LabStateData.signal_count (LabState.state row)
               /\ respond_state row = OK row)
       (lab_states Examples.db_two_runs).
Proof.
  split; [reflexivity|]. apply Forall_forall. intros row Hrow.
  exact (committed_states_validate Examples.sys_two_runs row
           two_runs_reachable Hrow).
Defined.

(** X4. Within one lab of a reachable database, a state of a greater
    version has a strictly greater [signal_count]. *)
Theorem signal_count_grows_with_version sys a b :
  reachable sys ->
  In a (lab_states (committed sys)) ->
  In b (lab_states (committed sys)) ->
  LabState.lab_id a = LabState.lab_id b ->
  LabState.version a < LabState.version b ->
  LabStateData.signal_count (LabState.state a)
  < LabStateData.signal_count (LabState.state b).
Proof.
  intros Hr. destruct (reachable_ledger sys Hr) as (_ & _ & Hc & _).
  apply Hc.
Qed.

(** X4 at versions 1 and 2 of lab 1. *)
Lemma signal_count_grows_with_version_witness :
  exists a b,
    nth_error (lab_states Examples.db_two_runs) 0 = Some a
    /\ nth_error (lab_states Examples.db_two_runs) 1 = Some b
    /\ LabState.version a = 1 /\ LabState.version b = 2
    /\ LabStateData.signal_count (LabState.state a)
       < LabStateData.signal_count (LabState.state b).
Proof.
  eexists. eexists.
  split; [vm_compute; reflexivity|]. split; [vm_compute; reflexivity|].
  split; [reflexivity|]. split; [reflexivity|].
  apply (signal_count_grows_with_version Examples.sys_two_runs).
  - exact two_runs_reachable.
  - vm_compute. left. reflexivity.
  - vm_compute. right. left. reflexivity.
  - reflexivity.
  - reflexivity.
Defined.

(** X5. In a reachable database the runs of a lab have, in table order,
    exactly the versions of its states as output versions, and every run
    row is completed, has a completion time, lists at least one signal and
    has [output = input + 1] (or no input and output 1). *)
Theorem runs_mirror_versions sys lab_id :
  reachable sys ->
  run_versions (committed sys) lab_id = versions_of (committed sys) lab_id
  /\ forall r, In r (distillation_runs (committed sys)) -> run_closed r.
Proof.
  intros Hr. destruct (reachable_ledger sys Hr) as (_ & _ & _ & H1 & H2 & _).
  split; [apply H1|exact H2].
Qed.

(** X5 at lab 1 after two runs of the task. *)
Lemma runs_mirror_versions_witness :
  run_versions Examples.db_two_runs 1%N = [1; 2]
  /\ run_versions Examples.db_two_runs 1%N
     = versions_of Examples.db_two_runs 1%N
  /\ Forall run_closed (distillation_runs Examples.db_two_runs).
Proof.
  split; [reflexivity|].
  destruct (runs_mirror_versions Examples.sys_two_runs 1%N
              two_runs_reachable) as [H1 H2].
  split; [exact H1|]. apply Forall_forall. exact H2.
Defined.

(* ===================================================================== *)
(** ** The batch of unprocessed signals *)
(* ===================================================================== *)

Lemma insert_by_created_at_perm s l :
  Permutation (insert_by_created_at s l) (s :: l).
Proof.
  induction l as [|x l IH]; simpl; [reflexivity|].
  destruct (RawSignal.created_at s <=? RawSignal.created_at x);
    [reflexivity|].
  rewrite IH. apply perm_swap.
Qed.

Lemma order_by_created_at_perm l : Permutation (order_by_created_at l) l.
Proof.
  induction l as [|x l IH]; simpl; [reflexivity|].
  rewrite insert_by_created_at_perm. now constructor.
Qed.

Lemma insert_by_created_at_sorted s l :
  StronglySorted not_newer l ->
  StronglySorted not_newer (insert_by_created_at s l).
Proof.
  induction 1 as [|x l Hs IH Hx]; simpl.
  - repeat constructor.
  - destruct (Z.leb_spec (RawSignal.created_at s) (RawSignal.created_at x)).
    + constructor; [now constructor|].
      constructor; [assumption|].
      rewrite Forall_forall in *. intros y Hy. specialize (Hx y Hy).
      unfold not_newer in *. lia.
    + constructor; [exact IH|].
      rewrite Forall_forall in *. intros y Hy.
      apply (Permutation_in _ (insert_by_created_at_perm s l)) in Hy.
      destruct Hy as [<-|Hy]; [unfold not_newer; lia|now apply Hx].
Qed.

Lemma order_by_created_at_sorted l :
  StronglySorted not_newer (order_by_created_at l).
Proof.
  induction l as [|x l IH]; simpl; [constructor|].
  now apply insert_by_created_at_sorted.
Qed.

Lemma in_firstn {A} n (l : list A) x : In x (firstn n l) -> In x l.
Proof.
  revert n. induction l as [|y l IH]; intros [|n]; simpl; try contradiction.
  intros [->|H]; [now left|right; now apply (IH n)].
Qed.

Lemma in_skipn {A} n (l : list A) x : In x (skipn n l) -> In x l.
Proof.
  revert n. induction l as [|y l IH]; intros [|n]; simpl; auto.
  intros H. right. now apply (IH n).
Qed.

Lemma firstn_sorted {A} (R : A -> A -> Prop) n l :
  StronglySorted R l -> StronglySorted R (firstn n l).
Proof.
  intros H. revert n. induction H as [|x l Hs IH Hx]; intros [|n]; simpl;
    try constructor.
  - apply IH.
  - rewrite Forall_forall in *. intros y Hy. apply Hx.
    now apply (in_firstn n l).
Qed.

Lemma skipn_sorted {A} (R : A -> A -> Prop) n l :
  StronglySorted R l -> StronglySorted R (skipn n l).
Proof.
  intros H. revert n. induction H as [|x l Hs IH Hx]; intros [|n]; simpl;
    try constructor; try assumption.
  apply IH.
Qed.

Lemma firstn_before_skipn {A} (R : A -> A -> Prop) n l a b :
  StronglySorted R l -> In a (firstn n l) -> In b (skipn n l) -> R a b.
Proof.
  intros H. revert n. induction H as [|x l Hs IH Hx]; intros [|n]; simpl;
    try contradiction.
  intros [<-|Ha] Hb.
  - rewrite Forall_forall in Hx. apply Hx. now apply (in_skipn n l).
  - now apply (IH n).
Qed.

Lemma in_firstn_or_skipn {A} n (l : list A) x :
  In x l -> In x (firstn n l) \/ In x (skipn n l).
Proof.
  intros H. rewrite <- (firstn_skipn n l) in H. now apply in_app_iff in H.
Qed.

(** X6. Every signal [get_unprocessed_signals] returns is a row of the
    database, belongs to the lab asked for and is unprocessed. *)
Theorem batch_is_scoped db lab_id limit s :
  In s (get_unprocessed_signals db lab_id limit) ->
  In s (raw_signals db)
  /\ RawSignal.lab_id s = lab_id
  /\ RawSignal.processed s = false.
Proof.
  unfold get_unprocessed_signals. intros H.
  apply in_firstn in H.
  apply (Permutation_in _ (order_by_created_at_perm _)) in H.
  apply filter_In in H. destruct H as [Hin Hb].
  apply andb_true_iff in Hb. destruct Hb as [Hl Hp].
  split; [exact Hin|]. split; [now apply N.eqb_eq|].
  now destruct (RawSignal.processed s).
Qed.

(** X6 at the first of three signals. *)
Lemma batch_is_scoped_witness :
  In (Scenario.signal 11%N 1%N 1 false)
    (raw_signals Scenario.db_three)
  /\ RawSignal.lab_id (Scenario.signal 11%N 1%N 1 false) = 1%N
  /\ RawSignal.processed (Scenario.signal 11%N 1%N 1 false) = false.
Proof.
  apply (batch_is_scoped Scenario.db_three 1%N 10).
  vm_compute. left. reflexivity.
Defined.

(** X7. The batch of [get_unprocessed_signals] is in the order of
    [created_at], oldest first, and no unprocessed signal of the lab that
    was left out is older than one that was taken. *)
Theorem batch_is_oldest_first db lab_id limit :
  StronglySorted not_newer (get_unprocessed_signals db lab_id limit)
  /\ forall s t,
       In s (get_unprocessed_signals db lab_id limit) ->
       In t (unprocessed_of db lab_id) ->
       ~ In t (get_unprocessed_signals db lab_id limit) ->
       not_newer s t.
Proof.
  unfold get_unprocessed_signals. fold (unprocessed_of db lab_id). split.
  - apply firstn_sorted. apply order_by_created_at_sorted.
  - intros s t Hs Ht Hnot.
    apply (Permutation_in _ (Permutation_sym (order_by_created_at_perm _)))
      in Ht.
    destruct (in_firstn_or_skipn (Z.to_nat limit) _ _ Ht) as [H|H];
      [contradiction|].
    eapply firstn_before_skipn; [apply order_by_created_at_sorted| |];
      eassumption.
Qed.

(** Of eleven signals the batch of ten leaves out the newest. *)
Example oldest_ten_of_eleven :
  map RawSignal.id (get_unprocessed_signals Scenario.db_eleven 1%N 10)
  = [101; 102; 103; 104; 105; 106; 107; 108; 109; 110]%N.
Proof. reflexivity. Qed.

Lemma batch_perm_below_limit db lab_id limit :
  Z.of_nat (List.length (unprocessed_of db lab_id)) <= limit ->
  Permutation (get_unprocessed_signals db lab_id limit)
    (unprocessed_of db lab_id).
Proof.
  intros H. unfold get_unprocessed_signals. fold (unprocessed_of db lab_id).
  rewrite firstn_all2; [apply order_by_created_at_perm|].
  rewrite (Permutation_length (order_by_created_at_perm _)). lia.
Qed.

(** X8. For a limit from 0 to the greatest INTEGER, the batch has
    [min(limit, backlog)] signals, and when the backlog fits the limit it
    holds every unprocessed signal of the lab. *)
Theorem batch_size_and_completeness db lab_id limit :
  0 <= limit <= INT4_MAX ->
  Z.of_nat (List.length (get_unprocessed_signals db lab_id limit))
  = Z.min limit (Z.of_nat (List.length (unprocessed_of db lab_id)))
  /\ (Z.of_nat (List.length (unprocessed_of db lab_id)) <= limit ->
      Permutation (get_unprocessed_signals db lab_id limit)
        (unprocessed_of db lab_id)).
Proof.
  intros [Hl _]. split; [|apply batch_perm_below_limit].
  unfold get_unprocessed_signals. fold (unprocessed_of db lab_id).
  rewrite length_firstn,
    (Permutation_length (order_by_created_at_perm _)). lia.
Qed.

(** X8 at eleven signals (ten taken) and at three (all taken). *)
Lemma batch_size_and_completeness_witness :
  List.length (get_unprocessed_signals Scenario.db_eleven 1%N 10) = 10%nat
  /\ Permutation (get_unprocessed_signals Scenario.db_three 1%N 10)
       (unprocessed_of Scenario.db_three 1%N).
Proof.
  split; [reflexivity|].
  apply (proj2 (batch_size_and_completeness Scenario.db_three 1%N 10
                  ltac:(unfold INT4_MAX; lia))).
  vm_compute. discriminate.
Defined.

Lemma task_ids_default db lab oids :
  oids = None \/ oids = Some [] ->
  task_ids db lab oids
  = match get_unprocessed_signals db lab default_limit with
    | [] => None
    | signals => Some (map RawSignal.id signals)
    end.
Proof. intros [->| ->]; reflexivity. Qed.

(** X9. When the task runs without ids on a lab whose backlog is within
    the default limit and completes, it reports the whole backlog as
    processed and leaves no unprocessed signal of that lab. *)
Theorem task_drains_small_backlog env settings db lab_id signal_ids
    lab' v tc n db' :
  signal_ids = None \/ signal_ids = Some [] ->
  Z.of_nat (List.length (unprocessed_of db lab_id)) <= default_limit ->
  _run_distillation_async env settings db lab_id signal_ids
  = (Completed lab' v tc n, db') ->
  n = Z.of_nat (List.length (unprocessed_of db lab_id))
  /\ forall s, In s (raw_signals db') ->
       RawSignal.lab_id s = lab_id -> RawSignal.processed s = true.
Proof.
  intros Ho Hsmall H. apply task_completed in H.
  destruct H as (ids & r & content & j & validated & Hids & _ & _ & _ & _ & _
                 & _ & _ & _ & -> & ->).
  rewrite (task_ids_default db lab_id signal_ids Ho) in Hids.
  pose proof (batch_perm_below_limit db lab_id default_limit Hsmall)
    as Hperm.
  assert (Hids' : ids = map RawSignal.id
                          (get_unprocessed_signals db lab_id default_limit)).
  { destruct (get_unprocessed_signals db lab_id default_limit);
      [discriminate|]. now inversion Hids. }
  split.
  - rewrite Hids', length_map. f_equal. now apply Permutation_length.
  - intros s Hs Hl. simpl in Hs. apply in_map_iff in Hs.
    destruct Hs as [s0 [Hs0 Hin]].
    destruct (in_ ids (RawSignal.id s0)) eqn:Ein; [now subst|].
    subst s. destruct (RawSignal.processed s0) eqn:Ep; [reflexivity|].
    exfalso. assert (Hu : In s0 (unprocessed_of db lab_id)).
    { unfold unprocessed_of. apply filter_In. split; [exact Hin|].
      rewrite Ep. apply andb_true_iff. split; [now apply N.eqb_eq|reflexivity]. }
    apply (Permutation_in _ (Permutation_sym Hperm)) in Hu.
    assert (In (RawSignal.id s0) ids)
      by (rewrite Hids'; now apply in_map).
    apply in__In in H. congruence.
Qed.

(** X9 at a lab with three signals. *)
Lemma task_drains_small_backlog_witness :
  3 = Z.of_nat (List.length (unprocessed_of Scenario.db_three 1%N))
  /\ forall s,
       In s (raw_signals
               (snd (_run_distillation_async
                       (Scenario.env (Scenario.replies (lit "{}")))
                       Scenario.settings Scenario.db_three 1%N None))) ->
       RawSignal.lab_id s = 1%N -> RawSignal.processed s = true.
Proof.
  apply (task_drains_small_backlog
           (Scenario.env (Scenario.replies (lit "{}"))) Scenario.settings
           Scenario.db_three 1%N None 1%N 1 (Some 57)).
  - now left.
  - vm_compute. discriminate.
  - reflexivity.
Defined.

(* ===================================================================== *)
(** ** The state a completed task leaves *)
(* ===================================================================== *)

Lemma greatest_version_last rows ns :
  (forall x, In x rows -> LabState.version x < LabState.version ns) ->
  greatest_version (rows ++ [ns]) = Some ns.
Proof.
  induction rows as [|x rows IH]; simpl; intros H; [reflexivity|].
  rewrite IH by (intros y Hy; apply H; now right).
  destruct (Z.ltb_spec (LabState.version ns) (LabState.version x));
    [|reflexivity].
  specialize (H x (or_introl eq_refl)). lia.
Qed.

Lemma states_of_app db db' lab ns :
  lab_states db' = lab_states db ++ [ns] ->
  LabState.lab_id ns = lab ->
  states_of db' lab = states_of db lab ++ [ns].
Proof.
  intros H Hl. unfold states_of. rewrite H, filter_app. simpl.
  now rewrite Hl, N.eqb_refl.
Qed.

(** X10. After a completed task the table of states grew by exactly one
    row: the current state of the lab, with the version and the token count
    the task reports, above every version the lab had. *)
Theorem completed_state_is_current env settings db lab_id signal_ids
    lab' v tc n db' :
  _run_distillation_async env settings db lab_id signal_ids
  = (Completed lab' v tc n, db') ->
  exists row,
    current_state_of db' lab_id = Some row
    /\ lab_states db' = lab_states db ++ [row]
    /\ LabState.version row = v
    /\ LabState.token_count row = tc
    /\ (forall old, In old (states_of db lab_id) ->
          LabState.version old < v).
Proof.
  intros H. apply task_completed in H.
  destruct H as (ids & r & content & j & validated & _ & Hr & _ & _ & _ & _
                 & _ & -> & -> & _ & ->).
  set (ns := new_state_row env settings lab_id r validated).
  apply reserve_inr in Hr. destruct Hr as (_ & _ & _ & _ & Hn & _).
  assert (Hlt : forall old, In old (states_of db lab_id) ->
                  LabState.version old < new_version r).
  { intros old Hold. rewrite Hn.
    destruct (current_state_of db lab_id) as [cs|] eqn:E.
    - unfold current_state_of in E. apply greatest_version_Some in E.
      destruct E as [_ Hmax]. specialize (Hmax old Hold). lia.
    - unfold current_state_of in E. apply greatest_version_None in E.
      now rewrite E in Hold. }
  exists ns. repeat split; try assumption.
  unfold current_state_of.
  rewrite (states_of_app db (committed_db env db ids r ns) lab_id ns
             eq_refl eq_refl).
  now apply greatest_version_last.
Qed.

(** X10 at the second run of lab 1. *)
Lemma completed_state_is_current_witness :
  exists row,
    current_state_of Examples.db_two_runs 1%N = Some row
    /\ lab_states Examples.db_two_runs
       = lab_states Examples.db_one_run ++ [row]
    /\ LabState.version row = 2
    /\ LabState.token_count row = Some 57
    /\ (forall old, In old (states_of Examples.db_one_run 1%N) ->
          LabState.version old < 2).
Proof.
  apply (completed_state_is_current Scenario.env_b Scenario.settings
           (add_signal Examples.db_one_run
              (Scenario.signal 12%N 1%N 2 false))
           1%N None 1%N 2 (Some 57) 1 Examples.db_two_runs).
  reflexivity.
Defined.

(* ===================================================================== *)
(** ** The routes of states *)
(* ===================================================================== *)

Lemma filter_key_nodup {A} (f : A -> Z) (l : list A) v :
  NoDup (map f l) ->
  (~ In v (map f l) /\ filter (fun x => f x =? v) l = [])
  \/ exists x, In x l /\ f x = v /\ filter (fun x => f x =? v) l = [x].
Proof.
  induction l as [|y l IH]; simpl; intros Hnd.
  - left. split; [tauto|reflexivity].
  - inversion Hnd as [|z zs Hnin Hnd']; subst.
    destruct (Z.eqb_spec (f y) v) as [E|E].
    + right. exists y. split; [now left|]. split; [exact E|].
      destruct (IH Hnd') as [[_ ->]|(x & Hx & Hfx & _)]; [reflexivity|].
      exfalso. apply Hnin. rewrite E, <- Hfx. now apply in_map.
    + destruct (IH Hnd') as [[Hn ->]|(x & Hx & Hfx & ->)].
      * left. split; [|reflexivity]. intros [H|H]; [congruence|tauto].
      * right. exists x. split; [now right|]. now split.
Qed.

Lemma filter_lab_version db lab v :
  filter (fun s => N.eqb (LabState.lab_id s) lab && (LabState.version s =? v))
    (lab_states db)
  = filter (fun s => LabState.version s =? v) (states_of db lab).
Proof.
  unfold states_of. induction (lab_states db) as [|x l IH]; simpl;
    [reflexivity|].
  destruct (N.eqb (LabState.lab_id x) lab); simpl; rewrite IH; reflexivity.
Qed.

(** X11. On a reachable database that holds [n] states of the lab:
    when [get_state_version] returns, the version asked for is in [1..n] and
    the row is the one row of that lab and version; when it raises 404, the
    version is not in [1..n] and the lab has no row of it. When
    [get_current_state] returns, [n] is positive and the row is the row of
    version [n], the greatest of the lab; when it raises 404, the lab has no
    state. *)
Theorem state_routes_on_reachable sys lab_id version :
  reachable sys ->
  let db := committed sys in
  let n := Z.of_nat (List.length (versions_of db lab_id)) in
  match get_state_version db lab_id version with
  | OK row =>
      1 <= version <= n
      /\ In row (lab_states db)
      /\ LabState.lab_id row = lab_id
      /\ LabState.version row = version
      /\ forall other, In other (lab_states db) ->
           LabState.lab_id other = lab_id ->
           LabState.version other = version -> other = row
  | NotFound =>
      ~ 1 <= version <= n
      /\ forall other, In other (lab_states db) ->
           LabState.lab_id other = lab_id ->
           LabState.version other <> version
  | _ => True
  end
  /\ match get_current_state db lab_id with
     | OK row =>
         0 < n
         /\ In row (lab_states db)
         /\ LabState.lab_id row = lab_id
         /\ LabState.version row = n
         /\ forall other, In other (lab_states db) ->
              LabState.lab_id other = lab_id ->
              LabState.version other <= LabState.version row
     | NotFound =>
         n = 0
         /\ forall other, In other (lab_states db) ->
              LabState.lab_id other <> lab_id
     | _ => True
     end.
Proof.
  intros Hr db n.
  destruct (reachable_ledger sys Hr) as ([Hcont _] & Hv & _).
  fold db in Hcont, Hv.
  split.
  - unfold get_state_version.
    destruct (is_int4 version); [|exact I].
    rewrite filter_lab_version.
    destruct (filter_key_nodup LabState.version (states_of db lab_id) version
                (proj1 (Hcont lab_id)))
      as [[Hn ->]|(x & Hx & Hfx & ->)]; simpl.
    + split.
      * intros Hrange. apply Hn. now apply (Hcont lab_id).
      * intros other Hin Hlab Hver. apply Hn. unfold versions_of.
        rewrite <- Hver. apply in_map. now apply in_states_of.
    + apply in_states_of in Hx as Hx'. destruct Hx' as [Hin Hlab].
      rewrite (respond_valid x (Hv x Hin)).
      split; [|split; [exact Hin|split; [exact Hlab|split; [exact Hfx|]]]].
      * apply (Hcont lab_id). unfold versions_of. rewrite <- Hfx.
        now apply in_map.
      * intros other Hoin Holab Hover.
        apply (map_injective_on LabState.version (states_of db lab_id));
          try assumption.
        -- apply (Hcont lab_id).
        -- now apply in_states_of.
        -- congruence.
  - unfold get_current_state.
    destruct (current_state_of db lab_id) as [cs|] eqn:Ecur.
    + pose proof (current_version_contiguous _ _ _ (Hcont lab_id) Ecur) as Hc.
      fold n in Hc.
      unfold current_state_of in Ecur. apply greatest_version_Some in Ecur.
      destruct Ecur as [Hin Hmax]. apply in_states_of in Hin as Hin'.
      destruct Hin' as [Hrow Hlab].
      rewrite (respond_valid cs (Hv cs Hrow)).
      split; [|split; [exact Hrow|split; [exact Hlab|split; [exact Hc|]]]].
      * unfold n, versions_of. rewrite length_map.
        destruct (states_of db lab_id); [contradiction|simpl; lia].
      * intros other Hoin Holab. apply Hmax. now apply in_states_of.
    + apply current_none_contiguous in Ecur. split.
      * unfold n. now rewrite Ecur.
      * intros other Hoin Holab. unfold versions_of in Ecur.
        apply map_eq_nil in Ecur.
        assert (Hs : In other (states_of db lab_id))
          by now apply in_states_of.
        now rewrite Ecur in Hs.
Qed.

(** X11 at versions 1 and 3 of a lab with two states. *)
Lemma state_routes_on_reachable_witness :
  (exists row,
     get_state_version Examples.db_two_runs 1%N 1 = OK row
     /\ In row (lab_states Examples.db_two_runs)
     /\ LabState.lab_id row = 1%N
     /\ LabState.version row = 1)
  /\ get_state_version Examples.db_two_runs 1%N 3 = NotFound
  /\ exists row,
       get_current_state Examples.db_two_runs 1%N = OK row
       /\ In row (lab_states Examples.db_two_runs)
       /\ LabState.lab_id row = 1%N
       /\ LabState.version row = 2.
Proof.
  pose proof (state_routes_on_reachable Examples.sys_two_runs 1%N 1
                two_runs_reachable) as H1.
  cbv zeta in H1.
  change (committed Examples.sys_two_runs) with Examples.db_two_runs in H1.
  destruct H1 as [Hv Hc].
  split; [|split].
  - destruct (get_state_version Examples.db_two_runs 1%N 1) as [row| | | |]
      eqn:E; try (vm_compute in E; discriminate).
    exists row. destruct Hv as (_ & Hin & Hl & Hn & _).
    repeat split; assumption.
  - reflexivity.
  - destruct (get_current_state Examples.db_two_runs 1%N) as [row| | | |]
      eqn:E; try (vm_compute in E; discriminate).
    exists row. destruct Hc as (_ & Hin & Hl & Hn & _).
    repeat split; assumption.
Defined.

Lemma insert_by_version_desc_perm s l :
  Permutation (insert_by_version_desc s l) (s :: l).
Proof.
  induction l as [|x l IH]; simpl; [reflexivity|].
  destruct (LabState.version x <=? LabState.version s); [reflexivity|].
  rewrite IH. apply perm_swap.
Qed.

Lemma order_by_version_desc_perm l : Permutation (order_by_version_desc l) l.
Proof.
  induction l as [|x l IH]; simpl; [reflexivity|].
  rewrite insert_by_version_desc_perm. now constructor.
Qed.

Lemma insert_by_version_desc_sorted s l :
  StronglySorted not_older_version l ->
  StronglySorted not_older_version (insert_by_version_desc s l).
Proof.
  induction 1 as [|x l Hs IH Hx]; simpl.
  - repeat constructor.
  - destruct (Z.leb_spec (LabState.version x) (LabState.version s)).
    + constructor; [now constructor|].
      constructor; [assumption|].
      rewrite Forall_forall in *. intros y Hy. specialize (Hx y Hy).
      unfold not_older_version in *. lia.
    + constructor; [exact IH|].
      rewrite Forall_forall in *. intros y Hy.
      apply (Permutation_in _ (insert_by_version_desc_perm s l)) in Hy.
      destruct Hy as [<-|Hy]; [unfold not_older_version; lia|now apply Hx].
Qed.

Lemma order_by_version_desc_sorted l :
  StronglySorted not_older_version (order_by_version_desc l).
Proof.
  induction l as [|x l IH]; simpl; [constructor|].
  now apply insert_by_version_desc_sorted.
Qed.

Lemma descending_versions l :
  StronglySorted not_older_version l ->
  NoDup (map LabState.version l) ->
  StronglySorted (fun a b => b < a) (map LabState.version l).
Proof.
  induction 1 as [|x l Hs IH Hx]; simpl; intros Hnd; [constructor|].
  inversion Hnd as [|y ys Hnin Hnd']; subst.
  constructor; [now apply IH|].
  rewrite Forall_forall in *. intros v Hv.
  apply in_map_iff in Hv. destruct Hv as [z [<- Hz]].
  specialize (Hx z Hz). unfold not_older_version in Hx.
  assert (LabState.version z <> LabState.version x).
  { intros E. apply Hnin. rewrite <- E. now apply in_map. }
  lia.
Qed.

Lemma descending_is_countdown n l :
  StronglySorted (fun a b => b < a) l ->
  (forall v, In v l <-> 1 <= v <= Z.of_nat n) ->
  l = countdown n.
Proof.
  revert l. induction n as [|m IH]; intros l Hs Hin.
  - destruct l as [|h t]; [reflexivity|].
    exfalso. pose proof (proj1 (Hin h) (or_introl eq_refl)). simpl in H. lia.
  - destruct l as [|h t].
    + exfalso. apply (proj2 (Hin 1)). lia.
    + inversion Hs as [|h' t' Hst Hlt]; subst.
      rewrite Forall_forall in Hlt.
      assert (Hh : h = Z.of_nat (S m)).
      { pose proof (proj1 (Hin h) (or_introl eq_refl)) as Hb.
        assert (Htop : In (Z.of_nat (S m)) (h :: t)) by (apply Hin; lia).
        destruct Htop as [E|Ht]; [lia|].
        specialize (Hlt _ Ht). lia. }
      change (countdown (S m)) with (Z.of_nat (S m) :: countdown m).
      rewrite Hh. f_equal. apply IH; [exact Hst|].
      intros v. split.
      * intros Hv. pose proof (Hlt v Hv).
        pose proof (proj1 (Hin v) (or_intror Hv)). lia.
      * intros Hv. assert (Hl : In v (h :: t)) by (apply Hin; lia).
        destruct Hl as [E|Hl]; [lia|exact Hl].
Qed.

Lemma all_some_valid rows :
  (forall row, In row rows ->
     Constraints.lab_state_data (LabState.state row) = true) ->
  all_some (map lab_state_response rows) = Some rows.
Proof.
  induction rows as [|x rows IH]; simpl; intros H; [reflexivity|].
  assert (Hx : lab_state_response x = Some x).
  { unfold lab_state_response.
    rewrite (state_dump_validates _ (H x (or_introl eq_refl))).
    now destruct x. }
  rewrite Hx, IH by (intros y Hy; apply H; now right). reflexivity.
Qed.

(** X12. When [get_state_history] returns and its page query ran on a
    reachable database, the total is the number of states the lab had when
    the count ran, and the page holds the versions [n, n-1, ..., 1] of the
    lab when the page query ran, cut by the offset and the limit, rows of
    that lab only. *)
Theorem history_pages_count_down db sys' lab_id limit offset :
  reachable sys' ->
  let db' := committed sys' in
  match get_state_history db db' lab_id limit offset with
  | OK (page, total) =>
      total = Z.of_nat (List.length (versions_of db lab_id))
      /\ map LabState.version page
         = firstn (Z.to_nat limit)
             (skipn (Z.to_nat offset)
                (countdown (List.length (versions_of db' lab_id))))
      /\ forall row, In row page ->
           In row (lab_states db') /\ LabState.lab_id row = lab_id
  | _ => True
  end.
Proof.
  intros Hr db'.
  destruct (reachable_ledger sys' Hr) as ([Hcont _] & Hv & _).
  fold db' in Hcont, Hv.
  set (sorted := order_by_version_desc (states_of db' lab_id)).
  set (page := firstn (Z.to_nat limit) (skipn (Z.to_nat offset) sorted)).
  assert (Hperm : Permutation sorted (states_of db' lab_id))
    by apply order_by_version_desc_perm.
  assert (Hsub : forall row, In row page -> In row (states_of db' lab_id)).
  { intros row H. apply in_firstn, in_skipn in H.
    now apply (Permutation_in _ Hperm). }
  unfold get_state_history.
  destruct ((limit <? 0) || (offset <? 0) || negb (is_int4 limit)
            || negb (is_int4 offset)); [exact I|].
  fold sorted. fold page. rewrite all_some_valid.
  - split; [|split].
    + unfold versions_of. now rewrite length_map.
    + unfold page. rewrite <- firstn_map, <- skipn_map. f_equal. f_equal.
      apply descending_is_countdown.
      * apply descending_versions; [apply order_by_version_desc_sorted|].
        apply (Permutation_NoDup (Permutation_sym (Permutation_map _ Hperm))).
        apply (Hcont lab_id).
      * intros v. rewrite <- (proj2 (Hcont lab_id) v).
        unfold versions_of.
        split; apply Permutation_in;
          [apply Permutation_map; exact Hperm
          |apply Permutation_map; apply Permutation_sym; exact Hperm].
    + intros row H. apply Hsub in H. now apply in_states_of in H.
  - intros row Hrow. apply Hv. apply Hsub in Hrow.
    now apply in_states_of in Hrow.
Qed.

(** X12 at a lab whose second state was committed between the count and the page. *)
Lemma history_pages_count_down_witness :
  exists page,
    get_state_history Examples.db_one_run Examples.db_two_runs 1%N 10 0
    = OK (page, 1)
    /\ map LabState.version page = [2; 1]
    /\ forall row, In row page ->
         In row (lab_states Examples.db_two_runs)
         /\ LabState.lab_id row = 1%N.
Proof.
  pose proof (history_pages_count_down Examples.db_one_run
                Examples.sys_two_runs 1%N 10 0 two_runs_reachable) as H.
  cbv zeta in H.
  change (committed Examples.sys_two_runs) with Examples.db_two_runs in H.
  destruct (get_state_history Examples.db_one_run Examples.db_two_runs 1%N
              10 0)
    as [[page total]| | | |] eqn:E; try (vm_compute in E; discriminate).
  destruct H as (-> & Hversions & Hrows).
  exists page. split; [reflexivity|]. split; [exact Hversions|exact Hrows].
Defined.

(* ===================================================================== *)
(** ** The routes of signals *)
(* ===================================================================== *)

Lemma insert_signal_Some db s db' :
  insert_signal db s = Some db' ->
  db' = {| labs := labs db; lab_states := lab_states db;
           raw_signals := raw_signals db ++ [s];
           distillation_runs := distillation_runs db |}
  /\ (forall x, In x (raw_signals db) -> RawSignal.id x <> RawSignal.id s)
  /\ In (RawSignal.lab_id s) (labs db).
Proof.
  unfold insert_signal. intros H.
  destruct (existsb _ (raw_signals db)) eqn:Ex; simpl in H; [discriminate|].
  destruct (in_ (labs db) (RawSignal.lab_id s)) eqn:El; simpl in H;
    [|discriminate].
  destruct (50 <? _); simpl in H; [discriminate|].
  destruct (255 <? _); simpl in H; [discriminate|].
  destruct (is_text (RawSignal.signal_type s)); simpl in H; [|discriminate].
  destruct (is_text (RawSignal.created_by s)); simpl in H; [|discriminate].
  inversion H. split; [reflexivity|]. split; [|now apply in__In].
  intros x Hx E.
  assert (existsb (fun x => N.eqb (RawSignal.id x) (RawSignal.id s))
            (raw_signals db) = true).
  { apply existsb_exists. exists x. split; [exact Hx|now apply N.eqb_eq]. }
  congruence.
Qed.

Lemma filter_fresh_id db s lab :
  (forall x, In x (raw_signals db) -> RawSignal.id x <> RawSignal.id s) ->
  filter (fun x => N.eqb (RawSignal.id x) (RawSignal.id s)
                   && N.eqb (RawSignal.lab_id x) lab)
    (raw_signals db ++ [s])
  = if N.eqb (RawSignal.lab_id s) lab then [s] else [].
Proof.
  intros H. rewrite filter_app. simpl. rewrite N.eqb_refl. simpl.
  rewrite filter_none.
  - now destruct (N.eqb (RawSignal.lab_id s) lab).
  - intros x Hx. apply andb_false_iff. left. apply N.eqb_neq. now apply H.
Qed.

(** X13. On a server that reads a stored object back as an object:
    when [create_signal] returns, the body validated as a [SignalCreate]
    whose content validates for its type, and the table of signals grew by
    one row of the lab, unprocessed, by the user, whose content is what the
    JSONB column made of the posted content; the row is in the backlog of
    the lab, [get_signal] returns it under its lab and raises 404 under any
    other lab. When [create_signal] does not return, the database is
    unchanged. *)
Theorem created_signal_is_found_by_its_lab server uuid now db lab_id
    user_id body :
  stores_objects server ->
  match create_signal server uuid now db lab_id user_id body with
  | (Created signal, db') =>
      exists signal_in stored,
        SignalSchema.SignalCreate.model_validate body = Some signal_in
        /\ SignalSchema.SignalCreate.get_typed_content signal_in <> None
        /\ RawSignal.id signal = uuid
        /\ RawSignal.content signal
           = JObj (SignalSchema.SignalCreate.content signal_in)
        /\ jsonb server (RawSignal.content signal)
           = Some (RawSignal.content stored)
        /\ RawSignal.id stored = uuid
        /\ RawSignal.lab_id stored = lab_id
        /\ RawSignal.signal_type stored
           = SignalSchema.signal_type_str
               (SignalSchema.SignalCreate.signal_type signal_in)
        /\ RawSignal.processed stored = false
        /\ RawSignal.created_by stored = user_id
        /\ raw_signals db' = raw_signals db ++ [stored]
        /\ lab_states db' = lab_states db
        /\ distillation_runs db' = distillation_runs db
        /\ In stored (unprocessed_of db' lab_id)
        /\ get_signal db' lab_id uuid = OK stored
        /\ (forall other, other <> lab_id ->
              get_signal db' other uuid = NotFound)
  | (_, db') => db' = db
  end.
Proof.
  intros Hobj. unfold create_signal.
  destruct (SignalSchema.SignalCreate.model_validate body) as [signal_in|]
    eqn:Ev; [|reflexivity].
  destruct (SignalSchema.SignalCreate.get_typed_content signal_in) as [c|]
    eqn:Ec; [|reflexivity].
  destruct (jsonb server _) as [content|] eqn:Ej; [|reflexivity].
  set (stored := {| RawSignal.id := uuid; RawSignal.lab_id := lab_id;
                    RawSignal.signal_type := _;
                    RawSignal.content := content;
                    RawSignal.processed := false;
                    RawSignal.created_at := now;
                    RawSignal.created_by := user_id |}).
  destruct (insert_signal db stored) as [db'|] eqn:Ei; [|reflexivity].
  apply insert_signal_Some in Ei. destruct Ei as (-> & Hfresh & _).
  destruct (Hobj _ _ Ej) as [fields Hfields].
  exists signal_in, stored. simpl.
  split; [reflexivity|]. split; [congruence|]. split; [reflexivity|].
  split; [reflexivity|]. split; [exact Ej|]. split; [reflexivity|].
  split; [reflexivity|]. split; [reflexivity|]. split; [reflexivity|].
  split; [reflexivity|]. split; [reflexivity|]. split; [reflexivity|].
  split; [reflexivity|]. split; [|split].
  - unfold unprocessed_of. simpl. rewrite filter_app. apply in_or_app. right.
    simpl. rewrite N.eqb_refl. simpl. now left.
  - unfold get_signal. simpl raw_signals.
    change uuid with (RawSignal.id stored).
    rewrite (filter_fresh_id db stored lab_id Hfresh). simpl.
    rewrite N.eqb_refl. simpl. unfold respond_signal, signal_response.
    simpl. now rewrite Hfields.
  - intros other Hne. unfold get_signal. simpl raw_signals.
    change uuid with (RawSignal.id stored).
    rewrite (filter_fresh_id db stored other Hfresh). simpl.
    destruct (N.eqb_spec lab_id other); [congruence|reflexivity].
Qed.

(** The server of the examples reads objects back as objects. *)
Lemma sorting_server_stores_objects : stores_objects Examples.sorting_server.
Proof.
  intros fields v H. simpl in H. inversion H. eexists. reflexivity.
Qed.

(** X13 at an experiment signal on a server that orders the keys: the content returned is as posted, the content stored is reordered. *)
Lemma created_signal_is_found_by_its_lab_witness :
  exists signal stored db',
    create_signal Examples.sorting_server 31%N 70
      (committed Scenario.sys_ready) 1%N (lit "user_2")
      Examples.experiment_body
    = (Created signal, db')
    /\ RawSignal.content signal
       = JObj [(lit "technique", JStr (lit "PCR"));
               (lit "outcome", JStr (lit "success"));
               (lit "notes", JStr (lit "Amplified target gene"))]
    /\ RawSignal.content stored
       = JObj [(lit "notes", JStr (lit "Amplified target gene"));
               (lit "outcome", JStr (lit "success"));
               (lit "technique", JStr (lit "PCR"))]
    /\ map RawSignal.id (unprocessed_of db' 1%N) = [11%N; 31%N]
    /\ get_signal db' 1%N 31%N = OK stored
    /\ get_signal db' 2%N 31%N = NotFound.
Proof.
  pose proof (created_signal_is_found_by_its_lab Examples.sorting_server
                31%N 70 (committed Scenario.sys_ready) 1%N (lit "user_2")
                Examples.experiment_body sorting_server_stores_objects) as T.
  destruct (create_signal Examples.sorting_server 31%N 70
              (committed Scenario.sys_ready) 1%N (lit "user_2")
              Examples.experiment_body) as [answer db'] eqn:E.
  vm_compute in E. injection E as <- <-.
  destruct T as (signal_in & stored & _ & _ & _ & Hposted & Hjsonb & _ & _
                 & _ & _ & _ & Hrows & _ & _ & _ & Hget & Hother).
  eexists. exists stored. eexists. split; [reflexivity|].
  split; [reflexivity|]. split.
  { vm_compute in Hjsonb. now inversion Hjsonb. }
  split; [reflexivity|]. split; [exact Hget|].
  apply Hother. discriminate.
Defined.

Lemma insert_by_created_at_desc_perm s l :
  Permutation (insert_by_created_at_desc s l) (s :: l).
Proof.
  induction l as [|x l IH]; simpl; [reflexivity|].
  destruct (RawSignal.created_at x <=? RawSignal.created_at s);
    [reflexivity|].
  rewrite IH. apply perm_swap.
Qed.

Lemma order_by_created_at_desc_perm l :
  Permutation (order_by_created_at_desc l) l.
Proof.
  induction l as [|x l IH]; simpl; [reflexivity|].
  rewrite insert_by_created_at_desc_perm. now constructor.
Qed.

Lemma insert_by_created_at_desc_sorted s l :
  StronglySorted not_older l ->
  StronglySorted not_older (insert_by_created_at_desc s l).
Proof.
  induction 1 as [|x l Hs IH Hx]; simpl.
  - repeat constructor.
  - destruct (Z.leb_spec (RawSignal.created_at x) (RawSignal.created_at s)).
    + constructor; [now constructor|].
      constructor; [assumption|].
      rewrite Forall_forall in *. intros y Hy. specialize (Hx y Hy).
      unfold not_older in *. lia.
    + constructor; [exact IH|].
      rewrite Forall_forall in *. intros y Hy.
      apply (Permutation_in _ (insert_by_created_at_desc_perm s l)) in Hy.
      destruct Hy as [<-|Hy]; [unfold not_older; lia|now apply Hx].
Qed.

Lemma order_by_created_at_desc_sorted l :
  StronglySorted not_older (order_by_created_at_desc l).
Proof.
  induction l as [|x l IH]; simpl; [constructor|].
  now apply insert_by_created_at_desc_sorted.
Qed.

Lemma all_some_signal_response page bodies :
  all_some (map signal_response page) = Some bodies -> bodies = page.
Proof.
  revert bodies. induction page as [|x page IH]; simpl; intros bodies H.
  - now inversion H.
  - unfold signal_response at 1 in H.
    destruct (RawSignal.content x); simpl in H; try discriminate.
    destruct (all_some (map signal_response page)) as [rest|];
      simpl in H; [|discriminate].
    inversion H. f_equal. now apply IH.
Qed.

(** X14. When [list_signals] returns, the total is the number of rows
    that matched the lab and the filters when the count ran, whatever the
    page; the page has [min(limit, max(0, m - offset))] rows for the [m]
    rows that matched when the page query ran, newest first, each of the
    lab and matching the filters; with [processed=false] and no type the
    rows counted are the backlog of [get_unprocessed_signals]. *)
Theorem listing_pages_newest_first db db' lab_id processed signal_type
    limit offset :
  let matching (d : DB) :=
    filter (listed lab_id processed signal_type) (raw_signals d) in
  match list_signals db db' lab_id processed signal_type limit offset with
  | OK (page, total) =>
      total = Z.of_nat (List.length (matching db))
      /\ Z.of_nat (List.length page)
         = Z.min limit
             (Z.max 0 (Z.of_nat (List.length (matching db')) - offset))
      /\ StronglySorted not_older page
      /\ (forall s, In s page ->
            In s (raw_signals db')
            /\ RawSignal.lab_id s = lab_id
            /\ (forall p, processed = Some p -> RawSignal.processed s = p)
            /\ (forall t, signal_type = Some t ->
                  RawSignal.signal_type s = t))
      /\ (processed = Some false -> signal_type = None ->
          matching db = unprocessed_of db lab_id)
  | _ => True
  end.
Proof.
  intros matching.
  set (rows := matching db').
  set (sorted := order_by_created_at_desc rows).
  set (page := firstn (Z.to_nat limit) (skipn (Z.to_nat offset) sorted)).
  assert (Hperm : Permutation sorted rows)
    by apply order_by_created_at_desc_perm.
  assert (Hsub : forall s, In s page -> In s rows).
  { intros s H. apply in_firstn, in_skipn in H.
    now apply (Permutation_in _ Hperm). }
  unfold list_signals.
  destruct (Z.ltb_spec limit 0) as [|Hl]; [exact I|].
  destruct (Z.ltb_spec offset 0) as [|Ho]; [exact I|]. simpl.
  destruct (negb (is_int4 limit) || negb (is_int4 offset) || _); [exact I|].
  fold (matching db'). fold rows. fold sorted. fold page.
  destruct (all_some (map signal_response page)) as [bodies|] eqn:Eb;
    [|exact I].
  apply all_some_signal_response in Eb. subst bodies.
  split; [reflexivity|]. split; [|split; [|split]].
  - unfold page. rewrite length_firstn, length_skipn.
    rewrite (Permutation_length Hperm). lia.
  - apply firstn_sorted, skipn_sorted, order_by_created_at_desc_sorted.
  - intros s Hs. apply Hsub in Hs. apply filter_In in Hs.
    destruct Hs as [Hin Hm]. unfold listed in Hm.
    apply andb_true_iff in Hm. destruct Hm as [Hm Ht].
    apply andb_true_iff in Hm. destruct Hm as [Hlab Hp].
    split; [exact Hin|]. split; [now apply N.eqb_eq|]. split.
    + intros p ->. now apply Bool.eqb_prop.
    + intros t ->. now apply eqb_eq.
  - intros -> ->. unfold matching, unprocessed_of. apply filter_ext.
    intros s. unfold listed. rewrite andb_true_r.
    now destruct (RawSignal.processed s).
Qed.

(** X14 at the last page of eleven signals, three to a page. *)
Lemma listing_pages_newest_first_witness :
  exists page,
    list_signals Scenario.db_eleven Scenario.db_eleven 1%N (Some false)
      (Some (lit "experiment")) 3 9
    = OK (page, 11)
    /\ map RawSignal.id page = [102%N; 101%N]
    /\ StronglySorted not_older page.
Proof.
  pose proof (listing_pages_newest_first Scenario.db_eleven
                Scenario.db_eleven 1%N (Some false)
                (Some (lit "experiment")) 3 9) as H.
  cbv zeta in H.
  destruct (list_signals Scenario.db_eleven Scenario.db_eleven 1%N
              (Some false) (Some (lit "experiment")) 3 9)
    as [[page total]| | | |] eqn:E; try (vm_compute in E; discriminate).
  destruct H as (-> & _ & Hsorted & _).
  exists page. split; [reflexivity|]. split; [|exact Hsorted].
  vm_compute in E. now inversion E.
Defined.

(* ===================================================================== *)
(** ** The prompt of a request *)
(* ===================================================================== *)









(* ===================================================================== *)
(** ** A body in a code fence *)
(* ===================================================================== *)

Lemma lstrip_blanks ws c rest :
  forallb isspace ws = true -> isspace c = false ->
  lstrip (ws ++ c :: rest) = c :: rest.
Proof.
  induction ws as [|w ws IH]; simpl; intros Hws Hc.
  - now rewrite Hc.
  - apply andb_true_iff in Hws. destruct Hws as [Hw Hws].
    rewrite Hw. now apply IH.
Qed.

Lemma forallb_rev {A} (p : A -> bool) l :
  forallb p l = true -> forallb p (rev l) = true.
Proof.
  rewrite !forallb_forall. intros H x Hx. apply H. now apply in_rev.
Qed.

Lemma rstrip_blanks ws c front :
  forallb isspace ws = true -> isspace c = false ->
  rstrip (front ++ c :: ws) = front ++ [c].
Proof.
  intros Hws Hc. unfold rstrip. rewrite rev_app_distr. simpl.
  rewrite <- app_assoc. simpl.
  rewrite (lstrip_blanks (rev ws) c (rev front) (forallb_rev _ _ Hws) Hc).
  simpl. now rewrite rev_involutive.
Qed.

Lemma strip_blanks before after a middle b :
  forallb isspace before = true -> forallb isspace after = true ->
  isspace a = false -> isspace b = false ->
  strip (before ++ a :: middle ++ b :: after) = a :: middle ++ [b].
Proof.
  intros Hb Ha Hfa Hfb. unfold strip.
  rewrite (lstrip_blanks before a _ Hb Hfa).
  change (a :: middle ++ b :: after) with ((a :: middle) ++ b :: after).
  now rewrite (rstrip_blanks after b (a :: middle) Ha Hfb).
Qed.

(** X16. A completion that wraps a body in a code fence, with any
    language tag on the opening line and blanks around the fence, is parsed
    as the body alone, whatever the body holds (other lines, fences). *)
Theorem fenced_body_is_recovered before lang body after :
  forallb isspace before = true ->
  forallb isspace after = true ->
  no_newline lang ->
  response_text
    (before ++ fence ++ lang ++ [newline] ++ body ++ [newline] ++ fence
     ++ after)
  = body.
Proof.
  intros Hb Ha Hl. unfold response_text.
  assert (Hs : strip (before ++ fence ++ lang ++ [newline] ++ body
                      ++ [newline] ++ fence ++ after)
               = (fence ++ lang) ++ newline :: body ++ newline :: fence).
  { set (middle := 96%N :: 96%N :: lang ++ newline :: body
                    ++ [newline; 96%N; 96%N]).
    replace (before ++ fence ++ lang ++ [newline] ++ body ++ [newline]
             ++ fence ++ after)
      with (before ++ 96%N :: middle ++ 96%N :: after).
    - rewrite (strip_blanks before after 96%N middle 96%N Hb Ha
                 eq_refl eq_refl).
      unfold middle. change fence with [96%N; 96%N; 96%N].
      repeat (simpl; rewrite <- app_assoc). reflexivity.
    - unfold middle. change fence with [96%N; 96%N; 96%N].
      repeat (simpl; rewrite <- app_assoc). reflexivity. }
  rewrite Hs.
  assert (Hf : startswith ((fence ++ lang) ++ newline :: body
                           ++ newline :: fence) fence = true).
  { change fence with [96%N; 96%N; 96%N]. simpl.
    now destruct (lang ++ newline :: body ++ [newline; 96%N; 96%N; 96%N]). }
  rewrite Hf.
  rewrite split_lines_app, split_lines_single.
  - rewrite split_lines_app, (split_lines_single fence).
    + unfold slice_1_m1. simpl. rewrite removelast_last. apply join_split.
    + now apply (lit_no_newline "```").
  - intros H. apply in_app_iff in H. destruct H as [H|H]; [|now apply Hl].
    now apply (lit_no_newline "```") in H.
Qed.

(** X16 at a body of two lines in a fence tagged json. *)
Lemma fenced_body_is_recovered_witness :
  response_text
    (lit " " ++ fence ++ lit "json" ++ [newline]
     ++ (lit "{" ++ [newline] ++ lit "}") ++ [newline] ++ fence
     ++ [newline])
  = lit "{" ++ [newline] ++ lit "}".
Proof.
  apply (fenced_body_is_recovered (lit " ") (lit "json")
           (lit "{" ++ [newline] ++ lit "}") [newline]).
  - reflexivity.
  - reflexivity.
  - intros H. vm_compute in H. intuition discriminate.
Defined.

(* ===================================================================== *)
(** ** The retries of the task *)
(* ===================================================================== *)

Lemma retry_chain_spec {R E : Type} remaining retries
    (body : nat -> Execution R E) :
  exists k,
    (k <= remaining)%nat
    /\ (forall i, (i < k)%nat -> exists e, body (retries + i)%nat = Raises e)
    /\ retry_chain remaining retries body
       = (body (retries + k)%nat,
          map (fun i => retry_countdown (retries + i)) (seq 0 k))
    /\ ((k < remaining)%nat ->
        exists result, body (retries + k)%nat = Returns result).
Proof.
  revert retries. induction remaining as [|m IH]; intros retries.
  - exists 0%nat. rewrite Nat.add_0_r. simpl.
    split; [lia|]. split; [intros i Hi; lia|]. split; [|lia].
    destruct (body retries); reflexivity.
  - destruct (body retries) as [result|e] eqn:Eb.
    + exists 0%nat. rewrite Nat.add_0_r. simpl. rewrite Eb.
      split; [lia|]. split; [intros i Hi; lia|]. split; [reflexivity|].
      intros _. now exists result.
    + destruct (IH (S retries)) as (k & Hk & Hfail & Hchain & Hlast).
      exists (S k). split; [lia|]. split; [|split].
      * intros [|i] Hi.
        -- exists e. now rewrite Nat.add_0_r.
        -- destruct (Hfail i) as [e' He']; [lia|]. exists e'.
           now rewrite <- Nat.add_succ_comm.
      * simpl retry_chain. rewrite Eb, Hchain.
        rewrite <- Nat.add_succ_comm. f_equal.
        simpl. rewrite Nat.add_0_r. f_equal.
        rewrite <- seq_shift, map_map.
        apply map_ext. intros i. now rewrite <- Nat.add_succ_comm.
      * intros Hlt. rewrite <- Nat.add_succ_comm. apply Hlast. lia.
Qed.

(** X17. Whatever the executions of its body do,
    [distill_lab_state] runs at most four of them: it ends with the outcome
    of the first execution that returns, or with the exception of the
    fourth, every execution before that one raised, and the countdowns
    before the retries are 10, 20 and 40 seconds. *)
Theorem retries_end_on_first_return {R E : Type}
    (body : nat -> Execution R E) :
  exists k,
    (k <= 3)%nat
    /\ (forall i, (i < k)%nat -> exists e, body i = Raises e)
    /\ distill_lab_state body = (body k, firstn k [10; 20; 40])
    /\ ((k < 3)%nat -> exists result, body k = Returns result).
Proof.
  destruct (retry_chain_spec max_retries 0 body)
    as (k & Hk & Hfail & Hchain & Hlast).
  exists k. unfold max_retries in Hk, Hlast.
  split; [exact Hk|]. split; [exact Hfail|]. split; [|exact Hlast].
  unfold distill_lab_state. rewrite Hchain. simpl. f_equal.
  destruct k as [|[|[|[|k]]]]; try reflexivity. lia.
Qed.

(** Two executions raise, the third returns. *)
Example two_failures_then_success :
  distill_lab_state Examples.flaky
  = (Returns (Completed 1%N 1 (Some 57) 3), [10; 20]).
Proof. reflexivity. Qed.

(** Every execution raises, here its own number: four executions, and the exception of the last is raised. *)
Example four_failures_give_up :
  distill_lab_state
    (fun retries : nat =>
       @Raises TaskResult nat retries)
  = (Raises 3%nat, [10; 20; 40]).
Proof. reflexivity. Qed.
